(** * stack0 sdk-go: a shallow embedding of the client library

    The first part embeds the code, package by package:
    - [goint]       : Go's [int], a 64-bit two's-complement integer;
    - [gostd], [url], [json] : what the SDK uses of [strings], [strconv],
                      [net/url] and [encoding/json];
    - [types]       : package [types] (errors, batch status constants);
    - [env]         : the world a call runs in (network, clock, context) and
                      the history a run leaves behind;
    - [client]      : package [client] ([doRequest], [Get], [Post]);
    - [poll]        : the polling loop that the four and-wait helpers share;
    - [extraction]  : [Extract], [Get], [List], [ExtractAndWait], [BatchAndWait];
    - [screenshots] : [Capture], [Get], [List], [CaptureAndWait], [BatchAndWait];
    - [cdn]         : [getNearestWidth], [buildTransformQuery],
                      [GetTransformURL] and the list methods;
    - [mail]        : the list methods of the mail client and its sub-clients.

    The second part states and proves the properties of the specification.

    Go [string]s are byte sequences and are modelled by [string] (a list of
    [ascii] bytes).  Arithmetic on Go [int] is written with its wrap-around.
    [time.Duration] is an [int64] count of nanoseconds, carried as a [Z];
    the code compares durations and never computes with them.  A pointer
    field that may be [nil] is an [option]. *)

From Stdlib Require Import ZArith NArith List String Ascii Bool Lia.
From Stdlib Require Import DecimalString Sorted.
Import ListNotations.

Local Open Scope string_scope.
Local Open Scope Z_scope.

(** ** Machine integers *)

Module goint.

(** Go's [int] on the 64-bit platforms the SDK targets. *)
Definition bits : Z := 64.
Definition MinInt : Z := - 2 ^ (bits - 1).
Definition MaxInt : Z := 2 ^ (bits - 1) - 1.

Definition in_range (z : Z) : Prop := MinInt <= z <= MaxInt.

(** Two's-complement wrap-around of an arithmetic result. *)
Definition wrap (z : Z) : Z := (z - MinInt) mod 2 ^ bits + MinInt.

Definition sub (a b : Z) : Z := wrap (a - b).
Definition neg (a : Z) : Z := wrap (- a).

End goint.

(** ** The Go standard library, as far as the SDK uses it *)

Module gostd.

(** [strconv.Itoa]: decimal text of an integer. *)
Definition Itoa (z : Z) : string := NilZero.string_of_int (Z.to_int z).

(** [strconv.FormatBool]. *)
Definition FormatBool (b : bool) : string := if b then "true" else "false".

(** [strings.HasPrefix]. *)
Definition HasPrefix (s p : string) : bool := String.prefix p s.

(** [strings.HasSuffix]. *)
Definition HasSuffix (s p : string) : bool :=
  (String.length p <=? String.length s)%nat &&
  String.eqb (substring (String.length s - String.length p) (String.length p) s) p.

(** [strings.TrimSuffix]: [s] without the trailing [p], [s] itself when it
    does not end in [p]. *)
Definition TrimSuffix (s p : string) : string :=
  if HasSuffix s p then substring 0 (String.length s - String.length p) s else s.

(** [strings.Join]. *)
Fixpoint Join (elems : list string) (sep : string) : string :=
  match elems with
  | [] => ""
  | [x] => x
  | x :: rest => x ++ sep ++ Join rest sep
  end.

(** *** [strings] helpers on single bytes *)

(** [strings.Cut] at the first occurrence of a byte:
    [Some (before, after)], [None] when the byte does not occur. *)
Fixpoint Cut (c : ascii) (s : string) : option (string * string) :=
  match s with
  | EmptyString => None
  | String a r =>
      if Ascii.eqb a c then Some (EmptyString, r)
      else match Cut c r with
           | Some (b, t) => Some (String a b, t)
           | None => None
           end
  end.

(** The same split at the last occurrence ([strings.LastIndex]). *)
Fixpoint CutLast (c : ascii) (s : string) : option (string * string) :=
  match s with
  | EmptyString => None
  | String a r =>
      match CutLast c r with
      | Some (b, t) => Some (String a b, t)
      | None => if Ascii.eqb a c then Some (EmptyString, r) else None
      end
  end.

(** [strings.Count] for a single byte. *)
Fixpoint Count (c : ascii) (s : string) : nat :=
  match s with
  | EmptyString => O
  | String a r => ((if Ascii.eqb a c then 1 else 0) + Count c r)%nat
  end.

Fixpoint forallb_string (p : ascii -> bool) (s : string) : bool :=
  match s with
  | EmptyString => true
  | String a r => p a && forallb_string p r
  end.

Definition byte (c : ascii) : nat := nat_of_ascii c.

Definition between (lo hi : ascii) (c : ascii) : bool :=
  ((byte lo <=? byte c) && (byte c <=? byte hi))%nat.

Definition isLower (c : ascii) : bool := between "a" "z" c.
Definition isUpper (c : ascii) : bool := between "A" "Z" c.
Definition isDigit (c : ascii) : bool := between "0" "9" c.
Definition isAlnum (c : ascii) : bool := isLower c || isUpper c || isDigit c.

Definition memByte (c : ascii) (set : string) : bool :=
  negb (forallb_string (fun a => negb (Ascii.eqb a c)) set).

(** [strings.ToLower] on ASCII. *)
Definition lowerByte (c : ascii) : ascii :=
  if isUpper c then ascii_of_nat (byte c + 32) else c.

Fixpoint ToLower (s : string) : string :=
  match s with
  | EmptyString => EmptyString
  | String a r => String (lowerByte a) (ToLower r)
  end.

End gostd.

(** ** [net/url] *)

Module url.
Import gostd.

(** The escaping modes of [net/url] (the IPv6 zone mode is not modelled). *)
Inductive encoding : Type :=
| encodePath
| encodePathSegment
| encodeHost
| encodeUserPassword
| encodeQueryComponent
| encodeFragment.

Definition isHostMode (m : encoding) : bool :=
  match m with encodeHost => true | _ => false end.

Definition isQueryMode (m : encoding) : bool :=
  match m with encodeQueryComponent => true | _ => false end.

(** [shouldEscape]: whether byte [c] must be percent-escaped in [mode]. *)
Definition shouldEscape (c : ascii) (mode : encoding) : bool :=
  if isAlnum c then false
  else if isHostMode mode
          && (memByte c "!$&'()*+,;=:[]<>" || Ascii.eqb c (ascii_of_nat 34))
  then false
  else if memByte c "-_.~" then false
  else if memByte c "$&+,/:;=?@" then
    match mode with
    | encodePath => Ascii.eqb c "?"
    | encodePathSegment => memByte c "/;,?"
    | encodeUserPassword => memByte c "@/?:"
    | encodeQueryComponent => true
    | encodeFragment => false
    | encodeHost => true
    end
  else if match mode with encodeFragment => memByte c "!()*" | _ => false end
  then false
  else true.

Definition upperhex (n : nat) : ascii :=
  match get n "0123456789ABCDEF" with Some c => c | None => "0"%char end.

(** [escape] in query-component mode: space becomes [+], every byte that
    [shouldEscape] becomes [%XX] in upper-case hex. *)
Fixpoint QueryEscape (s : string) : string :=
  match s with
  | EmptyString => EmptyString
  | String c r =>
      if shouldEscape c encodeQueryComponent then
        if Ascii.eqb c " " then String "+" (QueryEscape r)
        else String "%" (String (upperhex (byte c / 16))
               (String (upperhex (byte c mod 16)) (QueryEscape r)))
      else String c (QueryEscape r)
  end.

(** [url.Values]: Go's [map[string][]string].  The map is kept as an
    association list with one entry per key, in insertion order; the
    order is not observable since [Encode] sorts the keys. *)
Definition Values : Type := list (string * list string).

(** [Values.Set]: replace any existing values of [key] by [value]. *)
Fixpoint SetValue (v : Values) (key value : string) : Values :=
  match v with
  | [] => [(key, [value])]
  | (k, vs) :: rest =>
      if String.eqb k key then (key, [value]) :: rest
      else (k, vs) :: SetValue rest key value
  end.

(** [Values.Has]. *)
Definition Has (v : Values) (key : string) : bool :=
  existsb (fun kv => String.eqb (fst kv) key) v.

(** [slices.Sort] of the keys, as an insertion sort on byte-wise order. *)
Fixpoint insertKey (kv : string * list string) (v : Values) : Values :=
  match v with
  | [] => [kv]
  | kv' :: rest =>
      if String.leb (fst kv) (fst kv') then kv :: kv' :: rest
      else kv' :: insertKey kv rest
  end.

Definition sortKeys (v : Values) : Values := fold_right insertKey [] v.

(** [Values.Encode]: ["k1=v1&k2=v2"] sorted by key, keys and values
    query-escaped; [""] for the empty map. *)
Definition Encode (v : Values) : string :=
  Join (flat_map (fun kv =>
                    map (fun x => QueryEscape (fst kv) ++ "=" ++ QueryEscape x)
                        (snd kv))
                 (sortKeys v)) "&".

(** *** [url.Parse]

    The parser follows [net/url]: fragment, control-character check,
    scheme, query, authority, path.  Two simplifications, neither of which
    a caller in this SDK can observe through [Scheme], [Host] and [Path] of
    an ordinary reference: the zone identifier of a bracketed IPv6 host is
    decoded like the rest of the host, and [RawPath]/[RawFragment] are not
    kept. *)

Inductive ParseError : Type :=
| EscapeError (s : string)          (* invalid URL escape *)
| InvalidHostError (s : string)     (* invalid character in host name *)
| SyntaxError (msg : string).       (* the [errors.New] cases of [parse] *)

Record URL : Type := mkURL {
  Scheme : string;
  Opaque : string;
  User : option string;
  Host : string;
  Path : string;
  ForceQuery : bool;
  RawQuery : string;
  Fragment : string
}.

Definition ishex (c : ascii) : bool :=
  isDigit c || between "a" "f" c || between "A" "F" c.

Definition unhex (c : ascii) : nat :=
  if isDigit c then byte c - 48
  else if between "a" "f" c then byte c - 97 + 10
  else if between "A" "F" c then byte c - 65 + 10
  else 0.

(** [unescape]: validate and decode the percent escapes of [s]. *)
Fixpoint unescape (mode : encoding) (s : string) : ParseError + string :=
  match s with
  | EmptyString => inr EmptyString
  | String c r =>
      if Ascii.eqb c "%" then
        match r with
        | String h (String l r') =>
            if ishex h && ishex l then
              if isHostMode mode && (unhex h <? 8)%nat
                 && negb (Ascii.eqb h "2" && Ascii.eqb l "5")
              then inl (EscapeError (String c (String h (String l EmptyString))))
              else match unescape mode r' with
                   | inr t => inr (String (ascii_of_nat (16 * unhex h + unhex l)) t)
                   | inl e => inl e
                   end
            else inl (EscapeError (String c (String h (String l EmptyString))))
        | _ => inl (EscapeError s)
        end
      else if isHostMode mode && (byte c <? 128)%nat && shouldEscape c mode
      then inl (InvalidHostError (String c EmptyString))
      else match unescape mode r with
           | inr t =>
               inr (String (if isQueryMode mode && Ascii.eqb c "+" then " "%char else c) t)
           | inl e => inl e
           end
  end.

(** [stringContainsCTLByte]. *)
Definition stringContainsCTLByte (s : string) : bool :=
  negb (forallb_string (fun c => negb ((byte c <? 32)%nat || (byte c =? 127)%nat)) s).

(** [getScheme]: split [scheme ":"] off the front; no scheme when the first
    byte is not a letter or an invalid byte precedes the colon. *)
Fixpoint getSchemeFrom (first : bool) (s : string) : ParseError + option (string * string) :=
  match s with
  | EmptyString => inr None
  | String c r =>
      if isLower c || isUpper c then
        match getSchemeFrom false r with
        | inr (Some (sch, rest)) => inr (Some (String c sch, rest))
        | other => other
        end
      else if isDigit c || memByte c "+-." then
        if first then inr None
        else match getSchemeFrom false r with
             | inr (Some (sch, rest)) => inr (Some (String c sch, rest))
             | other => other
             end
      else if Ascii.eqb c ":" then
        if first then inl (SyntaxError "missing protocol scheme")
        else inr (Some (EmptyString, r))
      else inr None
  end.

Definition getScheme (rawURL : string) : ParseError + (string * string) :=
  match getSchemeFrom true rawURL with
  | inl e => inl e
  | inr (Some p) => inr p
  | inr None => inr ("", rawURL)
  end.

(** [validOptionalPort]: empty, or a colon followed by digits only. *)
Definition validOptionalPort (port : string) : bool :=
  match port with
  | EmptyString => true
  | String c r => Ascii.eqb c ":" && forallb_string isDigit r
  end.

(** [parseHost]. *)
Definition parseHost (host : string) : ParseError + string :=
  let portOK :=
    if HasPrefix host "[" then
      match CutLast "]" host with
      | None => inl (SyntaxError "missing ']' in host")
      | Some (_, colonPort) =>
          if validOptionalPort colonPort then inr tt
          else inl (SyntaxError "invalid port after host")
      end
    else
      match CutLast ":" host with
      | Some (_, port) =>
          if forallb_string isDigit port then inr tt
          else inl (SyntaxError "invalid port after host")
      | None => inr tt
      end in
  match portOK with
  | inl e => inl e
  | inr _ => unescape encodeHost host
  end.

(** [validUserinfo]. *)
Definition validUserinfo (s : string) : bool :=
  forallb_string (fun c => isAlnum c || memByte c "-._:~!$&'()*+,;=%@") s.

(** [parseAuthority]: [userinfo "@" host]. *)
Definition parseAuthority (authority : string) : ParseError + (option string * string) :=
  match CutLast "@" authority with
  | None =>
      match parseHost authority with
      | inl e => inl e
      | inr host => inr (None, host)
      end
  | Some (userinfo, hostpart) =>
      match parseHost hostpart with
      | inl e => inl e
      | inr host =>
          if negb (validUserinfo userinfo)
          then inl (SyntaxError "net/url: invalid userinfo")
          else
            let (username, password) :=
              match Cut ":" userinfo with
              | Some (u, p) => (u, p)
              | None => (userinfo, "")
              end in
            match unescape encodeUserPassword username,
                  unescape encodeUserPassword password with
            | inl e, _ => inl e
            | _, inl e => inl e
            | inr _, inr _ => inr (Some userinfo, host)
            end
      end
  end.

Definition dropLast (s : string) : string := substring 0 (String.length s - 1) s.

(** [parse(rawURL, viaRequest = false)]. *)
Definition parse (rawURL : string) : ParseError + URL :=
  if stringContainsCTLByte rawURL
  then inl (SyntaxError "net/url: invalid control character in URL")
  else if String.eqb rawURL "*"
  then inr (mkURL "" "" None "" "*" false "" "")
  else
    match getScheme rawURL with
    | inl e => inl e
    | inr (scheme, rest) =>
        let scheme := ToLower scheme in
        let '(rest, rawQuery, force) :=
          if HasSuffix rest "?" && (Count "?" rest =? 1)%nat
          then (dropLast rest, "", true)
          else match Cut "?" rest with
               | Some (b, q) => (b, q, false)
               | None => (rest, "", false)
               end in
        let hasScheme := negb (String.eqb scheme "") in
        if negb (HasPrefix rest "/") && hasScheme
        then inr (mkURL scheme rest None "" "" force rawQuery "")
        else if negb (HasPrefix rest "/")
                && memByte ":" (match Cut "/" rest with
                                | Some (seg, _) => seg
                                | None => rest
                                end)
        then inl (SyntaxError "first path segment in URL cannot contain colon")
        else
          let auth :=
            if (hasScheme || negb (HasPrefix rest "///")) && HasPrefix rest "//"
            then
              let a := substring 2 (String.length rest - 2) rest in
              let (authority, rest') :=
                match Cut "/" a with
                | Some (au, p) => (au, String "/" p)
                | None => (a, "")
                end in
              match parseAuthority authority with
              | inl e => inl e
              | inr (user, host) => inr (user, host, rest')
              end
            else inr (None, "", rest) in
          match auth with
          | inl e => inl e
          | inr (user, host, rest) =>
              match unescape encodePath rest with
              | inl e => inl e
              | inr path => inr (mkURL scheme "" user host path force rawQuery "")
              end
          end
    end.

(** [url.Parse]: cut the fragment off at the first [#], parse the rest,
    then decode the fragment. *)
Definition Parse (rawURL : string) : ParseError + URL :=
  let (u, frag) :=
    match Cut "#" rawURL with
    | Some (u, f) => (u, f)
    | None => (rawURL, "")
    end in
  match parse u with
  | inl e => inl e
  | inr url =>
      if String.eqb frag "" then inr url
      else match unescape encodeFragment frag with
           | inl e => inl e
           | inr f =>
               inr (mkURL (Scheme url) (Opaque url) (User url) (Host url)
                          (Path url) (ForceQuery url) (RawQuery url) f)
           end
  end.

End url.



(** ** [encoding/json], restricted to what the SDK's error path reads *)

Module json.
Import gostd.

(** JSON values of a flat object: the decoder below covers objects whose
    members are scalars, which is the shape of the API's error payload
    and of the fields the pollers inspect.  Nested arrays and objects and
    [\u] escapes are outside the model and reported as syntax errors. *)
Inductive Value : Type :=
| VString (s : string)
| VNumber (literal : string)
| VBool (b : bool)
| VNull.

Inductive Error : Type :=
| SyntaxError
| UnmarshalTypeError (field : string).

Definition dquote : ascii := ascii_of_nat 34.
Definition backslash : ascii := ascii_of_nat 92.

Definition isSpace (c : ascii) : bool :=
  Ascii.eqb c " " || (byte c =? 9)%nat || (byte c =? 10)%nat || (byte c =? 13)%nat.

Fixpoint skipSpace (s : string) : string :=
  match s with
  | String c r => if isSpace c then skipSpace r else s
  | EmptyString => s
  end.

Definition unescapeByte (e : ascii) : option ascii :=
  if Ascii.eqb e dquote then Some dquote
  else if Ascii.eqb e backslash then Some backslash
  else if Ascii.eqb e "/" then Some "/"%char
  else if Ascii.eqb e "b" then Some (ascii_of_nat 8)
  else if Ascii.eqb e "f" then Some (ascii_of_nat 12)
  else if Ascii.eqb e "n" then Some (ascii_of_nat 10)
  else if Ascii.eqb e "r" then Some (ascii_of_nat 13)
  else if Ascii.eqb e "t" then Some (ascii_of_nat 9)
  else None.

(** The text of a string literal and what follows it; [s] starts right
    after the opening quote. *)
Fixpoint scanString (s : string) : option (string * string) :=
  match s with
  | EmptyString => None
  | String c r =>
      if Ascii.eqb c dquote then Some (EmptyString, r)
      else if Ascii.eqb c backslash then
        match r with
        | String e r' =>
            match unescapeByte e, scanString r' with
            | Some x, Some (t, rest) => Some (String x t, rest)
            | _, _ => None
            end
        | EmptyString => None
        end
      else if (byte c <? 32)%nat then None
      else match scanString r with
           | Some (t, rest) => Some (String c t, rest)
           | None => None
           end
  end.

(** A bare token, up to the next delimiter. *)
Fixpoint scanToken (s : string) : string * string :=
  match s with
  | EmptyString => (EmptyString, EmptyString)
  | String c r =>
      if isSpace c || memByte c ",}" then (EmptyString, s)
      else let (t, rest) := scanToken r in (String c t, rest)
  end.

Definition isNumber (t : string) : bool :=
  match t with
  | EmptyString => false
  | String c r =>
      (isDigit c || (Ascii.eqb c "-" && negb (String.eqb r "")))
      && forallb_string (fun x => isDigit x || memByte x "+-.eE") r
  end.

Definition scanValue (s : string) : option (Value * string) :=
  match s with
  | EmptyString => None
  | String c r =>
      if Ascii.eqb c dquote then
        match scanString r with
        | Some (t, rest) => Some (VString t, rest)
        | None => None
        end
      else
        let (t, rest) := scanToken s in
        if String.eqb t "true" then Some (VBool true, rest)
        else if String.eqb t "false" then Some (VBool false, rest)
        else if String.eqb t "null" then Some (VNull, rest)
        else if isNumber t then Some (VNumber t, rest)
        else None
  end.

(** The members of an object, [s] positioned in front of a key. *)
Fixpoint scanMembers (fuel : nat) (s : string) (acc : list (string * Value))
  : option (list (string * Value) * string) :=
  match fuel with
  | O => None
  | S fuel' =>
      match skipSpace s with
      | String q r =>
          if Ascii.eqb q dquote then
            match scanString r with
            | Some (k, r1) =>
                match skipSpace r1 with
                | String colon r2 =>
                    if Ascii.eqb colon ":" then
                      match scanValue (skipSpace r2) with
                      | Some (v, r3) =>
                          match skipSpace r3 with
                          | String d r4 =>
                              if Ascii.eqb d "," then scanMembers fuel' r4 (acc ++ [(k, v)])%list
                              else if Ascii.eqb d "}" then Some ((acc ++ [(k, v)])%list, r4)
                              else None
                          | EmptyString => None
                          end
                      | None => None
                      end
                    else None
                | EmptyString => None
                end
            | None => None
            end
          else None
      | EmptyString => None
      end
  end.

(** The member list of a flat JSON object; [None] on a syntax error. *)
Definition parseObject (data : string) : option (list (string * Value)) :=
  match skipSpace data with
  | String c r =>
      if Ascii.eqb c "{" then
        match skipSpace r with
        | String d r' =>
            if Ascii.eqb d "}"
            then if String.eqb (skipSpace r') "" then Some [] else None
            else match scanMembers (String.length data) r [] with
                 | Some (ms, rest) =>
                     if String.eqb (skipSpace rest) "" then Some ms else None
                 | None => None
                 end
        | EmptyString => None
        end
      else None
  | EmptyString => None
  end.

(** A string literal for text that needs no escapes beyond the quote and
    the backslash. *)
Fixpoint quoteBody (s : string) : string :=
  match s with
  | EmptyString => EmptyString
  | String c r =>
      if Ascii.eqb c dquote || Ascii.eqb c backslash
      then String backslash (String c (quoteBody r))
      else String c (quoteBody r)
  end.

Definition quote (s : string) : string :=
  String dquote (quoteBody s ++ String dquote EmptyString).

(** The text of a flat object with string members. *)
Definition object (members : list (string * string)) : string :=
  "{" ++ Join (map (fun kv => quote (fst kv) ++ ":" ++ quote (snd kv)) members) ","
      ++ "}".

(** The value of a non-negative decimal literal. *)
Definition parseDecimal (lit : string) : option Z :=
  if negb (String.eqb lit "") && forallb_string isDigit lit
  then Some (Z.of_nat
               (List.fold_left (fun acc c => (10 * acc + (byte c - 48))%nat)
                               (list_ascii_of_string lit) O))
  else None.

(** Struct fields are matched against object keys without regard to
    ASCII case. *)
Definition keyMatches (field key : string) : bool :=
  String.eqb (ToLower field) (ToLower key).

End json.

(** ** Package [types] *)

Module types.

(** [Environment] and [BatchJobStatus] are Go string types. *)
Definition Environment : Type := string.
Definition EnvironmentSandbox : Environment := "sandbox".
Definition EnvironmentProduction : Environment := "production".

Definition BatchJobStatus : Type := string.
Definition BatchJobStatusPending : BatchJobStatus := "pending".
Definition BatchJobStatusProcessing : BatchJobStatus := "processing".
Definition BatchJobStatusCompleted : BatchJobStatus := "completed".
Definition BatchJobStatusFailed : BatchJobStatus := "failed".
Definition BatchJobStatusCancelled : BatchJobStatus := "cancelled".

(** The batch statuses on which [BatchAndWait] stops polling. *)
Definition isBatchTerminal (status : BatchJobStatus) : bool :=
  String.eqb status BatchJobStatusCompleted
  || String.eqb status BatchJobStatusFailed
  || String.eqb status BatchJobStatusCancelled.

(** [ErrorResponse] represents an error response from the API. *)
Record ErrorResponse : Type := mkErrorResponse {
  er_Message : string;     (* json:"message" *)
  er_Code : string         (* json:"code,omitempty" *)
}.

(** [APIError] represents an error returned by the Stack0 API. *)
Record APIError : Type := mkAPIError {
  StatusCode : Z;
  Code : string;
  Message : string;
  Response : ErrorResponse
}.

(** [TimeoutError] represents a timeout error during polling operations. *)
Record TimeoutError : Type := mkTimeoutError {
  te_Message : string
}.

Definition NewTimeoutError (message : string) : TimeoutError :=
  mkTimeoutError message.



(** Values of Go's [error] interface, by the dynamic types that occur in
    the SDK. *)
Inductive error : Type :=
| errorString (s : string)               (* [errors.New], [fmt.Errorf] without [%w] *)
| wrapError (msg : string) (err : error) (* [fmt.Errorf("msg: %w", err)] *)
| deadlineExceededError                  (* [context.DeadlineExceeded] *)
| jsonError (e : json.Error)             (* errors of [encoding/json] *)
| urlError (e : url.ParseError)          (* [*url.Error] of [url.Parse] *)
| netError (msg : string)                (* transport errors of [net/http] *)
| ptrAPIError (e : APIError)             (* [*types.APIError] *)
| ptrTimeoutError (e : TimeoutError).    (* [*types.TimeoutError] *)

(** The dynamic type of an error value. *)
Inductive errorType : Type :=
| T_errorString | T_wrapError | T_deadlineExceededError | T_jsonError
| T_urlError | T_netError | T_APIError | T_TimeoutError.

Definition typeOf (e : error) : errorType :=
  match e with
  | errorString _ => T_errorString
  | wrapError _ _ => T_wrapError
  | deadlineExceededError => T_deadlineExceededError
  | jsonError _ => T_jsonError
  | urlError _ => T_urlError
  | netError _ => T_netError
  | ptrAPIError _ => T_APIError
  | ptrTimeoutError _ => T_TimeoutError
  end.

(** [errors.As(err, &target)] for [target *TimeoutError]: the first
    [*TimeoutError] along the [Unwrap] chain. *)
Fixpoint AsTimeoutError (e : error) : option TimeoutError :=
  match e with
  | ptrTimeoutError t => Some t
  | wrapError _ e' => AsTimeoutError e'
  | _ => None
  end.

(** [errors.As] for [target *APIError]. *)
Fixpoint AsAPIError (e : error) : option APIError :=
  match e with
  | ptrAPIError a => Some a
  | wrapError _ e' => AsAPIError e'
  | _ => None
  end.


(** The two values [ctx.Err()] returns once [ctx.Done()] is closed. *)
Inductive ctxErr : Type := Canceled | DeadlineExceeded.

Definition ctx_Err (e : ctxErr) : error :=
  match e with
  | Canceled => errorString "context canceled"
  | DeadlineExceeded => deadlineExceededError
  end.

(** What makes the timeout error a kind of its own: its dynamic type is
    [*TimeoutError], which is the type of no API error, of no
    [errors.New] value (the domain failure, [context.Canceled]) and of no
    context error; [errors.As] finds a [*TimeoutError] in it and no
    [*APIError]. *)
Definition DistinctTimeoutKind (e : error) : Prop :=
  typeOf e = T_TimeoutError /\
  (forall a, typeOf (ptrAPIError a) <> typeOf e) /\
  (forall m, typeOf (errorString m) <> typeOf e) /\
  (forall ce, typeOf (ctx_Err ce) <> typeOf e) /\
  AsAPIError e = None /\
  (exists t, AsTimeoutError e = Some t).

(** [json.Unmarshal(data, &v)] into a zero-valued [v] of type [T]:
    the value [v] holds afterwards and the error returned. *)
Class Decoder (T : Type) : Type := {
  zero : T;
  Unmarshal : string -> T * option json.Error
}.

(** [json.Marshal(v)]. *)
Class Encoder (T : Type) : Type := {
  Marshal : T -> json.Error + string
}.

(** Decoding of a string-typed struct field from the members of an
    object: the last matching member wins, [null] leaves the field alone,
    any other value is a type error and leaves the field alone. *)
Fixpoint stringField (field : string) (ms : list (string * json.Value))
         (cur : string) (err : option json.Error) : string * option json.Error :=
  match ms with
  | [] => (cur, err)
  | (k, v) :: rest =>
      if json.keyMatches field k then
        match v with
        | json.VString s => stringField field rest s err
        | json.VNull => stringField field rest cur err
        | _ => stringField field rest cur
                 (match err with
                  | None => Some (json.UnmarshalTypeError field)
                  | Some e => Some e
                  end)
        end
      else stringField field rest cur err
  end.

(** The same for a [*string] field, where [null] stores [nil]. *)
Fixpoint stringPtrField (field : string) (ms : list (string * json.Value))
         (cur : option string) (err : option json.Error)
  : option string * option json.Error :=
  match ms with
  | [] => (cur, err)
  | (k, v) :: rest =>
      if json.keyMatches field k then
        match v with
        | json.VString s => stringPtrField field rest (Some s) err
        | json.VNull => stringPtrField field rest None err
        | _ => stringPtrField field rest cur
                 (match err with
                  | None => Some (json.UnmarshalTypeError field)
                  | Some e => Some e
                  end)
        end
      else stringPtrField field rest cur err
  end.

(** The same for an [int] field. *)
Fixpoint intField (field : string) (ms : list (string * json.Value))
         (cur : Z) (err : option json.Error) : Z * option json.Error :=
  match ms with
  | [] => (cur, err)
  | (k, v) :: rest =>
      if json.keyMatches field k then
        match v with
        | json.VNull => intField field rest cur err
        | json.VNumber lit =>
            match json.parseDecimal lit with
            | Some z => intField field rest z err
            | None => intField field rest cur
                        (match err with
                         | None => Some (json.UnmarshalTypeError field)
                         | Some e => Some e
                         end)
            end
        | _ => intField field rest cur
                 (match err with
                  | None => Some (json.UnmarshalTypeError field)
                  | Some e => Some e
                  end)
        end
      else intField field rest cur err
  end.

(** A [*string] member of a flat object: nothing when [nil]. *)
Definition optMember (key : string) (v : option string) : list string :=
  match v with
  | Some x => [json.quote key ++ ":" ++ json.quote x]
  | None => []
  end.

(** [json.Unmarshal] into an [ErrorResponse], on flat objects. *)
Definition UnmarshalErrorResponse (data : string) : ErrorResponse * option json.Error :=
  match json.parseObject data with
  | None => (mkErrorResponse "" "", Some json.SyntaxError)
  | Some ms =>
      let (m, e1) := stringField "message" ms "" None in
      let (c, e2) := stringField "code" ms "" e1 in
      (mkErrorResponse m c, e2)
  end.

Definition flatErrorResponseDecoder : Decoder ErrorResponse :=
  {| zero := mkErrorResponse "" ""; Unmarshal := UnmarshalErrorResponse |}.

(** A [nil] request body: there is nothing to marshal. *)
Definition nilEncoder : Encoder Empty_set :=
  {| Marshal := fun b : Empty_set => match b return json.Error + string with end |}.

(** *** Request bodies built as maps *)

(** A value stored in a [map[string]interface{}] request body: a string,
    a boolean, an integer, or a nested value (a struct or a map) that only
    [json.Marshal] looks at. *)
Inductive Any : Type :=
| AString (s : string)
| ABool (b : bool)
| AInt (n : Z)
| ANested (payload : string).

(** [map[string]interface{}]: one entry per key. *)
Definition Object : Type := list (string * Any).

(** [m[key] = v]. *)
Fixpoint objSet (m : Object) (key : string) (v : Any) : Object :=
  match m with
  | [] => [(key, v)]
  | (k, x) :: rest =>
      if String.eqb k key then (k, v) :: rest else (k, x) :: objSet rest key v
  end.

(** [v, ok := m[key]]. *)
Fixpoint objGet (m : Object) (key : string) : option Any :=
  match m with
  | [] => None
  | (k, x) :: rest => if String.eqb k key then Some x else objGet rest key
  end.

(** [if req.X != nil { body[key] = *req.X }]. *)
Definition objSetOpt (m : Object) (key : string) (field : option Any) : Object :=
  match field with
  | Some v => objSet m key v
  | None => m
  end.

(** What a table of optional fields holds for a key: the value of the
    field of that name when it is set, nothing otherwise. *)
Definition fieldValue (table : list (string * option Any)) (key : string) : option Any :=
  match find (fun kv => String.eqb (fst kv) key) table with
  | Some (_, v) => v
  | None => None
  end.

End types.

(** ** The environment of a call: network, clock and context *)

Module env.
Import types.

(** An outgoing request as [doRequest] assembles it. *)
Record Request : Type := mkRequest {
  Method : string;
  URL : string;
  Header : list (string * string);
  Body : option string
}.

(** What comes back: the status line and the result of [io.ReadAll] on
    the body (an error message or the bytes). *)
Record Response : Type := mkResponse {
  resp_StatusCode : Z;
  resp_Body : string + string
}.

(** How a [select] between [ctx.Done()] and [time.After(pollInterval)]
    ends: the context wins, or the timer fires; [late] is the time (in
    nanoseconds) that the iteration took beyond the poll interval: the
    latency of the status request and the lateness of the timer. *)
Inductive Wake : Type :=
| ctxDone (e : ctxErr)
| timerFired (late : N).

(** The world a helper runs in.  Every field is an oracle: the theorems
    quantify over all worlds. *)
Record World : Type := mkWorld {
  (* [http.NewRequestWithContext(ctx, method, url, body)]: its error. *)
  newRequestError : string -> string -> option string;
  (* [httpClient.Do] for the n-th request this call sends. *)
  roundTrip : nat -> string + Response;
  (* [time.Since(startTime)] at the first test of the polling loop. *)
  firstCheck : N;
  (* the outcome of the i-th [select] of the polling loop. *)
  selectWake : nat -> Wake
}.

(** Client operations, for the log of invocations. *)
Inductive Op : Type :=
| OpExtract | OpCapture | OpBatch      (* start operations *)
| OpGet | OpGetBatchJob.               (* get-status operations *)

Definition isGetStatus (o : Op) : bool :=
  match o with OpGet | OpGetBatchJob => true | _ => false end.

(** One invocation of a client operation and the error it returned. *)
Record Call : Type := mkCall {
  call_op : Op;
  call_id : string;             (* the job identifier, empty for a start *)
  call_err : option error
}.

(** The observable history of a run: the HTTP requests sent and the
    client operations invoked, both oldest first. *)
Record Trace : Type := mkTrace {
  sent : list Request;
  calls : list Call
}.

Definition emptyTrace : Trace := mkTrace [] [].

Definition logRequest (t : Trace) (r : Request) : Trace :=
  mkTrace (sent t ++ [r]) (calls t).

Definition logCall (t : Trace) (c : Call) : Trace :=
  mkTrace (sent t) (calls t ++ [c]).

Definition errOf {A} (r : error + A) : option error :=
  match r with inl e => Some e | inr _ => None end.

(** The status calls recorded in a history. *)
Definition getCalls (t : Trace) : list Call :=
  filter (fun c => isGetStatus (call_op c)) (calls t).

Definition npolls (t : Trace) : nat := List.length (getCalls t).

End env.

(** ** Package [client] *)

Module client.
Import types env.

(** [HTTPClient] handles HTTP communication with the Stack0 API.  The
    [*http.Client] with its 30 second timeout is part of the world. *)
Record HTTPClient : Type := New {
  apiKey : string;
  baseURL : string
}.

Definition MethodGet : string := "GET".
Definition MethodPost : string := "POST".
Definition MethodPut : string := "PUT".
Definition MethodPatch : string := "PATCH".
Definition MethodDelete : string := "DELETE".

Section Requests.
Context (w : World) (c : HTTPClient).
Context {errorResponseDecoder : Decoder ErrorResponse}.

(** [doRequest] performs an HTTP request. *)
Definition doRequest {B} `{Encoder B} (t : Trace) (method path : string)
           (body : option B) : (error + string) * Trace :=
  let marshalled :=
    match body with
    | Some b =>
        match Marshal b with
        | inl e => inl e
        | inr jsonBytes => inr (Some jsonBytes)
        end
    | None => inr None
    end in
  match marshalled with
  | inl e => (inl (wrapError "failed to marshal request body" (jsonError e)), t)
  | inr reqBody =>
      match newRequestError w method (baseURL c ++ path) with
      | Some e => (inl (wrapError "failed to create request" (netError e)), t)
      | None =>
          let header :=
            ("Authorization", "Bearer " ++ apiKey c)
            :: match body with
               | Some _ => [("Content-Type", "application/json")]
               | None => []
               end in
          let req := mkRequest method (baseURL c ++ path) header reqBody in
          let t' := logRequest t req in
          match roundTrip w (List.length (sent t)) with
          | inl e => (inl (wrapError "request failed" (netError e)), t')
          | inr resp =>
              match resp_Body resp with
              | inl e =>
                  (inl (wrapError "failed to read response body" (netError e)), t')
              | inr respBody =>
                  if 400 <=? resp_StatusCode resp then
                    let (errResp, err) := Unmarshal (T := ErrorResponse) respBody in
                    let errResp :=
                      match err with
                      | Some _ => mkErrorResponse respBody (er_Code errResp)
                      | None => errResp
                      end in
                    (inl (ptrAPIError
                            (mkAPIError (resp_StatusCode resp) (er_Code errResp)
                                        (er_Message errResp) errResp)), t')
                  else (inr respBody, t')
              end
          end
      end
  end.

(** The common tail of [Get], [Post], ...: decode a non-empty body into
    the result. *)
Definition decodeResult {T} `{Decoder T} (respBody : string) : error + T :=
  if (0 <? String.length respBody)%nat then
    match Unmarshal respBody with
    | (_, Some e) => inl (jsonError e)
    | (v, None) => inr v
    end
  else inr zero.

Definition finish {T} `{Decoder T} (r : (error + string) * Trace)
  : (error + T) * Trace :=
  match r with
  | (inl err, t) => (inl err, t)
  | (inr respBody, t) => (decodeResult respBody, t)
  end.

(** [Get] performs a GET request. *)
Definition Get {T} `{Decoder T} (t : Trace) (path : string)
  : (error + T) * Trace :=
  finish (doRequest (H := nilEncoder) t MethodGet path None).

(** [Post] performs a POST request. *)
Definition Post {B T} `{Encoder B} `{Decoder T} (t : Trace) (path : string)
           (body : B) : (error + T) * Trace :=
  finish (doRequest t MethodPost path (Some body)).

(** [DeleteWithBody] performs a DELETE request with a body. *)
Definition DeleteWithBody {B T} `{Encoder B} `{Decoder T} (t : Trace)
           (path : string) (body : B) : (error + T) * Trace :=
  finish (doRequest t MethodDelete path (Some body)).

(** [Put] performs a PUT request. *)
Definition Put {B T} `{Encoder B} `{Decoder T} (t : Trace) (path : string)
           (body : B) : (error + T) * Trace :=
  finish (doRequest t MethodPut path (Some body)).

(** [Patch] performs a PATCH request. *)
Definition Patch {B T} `{Encoder B} `{Decoder T} (t : Trace) (path : string)
           (body : B) : (error + T) * Trace :=
  finish (doRequest t MethodPatch path (Some body)).

(** [Delete] performs a DELETE request. *)
Definition Delete {T} `{Decoder T} (t : Trace) (path : string)
  : (error + T) * Trace :=
  finish (doRequest (H := nilEncoder) t MethodDelete path None).

End Requests.

End client.

(** ** The polling loop of the and-wait helpers *)

Module poll.
Import types env.

(** [time.Second], in nanoseconds. *)
Definition Second : Z := 1000000000.

(** Options of the helpers: [ExtractAndWaitOptions] and
    [CaptureAndWaitOptions] have the same two [time.Duration] fields. *)
Record WaitOptions : Type := mkWaitOptions {
  PollInterval : Z;
  Timeout : Z
}.

(** The head of every helper:
    [if opts != nil { if opts.PollInterval > 0 {...}; if opts.Timeout > 0 {...} }]
    over the two defaults. *)
Definition resolve (defaultInterval defaultTimeout : Z) (opts : option WaitOptions)
  : Z * Z :=
  let pollInterval := defaultInterval in
  let timeout := defaultTimeout in
  match opts with
  | Some o =>
      let pollInterval := if 0 <? PollInterval o then PollInterval o else pollInterval in
      let timeout := if 0 <? Timeout o then Timeout o else timeout in
      (pollInterval, timeout)
  | None => (pollInterval, timeout)
  end.

(** Loop iterations that can start before the deadline: every pass through
    the [select] moves the clock by at least [pollInterval]. *)
Definition pollFuel (pollInterval timeout : Z) : nat :=
  S (S (Z.to_nat (timeout / pollInterval))).

Section Loop.
Context (w : World) {R : Type}.
(* the get-status call of the helper, with the request it builds *)
Variable getStatus : Trace -> (error + R) * Trace.
(* the terminal-status block: [Some] result to return, [None] to go on *)
Variable onStatus : R -> option (error + R).
Variables (pollInterval timeout : Z) (timeoutMessage : string).

(** [for time.Since(startTime) < timeout { ... }] followed by the
    timeout return.  The four helpers contain this loop word for word, up
    to the status call and the terminal-status block, which are the two
    parameters here.  [i] counts the iterations, [elapsed] is the value
    [time.Since(startTime)] has at the loop test: the world's first
    reading, then at least [pollInterval] more after every timer. *)
Fixpoint pollLoop (fuel : nat) (i : nat) (elapsed : Z) (t : Trace)
  : option ((error + R) * Trace) :=
  match fuel with
  | O => None
  | S fuel' =>
      if elapsed <? timeout then
        match getStatus t with
        | (inl err, t') => Some (inl err, t')
        | (inr r, t') =>
            match onStatus r with
            | Some out => Some (out, t')
            | None =>
                match selectWake w i with
                | ctxDone e => Some (inl (ctx_Err e), t')
                | timerFired late =>
                    pollLoop fuel' (S i) (elapsed + pollInterval + Z.of_N late) t'
                end
            end
        end
      else Some (inl (ptrTimeoutError (NewTimeoutError timeoutMessage)), t)
  end.

(** The same loop as a relation: [Run n i elapsed t out t'] holds when
    the loop, entered at iteration [i] with clock reading [elapsed] and
    history [t], makes [n] status calls and returns [out], leaving
    history [t']. *)
Inductive Run : nat -> nat -> Z -> Trace -> (error + R) -> Trace -> Prop :=
| run_deadline i elapsed t :
    timeout <= elapsed ->
    Run 0 i elapsed t (inl (ptrTimeoutError (NewTimeoutError timeoutMessage))) t
| run_get_failed i elapsed t err t' :
    elapsed < timeout ->
    getStatus t = (inl err, t') ->
    Run 1 i elapsed t (inl err) t'
| run_terminal i elapsed t r t' out :
    elapsed < timeout ->
    getStatus t = (inr r, t') ->
    onStatus r = Some out ->
    Run 1 i elapsed t out t'
| run_cancelled i elapsed t r t' e :
    elapsed < timeout ->
    getStatus t = (inr r, t') ->
    onStatus r = None ->
    selectWake w i = ctxDone e ->
    Run 1 i elapsed t (inl (ctx_Err e)) t'
| run_again n i elapsed t r t' late out t'' :
    elapsed < timeout ->
    getStatus t = (inr r, t') ->
    onStatus r = None ->
    selectWake w i = timerFired late ->
    Run n (S i) (elapsed + pollInterval + Z.of_N late) t' out t'' ->
    Run (S n) i elapsed t out t''.

(** The history in front of the [k]-th status call of a loop entered
    with history [t], and what that call returns. *)
Fixpoint traceAt (t : Trace) (k : nat) : Trace :=
  match k with
  | O => t
  | S k' => traceAt (snd (getStatus t)) k'
  end.

Definition polled (t : Trace) (k : nat) : error + R :=
  fst (getStatus (traceAt t k)).

End Loop.

(** The common shape of the four helpers, once the options are resolved:
    one start call, then the loop on the identifier it returned.  Each
    helper below is written out as in its source and shown to be an
    instance of this shape. *)
Section Helper.
Context (w : World) {Resp R : Type}.
Variable start : Trace -> (error + Resp) * Trace.
Variable getStatusOf : Resp -> Trace -> (error + R) * Trace.
Variable onStatus : R -> option (error + R).
Variable timeoutMessage : string.

Definition andWait (params : Z * Z) (t : Trace) : option ((error + R) * Trace) :=
  let (pollInterval, timeout) := params in
  match start t with
  | (inl err, t1) => Some (inl err, t1)
  | (inr resp, t1) =>
      pollLoop w (getStatusOf resp) onStatus pollInterval timeout timeoutMessage
               (pollFuel pollInterval timeout) 0 (Z.of_N (firstCheck w)) t1
  end.
End Helper.

(** What the log of a run shows when the start operation is invoked
    exactly once and every failure is returned at once: the log is one
    start call followed by status calls only; a failed start is followed
    by nothing and its error is the result; a failed status call is the
    last entry and its error is the result. *)
Definition StartOnceFailFast {R} (startOp getOp : Op) (res : error + R) (t : Trace)
  : Prop :=
  exists start gets,
    calls t = start :: gets /\
    call_op start = startOp /\
    Forall (fun c => call_op c = getOp) gets /\
    (forall e, call_err start = Some e -> res = inl e /\ gets = []) /\
    (forall pre g post e,
        gets = (pre ++ g :: post)%list -> call_err g = Some e ->
        res = inl e /\ post = []).

(** The poll interval [p] and timeout [to] in force for given options:
    the defaults [d1], [d2] unless a field is strictly positive. *)
Definition UsesDefaults (d1 d2 : Z) (opts : option WaitOptions) (p to : Z) : Prop :=
  (opts = None -> p = d1 /\ to = d2) /\
  (forall o, opts = Some o ->
             (PollInterval o <= 0 -> p = d1) /\
             (0 < PollInterval o -> p = PollInterval o) /\
             (Timeout o <= 0 -> to = d2) /\
             (0 < Timeout o -> to = Timeout o)).

(** The [if req.X != nil { params.Set(key, *req.X) }] step of every
    query builder. *)
Definition setOpt (params : url.Values) (key : string) (field : option string)
  : url.Values :=
  match field with
  | Some x => url.SetValue params key x
  | None => params
  end.

(** [if len(params) > 0 { path += "?" + params.Encode() }]. *)
Definition withQuery (path : string) (params : url.Values) : string :=
  if (0 <? List.length params)%nat then path ++ "?" ++ url.Encode params else path.


(** The parameters that are set, in the order given: [name=value] pairs
    joined by [&], names and values query-escaped; and a path followed by
    them: nothing when none is set, otherwise [?] and the pairs. *)
Definition queryString (set : list (string * string)) : string :=
  gostd.Join (map (fun kv => url.QueryEscape (fst kv) ++ "=" ++ url.QueryEscape (snd kv))
                  set) "&".

Definition withParameters (path : string) (set : list (string * string)) : string :=
  match set with
  | [] => path
  | _ => path ++ "?" ++ queryString set
  end.

End poll.

(** ** Package [extraction] *)

Module extraction.
Import types env client poll.

Definition ExtractionStatus : Type := string.
Definition ExtractionStatusPending : ExtractionStatus := "pending".
Definition ExtractionStatusProcessing : ExtractionStatus := "processing".
Definition ExtractionStatusCompleted : ExtractionStatus := "completed".
Definition ExtractionStatusFailed : ExtractionStatus := "failed".

(** [ExtractionResult]: the fields the client code reads; the payload
    fields (markdown, metadata, timestamps, ...) travel with the record
    and are summarised by [Payload]. *)
Module ExtractionResult.
Record t : Type := mk {
  ID : string;
  URL : string;
  Status : ExtractionStatus;
  Error : option string;
  Payload : string
}.
End ExtractionResult.

(** [CreateExtractionRequest]: the target, the two scoping fields the
    helpers copy into the status request, and the optional tuning fields
    as an opaque [Options] value that only [json.Marshal] looks at. *)
Module CreateExtractionRequest.
Record t : Type := mk {
  URL : string;
  Environment : option Environment;
  ProjectID : option string;
  Options : string
}.
End CreateExtractionRequest.

Module CreateExtractionResponse.
Record t : Type := mk {
  ID : string;
  Status : ExtractionStatus
}.
End CreateExtractionResponse.

Module GetExtractionRequest.
Record t : Type := mk {
  ID : string;
  Environment : option Environment;
  ProjectID : option string
}.
End GetExtractionRequest.

Module ListExtractionsRequest.
Record t : Type := mk {
  Environment : option Environment;
  ProjectID : option string;
  Status : option ExtractionStatus;
  URL : option string;
  Limit : option Z;
  Cursor : option string
}.
End ListExtractionsRequest.

Module BatchExtractionJob.
Record t : Type := mk {
  ID : string;
  Status : BatchJobStatus;
  TotalURLs : Z;
  ProcessedURLs : Z;
  SuccessfulURLs : Z;
  FailedURLs : Z;
  Payload : string
}.
End BatchExtractionJob.

Module CreateBatchExtractionsRequest.
Record t : Type := mk {
  URLs : list string;
  Environment : option Environment;
  ProjectID : option string;
  Options : string
}.
End CreateBatchExtractionsRequest.

Module CreateBatchResponse.
Record t : Type := mk {
  ID : string;
  TotalURLs : Z
}.
End CreateBatchResponse.

Module GetBatchJobRequest.
Record t : Type := mk {
  ID : string;
  Environment : option Environment;
  ProjectID : option string
}.
End GetBatchJobRequest.

Module ListBatchJobsRequest.
Record t : Type := mk {
  Environment : option Environment;
  ProjectID : option string;
  Status : option BatchJobStatus;
  Limit : option Z;
  Cursor : option string
}.
End ListBatchJobsRequest.

Module ListSchedulesRequest.
Record t : Type := mk {
  Environment : option Environment;
  ProjectID : option string;
  IsActive : option bool;
  Limit : option Z;
  Cursor : option string
}.
End ListSchedulesRequest.

(** [ExtractAndWaitOptions] are options for [ExtractAndWait]. *)
Definition ExtractAndWaitOptions : Type := WaitOptions.

Section Client.
Context (w : World) (c : HTTPClient).
(* the JSON codecs of the wire types *)
Context {errorResponseDecoder : Decoder ErrorResponse}
        {createRequestEncoder : Encoder CreateExtractionRequest.t}
        {createResponseDecoder : Decoder CreateExtractionResponse.t}
        {resultDecoder : Decoder ExtractionResult.t}
        {listDecoder : Decoder (list ExtractionResult.t * option string)}
        {batchRequestEncoder : Encoder CreateBatchExtractionsRequest.t}
        {batchResponseDecoder : Decoder CreateBatchResponse.t}
        {batchJobDecoder : Decoder BatchExtractionJob.t}
        {batchJobsDecoder : Decoder (list BatchExtractionJob.t * option string)}
        {schedulesDecoder : Decoder (list string * option string)}.

(** [Extract] extracts content from a URL. *)
Definition Extract (t : Trace) (req : CreateExtractionRequest.t)
  : (error + CreateExtractionResponse.t) * Trace :=
  let (r, t') := Post w c t "/webdata/extractions" req in
  (r, logCall t' (mkCall OpExtract "" (errOf r))).

(** [Get] retrieves an extraction by ID. *)
Definition Get (t : Trace) (req : GetExtractionRequest.t)
  : (error + ExtractionResult.t) * Trace :=
  let params : url.Values := [] in
  let params := setOpt params "environment" (GetExtractionRequest.Environment req) in
  let params := setOpt params "projectId" (GetExtractionRequest.ProjectID req) in
  let path := "/webdata/extractions/" ++ GetExtractionRequest.ID req in
  let path := withQuery path params in
  let (r, t') := client.Get w c t path in
  (r, logCall t' (mkCall OpGet (GetExtractionRequest.ID req) (errOf r))).

(** The path [List] requests. *)
Definition ListPath (req : option ListExtractionsRequest.t) : string :=
  let params : url.Values := [] in
  let params :=
    match req with
    | Some req =>
        let params := setOpt params "environment" (ListExtractionsRequest.Environment req) in
        let params := setOpt params "projectId" (ListExtractionsRequest.ProjectID req) in
        let params := setOpt params "status" (ListExtractionsRequest.Status req) in
        let params := setOpt params "url" (ListExtractionsRequest.URL req) in
        let params := setOpt params "limit"
                        (option_map gostd.Itoa (ListExtractionsRequest.Limit req)) in
        let params := setOpt params "cursor" (ListExtractionsRequest.Cursor req) in
        params
    | None => params
    end in
  withQuery "/webdata/extractions" params.

(** [List] lists extractions with pagination and filters. *)
Definition List (t : Trace) (req : option ListExtractionsRequest.t)
  : (error + (list ExtractionResult.t * option string)) * Trace :=
  client.Get w c t (ListPath req).

(** [ExtractAndWait] extracts content and waits for completion. *)
Definition ExtractAndWait (t : Trace) (req : CreateExtractionRequest.t)
           (opts : option ExtractAndWaitOptions)
  : option ((error + ExtractionResult.t) * Trace) :=
  let (pollInterval, timeout) := resolve (1 * Second) (60 * Second) opts in
  match Extract t req with
  | (inl err, t1) => Some (inl err, t1)
  | (inr resp, t1) =>
      pollLoop w
        (fun t =>
           Get t (GetExtractionRequest.mk
                    (CreateExtractionResponse.ID resp)
                    (CreateExtractionRequest.Environment req)
                    (CreateExtractionRequest.ProjectID req)))
        (fun extraction =>
           let status := ExtractionResult.Status extraction in
           if String.eqb status ExtractionStatusCompleted
              || String.eqb status ExtractionStatusFailed
           then
             if String.eqb status ExtractionStatusFailed then
               let errMsg := "Extraction failed" in
               let errMsg :=
                 match ExtractionResult.Error extraction with
                 | Some m => m
                 | None => errMsg
                 end in
               Some (inl (errorString errMsg))
             else Some (inr extraction)
           else None)
        pollInterval timeout "Extraction timed out"
        (pollFuel pollInterval timeout) 0 (Z.of_N (firstCheck w)) t1
  end.

(** [Batch] creates a batch extraction job for multiple URLs. *)
Definition Batch (t : Trace) (req : CreateBatchExtractionsRequest.t)
  : (error + CreateBatchResponse.t) * Trace :=
  let (r, t') := Post w c t "/webdata/batch/extractions" req in
  (r, logCall t' (mkCall OpBatch "" (errOf r))).

(** [GetBatchJob] retrieves a batch job by ID. *)
Definition GetBatchJob (t : Trace) (req : GetBatchJobRequest.t)
  : (error + BatchExtractionJob.t) * Trace :=
  let params : url.Values := [] in
  let params := setOpt params "environment" (GetBatchJobRequest.Environment req) in
  let params := setOpt params "projectId" (GetBatchJobRequest.ProjectID req) in
  let path := "/webdata/batch/" ++ GetBatchJobRequest.ID req in
  let path := withQuery path params in
  let (r, t') := client.Get w c t path in
  (r, logCall t' (mkCall OpGetBatchJob (GetBatchJobRequest.ID req) (errOf r))).

(** The path [ListBatchJobs] requests. *)
Definition ListBatchJobsPath (req : option ListBatchJobsRequest.t) : string :=
  let params : url.Values := [] in
  let params :=
    match req with
    | Some req =>
        let params := setOpt params "environment" (ListBatchJobsRequest.Environment req) in
        let params := setOpt params "projectId" (ListBatchJobsRequest.ProjectID req) in
        let params := setOpt params "status" (ListBatchJobsRequest.Status req) in
        let params := url.SetValue params "type" "extraction" in
        let params := setOpt params "limit"
                        (option_map gostd.Itoa (ListBatchJobsRequest.Limit req)) in
        let params := setOpt params "cursor" (ListBatchJobsRequest.Cursor req) in
        params
    | None => params
    end in
  withQuery "/webdata/batch" params.

(** [ListBatchJobs] lists batch jobs with pagination and filters. *)
Definition ListBatchJobs (t : Trace) (req : option ListBatchJobsRequest.t)
  : (error + (list BatchExtractionJob.t * option string)) * Trace :=
  client.Get w c t (ListBatchJobsPath req).

(** The path [ListSchedules] requests. *)
Definition ListSchedulesPath (req : option ListSchedulesRequest.t) : string :=
  let params : url.Values := [] in
  let params :=
    match req with
    | Some req =>
        let params := setOpt params "environment" (ListSchedulesRequest.Environment req) in
        let params := setOpt params "projectId" (ListSchedulesRequest.ProjectID req) in
        let params := url.SetValue params "type" "extraction" in
        let params := setOpt params "isActive"
                        (option_map gostd.FormatBool (ListSchedulesRequest.IsActive req)) in
        let params := setOpt params "limit"
                        (option_map gostd.Itoa (ListSchedulesRequest.Limit req)) in
        let params := setOpt params "cursor" (ListSchedulesRequest.Cursor req) in
        params
    | None => params
    end in
  withQuery "/webdata/schedules" params.

(** [ListSchedules] lists schedules with pagination and filters. *)
Definition ListSchedules (t : Trace) (req : option ListSchedulesRequest.t)
  : (error + (list string * option string)) * Trace :=
  client.Get w c t (ListSchedulesPath req).

(** [BatchAndWait] creates a batch job and waits for completion. *)
Definition BatchAndWait (t : Trace) (req : CreateBatchExtractionsRequest.t)
           (opts : option ExtractAndWaitOptions)
  : option ((error + BatchExtractionJob.t) * Trace) :=
  let (pollInterval, timeout) := resolve (2 * Second) (300 * Second) opts in
  match Batch t req with
  | (inl err, t1) => Some (inl err, t1)
  | (inr resp, t1) =>
      pollLoop w
        (fun t =>
           GetBatchJob t (GetBatchJobRequest.mk
                            (CreateBatchResponse.ID resp)
                            (CreateBatchExtractionsRequest.Environment req)
                            (CreateBatchExtractionsRequest.ProjectID req)))
        (fun job =>
           let status := BatchExtractionJob.Status job in
           if String.eqb status BatchJobStatusCompleted
              || String.eqb status BatchJobStatusFailed
              || String.eqb status BatchJobStatusCancelled
           then Some (inr job)
           else None)
        pollInterval timeout "Batch job timed out"
        (pollFuel pollInterval timeout) 0 (Z.of_N (firstCheck w)) t1
  end.

(** The status call that the loop of [ExtractAndWait] repeats. *)
Definition ExtractAndWait_status (req : CreateExtractionRequest.t) (resp : CreateExtractionResponse.t)
  : Trace -> (error + ExtractionResult.t) * Trace :=
  fun t =>
    Get t (GetExtractionRequest.mk
             (CreateExtractionResponse.ID resp) (CreateExtractionRequest.Environment req) (CreateExtractionRequest.ProjectID req)).

(** The status call that the loop of [BatchAndWait] repeats. *)
Definition BatchAndWait_status (req : CreateBatchExtractionsRequest.t) (resp : CreateBatchResponse.t)
  : Trace -> (error + BatchExtractionJob.t) * Trace :=
  fun t =>
    GetBatchJob t (GetBatchJobRequest.mk
                     (CreateBatchResponse.ID resp) (CreateBatchExtractionsRequest.Environment req)
                     (CreateBatchExtractionsRequest.ProjectID req)).

End Client.

(** The statuses on which [ExtractAndWait] stops polling. *)
Definition isTerminal (status : ExtractionStatus) : bool :=
  String.eqb status ExtractionStatusCompleted || String.eqb status ExtractionStatusFailed.

(** The terminal-status block of [ExtractAndWait]. *)
Definition onExtraction (extraction : ExtractionResult.t)
  : option (error + ExtractionResult.t) :=
  let status := ExtractionResult.Status extraction in
  if String.eqb status ExtractionStatusCompleted
     || String.eqb status ExtractionStatusFailed
  then
    if String.eqb status ExtractionStatusFailed then
      Some (inl (errorString
                   match ExtractionResult.Error extraction with
                   | Some m => m
                   | None => "Extraction failed"
                   end))
    else Some (inr extraction)
  else None.

(** The terminal-status block of [BatchAndWait]. *)
Definition onBatchJob (job : BatchExtractionJob.t)
  : option (error + BatchExtractionJob.t) :=
  if isBatchTerminal (BatchExtractionJob.Status job) then Some (inr job) else None.

(** *** Codecs for flat JSON objects *)

Definition flatCreateRequestEncoder : Encoder CreateExtractionRequest.t :=
  {| Marshal := fun req =>
       inr ("{" ++ gostd.Join
              (List.app [json.quote "url" ++ ":" ++ json.quote (CreateExtractionRequest.URL req)]
                 (List.app (optMember "environment" (CreateExtractionRequest.Environment req))
                           (optMember "projectId" (CreateExtractionRequest.ProjectID req)))) "," ++ "}") |}.

Definition flatCreateResponseDecoder : Decoder CreateExtractionResponse.t :=
  {| zero := CreateExtractionResponse.mk "" "";
     Unmarshal := fun data =>
       match json.parseObject data with
       | None => (CreateExtractionResponse.mk "" "", Some json.SyntaxError)
       | Some ms =>
           let (id, e1) := stringField "id" ms "" None in
           let (st, e2) := stringField "status" ms "" e1 in
           (CreateExtractionResponse.mk id st, e2)
       end |}.

Definition flatResultDecoder : Decoder ExtractionResult.t :=
  {| zero := ExtractionResult.mk "" "" "" None "";
     Unmarshal := fun data =>
       match json.parseObject data with
       | None => (ExtractionResult.mk "" "" "" None "", Some json.SyntaxError)
       | Some ms =>
           let (id, e1) := stringField "id" ms "" None in
           let (u, e2) := stringField "url" ms "" e1 in
           let (st, e3) := stringField "status" ms "" e2 in
           let (er, e4) := stringPtrField "error" ms None e3 in
           (ExtractionResult.mk id u st er "", e4)
       end |}.

Definition flatBatchRequestEncoder : Encoder CreateBatchExtractionsRequest.t :=
  {| Marshal := fun req =>
       inr ("{" ++ gostd.Join
              (List.app [json.quote "urls" ++ ":["
                           ++ gostd.Join (map json.quote (CreateBatchExtractionsRequest.URLs req)) "," ++ "]"]
                 (List.app (optMember "environment" (CreateBatchExtractionsRequest.Environment req))
                           (optMember "projectId" (CreateBatchExtractionsRequest.ProjectID req)))) "," ++ "}") |}.

Definition flatBatchResponseDecoder : Decoder CreateBatchResponse.t :=
  {| zero := CreateBatchResponse.mk "" 0;
     Unmarshal := fun data =>
       match json.parseObject data with
       | None => (CreateBatchResponse.mk "" 0, Some json.SyntaxError)
       | Some ms =>
           let (id, e1) := stringField "id" ms "" None in
           let (n, e2) := intField "totalUrls" ms 0 e1 in
           (CreateBatchResponse.mk id n, e2)
       end |}.

Definition flatBatchJobDecoder : Decoder BatchExtractionJob.t :=
  {| zero := BatchExtractionJob.mk "" "" 0 0 0 0 "";
     Unmarshal := fun data =>
       match json.parseObject data with
       | None => (BatchExtractionJob.mk "" "" 0 0 0 0 "", Some json.SyntaxError)
       | Some ms =>
           let (id, e1) := stringField "id" ms "" None in
           let (st, e2) := stringField "status" ms "" e1 in
           let (n1, e3) := intField "totalUrls" ms 0 e2 in
           let (n2, e4) := intField "processedUrls" ms 0 e3 in
           let (n3, e5) := intField "successfulUrls" ms 0 e4 in
           let (n4, e6) := intField "failedUrls" ms 0 e5 in
           (BatchExtractionJob.mk id st n1 n2 n3 n4 "", e6)
       end |}.

(** *** Deleting, cancelling and scheduling *)

(** [SuccessResponse] is a generic success response. *)
Module SuccessResponse.
Record t : Type := mk {
  Success : bool
}.
End SuccessResponse.

(** [ToggleResponse] is the response from toggling a schedule. *)
Module ToggleResponse.
Record t : Type := mk {
  IsActive : bool
}.
End ToggleResponse.

(** [CreateScheduleResponse] is the response from creating a schedule. *)
Module CreateScheduleResponse.
Record t : Type := mk {
  ID : string
}.
End CreateScheduleResponse.

(** [GetScheduleRequest] is the request for getting a schedule. *)
Module GetScheduleRequest.
Record t : Type := mk {
  ID : string;
  Environment : option Environment;
  ProjectID : option string
}.
End GetScheduleRequest.

(** [CreateExtractionScheduleRequest] is the request for creating a schedule.
    [Frequency] is a Go string type; [Config] (a pointer to a struct) and
    [Metadata] (a map) are values that only [json.Marshal] looks at, [None]
    when [nil]. *)
Module CreateExtractionScheduleRequest.
Record t : Type := mk {
  Name : string;
  URL : string;
  Environment : option Environment;
  ProjectID : option string;
  Frequency : option string;
  Config : option string;
  DetectChanges : option bool;
  ChangeThreshold : option Z;
  WebhookURL : option string;
  WebhookSecret : option string;
  Metadata : option string
}.
End CreateExtractionScheduleRequest.

(** [UpdateExtractionScheduleRequest] is the request for updating a schedule;
    [Config] and [Metadata] are maps, [None] when [nil]. *)
Module UpdateExtractionScheduleRequest.
Record t : Type := mk {
  ID : string;
  Environment : option Environment;
  ProjectID : option string;
  Name : option string;
  Frequency : option string;
  Config : option string;
  IsActive : option bool;
  DetectChanges : option bool;
  ChangeThreshold : option Z;
  WebhookURL : option string;
  WebhookSecret : option string;
  Metadata : option string
}.
End UpdateExtractionScheduleRequest.

(** [GetUsageRequest] is the request for getting usage stats. *)
Module GetUsageRequest.
Record t : Type := mk {
  Environment : option Environment;
  PeriodStart : option string;
  PeriodEnd : option string
}.
End GetUsageRequest.

(** The path and the body [Delete] sends. *)
Definition DeletePath (req : GetExtractionRequest.t) : string :=
  let params : url.Values := [] in
  let params := setOpt params "environment" (GetExtractionRequest.Environment req) in
  let params := setOpt params "projectId" (GetExtractionRequest.ProjectID req) in
  let path := "/webdata/extractions/" ++ GetExtractionRequest.ID req in
  withQuery path params.

Definition DeleteBody (req : GetExtractionRequest.t) : Object :=
  let body : Object := [("id", AString (GetExtractionRequest.ID req))] in
  let body := objSetOpt body "environment"
                (option_map AString (GetExtractionRequest.Environment req)) in
  let body := objSetOpt body "projectId"
                (option_map AString (GetExtractionRequest.ProjectID req)) in
  body.

(** The path [CancelBatchJob] posts to. *)
Definition CancelBatchJobPath (req : GetBatchJobRequest.t) : string :=
  let params : url.Values := [] in
  let params := setOpt params "environment" (GetBatchJobRequest.Environment req) in
  let params := setOpt params "projectId" (GetBatchJobRequest.ProjectID req) in
  let path := "/webdata/batch/" ++ GetBatchJobRequest.ID req ++ "/cancel" in
  withQuery path params.

(** The body [CreateSchedule] sends. *)
Definition CreateScheduleBody (req : CreateExtractionScheduleRequest.t) : Object :=
  let body : Object :=
    [ ("type", AString "extraction");
      ("name", AString (CreateExtractionScheduleRequest.Name req));
      ("url", AString (CreateExtractionScheduleRequest.URL req)) ] in
  let body := objSetOpt body "environment"
                (option_map AString (CreateExtractionScheduleRequest.Environment req)) in
  let body := objSetOpt body "projectId"
                (option_map AString (CreateExtractionScheduleRequest.ProjectID req)) in
  let body := objSetOpt body "frequency"
                (option_map AString (CreateExtractionScheduleRequest.Frequency req)) in
  let body := objSetOpt body "config"
                (option_map ANested (CreateExtractionScheduleRequest.Config req)) in
  let body := objSetOpt body "detectChanges"
                (option_map ABool (CreateExtractionScheduleRequest.DetectChanges req)) in
  let body := objSetOpt body "changeThreshold"
                (option_map AInt (CreateExtractionScheduleRequest.ChangeThreshold req)) in
  let body := objSetOpt body "webhookUrl"
                (option_map AString (CreateExtractionScheduleRequest.WebhookURL req)) in
  let body := objSetOpt body "webhookSecret"
                (option_map AString (CreateExtractionScheduleRequest.WebhookSecret req)) in
  let body := objSetOpt body "metadata"
                (option_map ANested (CreateExtractionScheduleRequest.Metadata req)) in
  body.

(** The path and the body [UpdateSchedule] sends. *)
Definition UpdateSchedulePath (req : UpdateExtractionScheduleRequest.t) : string :=
  let params : url.Values := [] in
  let params := setOpt params "environment" (UpdateExtractionScheduleRequest.Environment req) in
  let params := setOpt params "projectId" (UpdateExtractionScheduleRequest.ProjectID req) in
  let path := "/webdata/schedules/" ++ UpdateExtractionScheduleRequest.ID req in
  withQuery path params.

Definition UpdateScheduleBody (req : UpdateExtractionScheduleRequest.t) : Object :=
  let body : Object := [] in
  let body := objSetOpt body "name"
                (option_map AString (UpdateExtractionScheduleRequest.Name req)) in
  let body := objSetOpt body "frequency"
                (option_map AString (UpdateExtractionScheduleRequest.Frequency req)) in
  let body := objSetOpt body "config"
                (option_map ANested (UpdateExtractionScheduleRequest.Config req)) in
  let body := objSetOpt body "isActive"
                (option_map ABool (UpdateExtractionScheduleRequest.IsActive req)) in
  let body := objSetOpt body "detectChanges"
                (option_map ABool (UpdateExtractionScheduleRequest.DetectChanges req)) in
  let body := objSetOpt body "changeThreshold"
                (option_map AInt (UpdateExtractionScheduleRequest.ChangeThreshold req)) in
  let body := objSetOpt body "webhookUrl"
                (option_map AString (UpdateExtractionScheduleRequest.WebhookURL req)) in
  let body := objSetOpt body "webhookSecret"
                (option_map AString (UpdateExtractionScheduleRequest.WebhookSecret req)) in
  let body := objSetOpt body "metadata"
                (option_map ANested (UpdateExtractionScheduleRequest.Metadata req)) in
  body.

(** The path [GetSchedule] requests. *)
Definition GetSchedulePath (req : GetScheduleRequest.t) : string :=
  let params : url.Values := [] in
  let params := setOpt params "environment" (GetScheduleRequest.Environment req) in
  let params := setOpt params "projectId" (GetScheduleRequest.ProjectID req) in
  let path := "/webdata/schedules/" ++ GetScheduleRequest.ID req in
  withQuery path params.

(** The path and the body [DeleteSchedule] sends. *)
Definition DeleteSchedulePath (req : GetScheduleRequest.t) : string :=
  let params : url.Values := [] in
  let params := setOpt params "environment" (GetScheduleRequest.Environment req) in
  let params := setOpt params "projectId" (GetScheduleRequest.ProjectID req) in
  let path := "/webdata/schedules/" ++ GetScheduleRequest.ID req in
  withQuery path params.

Definition DeleteScheduleBody (req : GetScheduleRequest.t) : Object :=
  let body : Object := [("id", AString (GetScheduleRequest.ID req))] in
  let body := objSetOpt body "environment"
                (option_map AString (GetScheduleRequest.Environment req)) in
  let body := objSetOpt body "projectId"
                (option_map AString (GetScheduleRequest.ProjectID req)) in
  body.

(** The path [ToggleSchedule] posts to. *)
Definition ToggleSchedulePath (req : GetScheduleRequest.t) : string :=
  let params : url.Values := [] in
  let params := setOpt params "environment" (GetScheduleRequest.Environment req) in
  let params := setOpt params "projectId" (GetScheduleRequest.ProjectID req) in
  let path := "/webdata/schedules/" ++ GetScheduleRequest.ID req ++ "/toggle" in
  withQuery path params.



Section Mutations.
Context (w : World) (c : HTTPClient).
Context {errorResponseDecoder : Decoder ErrorResponse}
        {objectEncoder : Encoder Object}
        {successDecoder : Decoder SuccessResponse.t}
        {toggleDecoder : Decoder ToggleResponse.t}
        {createScheduleDecoder : Decoder CreateScheduleResponse.t}.

(** [Delete] deletes an extraction. *)
Definition Delete (t : Trace) (req : GetExtractionRequest.t)
  : (error + SuccessResponse.t) * Trace :=
  DeleteWithBody w c t (DeletePath req) (DeleteBody req).

(** [CancelBatchJob] cancels a batch job. *)
Definition CancelBatchJob (t : Trace) (req : GetBatchJobRequest.t)
  : (error + SuccessResponse.t) * Trace :=
  Post w c t (CancelBatchJobPath req) ([] : Object).

(** [CreateSchedule] creates a scheduled extraction job. *)
Definition CreateSchedule (t : Trace) (req : CreateExtractionScheduleRequest.t)
  : (error + CreateScheduleResponse.t) * Trace :=
  Post w c t "/webdata/schedules" (CreateScheduleBody req).

(** [UpdateSchedule] updates a schedule. *)
Definition UpdateSchedule (t : Trace) (req : UpdateExtractionScheduleRequest.t)
  : (error + SuccessResponse.t) * Trace :=
  Post w c t (UpdateSchedulePath req) (UpdateScheduleBody req).

(** [DeleteSchedule] deletes a schedule. *)
Definition DeleteSchedule (t : Trace) (req : GetScheduleRequest.t)
  : (error + SuccessResponse.t) * Trace :=
  DeleteWithBody w c t (DeleteSchedulePath req) (DeleteScheduleBody req).

(** [ToggleSchedule] toggles a schedule on or off. *)
Definition ToggleSchedule (t : Trace) (req : GetScheduleRequest.t)
  : (error + ToggleResponse.t) * Trace :=
  Post w c t (ToggleSchedulePath req) ([] : Object).

End Mutations.

End extraction.

(** ** Package [screenshots] *)

Module screenshots.
Import types env client poll.

Definition ScreenshotStatus : Type := string.
Definition ScreenshotStatusPending : ScreenshotStatus := "pending".
Definition ScreenshotStatusProcessing : ScreenshotStatus := "processing".
Definition ScreenshotStatusCompleted : ScreenshotStatus := "completed".
Definition ScreenshotStatusFailed : ScreenshotStatus := "failed".

(** [Screenshot]: the fields the client code reads; the payload
    fields (image URL and size, metadata, timestamps, ...) travel with the record
    and are summarised by [Payload]. *)
Module Screenshot.
Record t : Type := mk {
  ID : string;
  URL : string;
  Status : ScreenshotStatus;
  Error : option string;
  Payload : string
}.
End Screenshot.

(** [CreateScreenshotRequest]: the target, the two scoping fields the
    helpers copy into the status request, and the optional tuning fields
    as an opaque [Options] value that only [json.Marshal] looks at. *)
Module CreateScreenshotRequest.
Record t : Type := mk {
  URL : string;
  Environment : option Environment;
  ProjectID : option string;
  Options : string
}.
End CreateScreenshotRequest.

Module CreateScreenshotResponse.
Record t : Type := mk {
  ID : string;
  Status : ScreenshotStatus
}.
End CreateScreenshotResponse.

Module GetScreenshotRequest.
Record t : Type := mk {
  ID : string;
  Environment : option Environment;
  ProjectID : option string
}.
End GetScreenshotRequest.

Module ListScreenshotsRequest.
Record t : Type := mk {
  Environment : option Environment;
  ProjectID : option string;
  Status : option ScreenshotStatus;
  URL : option string;
  Limit : option Z;
  Cursor : option string
}.
End ListScreenshotsRequest.

Module BatchScreenshotJob.
Record t : Type := mk {
  ID : string;
  Status : BatchJobStatus;
  TotalURLs : Z;
  ProcessedURLs : Z;
  SuccessfulURLs : Z;
  FailedURLs : Z;
  Payload : string
}.
End BatchScreenshotJob.

Module CreateBatchScreenshotsRequest.
Record t : Type := mk {
  URLs : list string;
  Environment : option Environment;
  ProjectID : option string;
  Options : string
}.
End CreateBatchScreenshotsRequest.

Module CreateBatchResponse.
Record t : Type := mk {
  ID : string;
  TotalURLs : Z
}.
End CreateBatchResponse.

Module GetBatchJobRequest.
Record t : Type := mk {
  ID : string;
  Environment : option Environment;
  ProjectID : option string
}.
End GetBatchJobRequest.

Module ListBatchJobsRequest.
Record t : Type := mk {
  Environment : option Environment;
  ProjectID : option string;
  Status : option BatchJobStatus;
  Limit : option Z;
  Cursor : option string
}.
End ListBatchJobsRequest.

Module ListSchedulesRequest.
Record t : Type := mk {
  Environment : option Environment;
  ProjectID : option string;
  IsActive : option bool;
  Limit : option Z;
  Cursor : option string
}.
End ListSchedulesRequest.

(** [CaptureAndWaitOptions] are options for [CaptureAndWait]. *)
Definition CaptureAndWaitOptions : Type := WaitOptions.

Section Client.
Context (w : World) (c : HTTPClient).
(* the JSON codecs of the wire types *)
Context {errorResponseDecoder : Decoder ErrorResponse}
        {createRequestEncoder : Encoder CreateScreenshotRequest.t}
        {createResponseDecoder : Decoder CreateScreenshotResponse.t}
        {resultDecoder : Decoder Screenshot.t}
        {listDecoder : Decoder (list Screenshot.t * option string)}
        {batchRequestEncoder : Encoder CreateBatchScreenshotsRequest.t}
        {batchResponseDecoder : Decoder CreateBatchResponse.t}
        {batchJobDecoder : Decoder BatchScreenshotJob.t}
        {batchJobsDecoder : Decoder (list BatchScreenshotJob.t * option string)}
        {schedulesDecoder : Decoder (list string * option string)}.

(** [Capture] captures a screenshot of a URL. *)
Definition Capture (t : Trace) (req : CreateScreenshotRequest.t)
  : (error + CreateScreenshotResponse.t) * Trace :=
  let (r, t') := Post w c t "/webdata/screenshots" req in
  (r, logCall t' (mkCall OpCapture "" (errOf r))).

(** [Get] retrieves a screenshot by ID. *)
Definition Get (t : Trace) (req : GetScreenshotRequest.t)
  : (error + Screenshot.t) * Trace :=
  let params : url.Values := [] in
  let params := setOpt params "environment" (GetScreenshotRequest.Environment req) in
  let params := setOpt params "projectId" (GetScreenshotRequest.ProjectID req) in
  let path := "/webdata/screenshots/" ++ GetScreenshotRequest.ID req in
  let path := withQuery path params in
  let (r, t') := client.Get w c t path in
  (r, logCall t' (mkCall OpGet (GetScreenshotRequest.ID req) (errOf r))).

(** The path [List] requests. *)
Definition ListPath (req : option ListScreenshotsRequest.t) : string :=
  let params : url.Values := [] in
  let params :=
    match req with
    | Some req =>
        let params := setOpt params "environment" (ListScreenshotsRequest.Environment req) in
        let params := setOpt params "projectId" (ListScreenshotsRequest.ProjectID req) in
        let params := setOpt params "status" (ListScreenshotsRequest.Status req) in
        let params := setOpt params "url" (ListScreenshotsRequest.URL req) in
        let params := setOpt params "limit"
                        (option_map gostd.Itoa (ListScreenshotsRequest.Limit req)) in
        let params := setOpt params "cursor" (ListScreenshotsRequest.Cursor req) in
        params
    | None => params
    end in
  withQuery "/webdata/screenshots" params.

(** [List] lists screenshots with pagination and filters. *)
Definition List (t : Trace) (req : option ListScreenshotsRequest.t)
  : (error + (list Screenshot.t * option string)) * Trace :=
  client.Get w c t (ListPath req).

(** [CaptureAndWait] captures a screenshot and waits for completion. *)
Definition CaptureAndWait (t : Trace) (req : CreateScreenshotRequest.t)
           (opts : option CaptureAndWaitOptions)
  : option ((error + Screenshot.t) * Trace) :=
  let (pollInterval, timeout) := resolve (1 * Second) (60 * Second) opts in
  match Capture t req with
  | (inl err, t1) => Some (inl err, t1)
  | (inr resp, t1) =>
      pollLoop w
        (fun t =>
           Get t (GetScreenshotRequest.mk
                    (CreateScreenshotResponse.ID resp)
                    (CreateScreenshotRequest.Environment req)
                    (CreateScreenshotRequest.ProjectID req)))
        (fun screenshot =>
           let status := Screenshot.Status screenshot in
           if String.eqb status ScreenshotStatusCompleted
              || String.eqb status ScreenshotStatusFailed
           then
             if String.eqb status ScreenshotStatusFailed then
               let errMsg := "Screenshot failed" in
               let errMsg :=
                 match Screenshot.Error screenshot with
                 | Some m => m
                 | None => errMsg
                 end in
               Some (inl (errorString errMsg))
             else Some (inr screenshot)
           else None)
        pollInterval timeout "Screenshot timed out"
        (pollFuel pollInterval timeout) 0 (Z.of_N (firstCheck w)) t1
  end.

(** [Batch] creates a batch screenshot job for multiple URLs. *)
Definition Batch (t : Trace) (req : CreateBatchScreenshotsRequest.t)
  : (error + CreateBatchResponse.t) * Trace :=
  let (r, t') := Post w c t "/webdata/batch/screenshots" req in
  (r, logCall t' (mkCall OpBatch "" (errOf r))).

(** [GetBatchJob] retrieves a batch job by ID. *)
Definition GetBatchJob (t : Trace) (req : GetBatchJobRequest.t)
  : (error + BatchScreenshotJob.t) * Trace :=
  let params : url.Values := [] in
  let params := setOpt params "environment" (GetBatchJobRequest.Environment req) in
  let params := setOpt params "projectId" (GetBatchJobRequest.ProjectID req) in
  let path := "/webdata/batch/" ++ GetBatchJobRequest.ID req in
  let path := withQuery path params in
  let (r, t') := client.Get w c t path in
  (r, logCall t' (mkCall OpGetBatchJob (GetBatchJobRequest.ID req) (errOf r))).

(** The path [ListBatchJobs] requests. *)
Definition ListBatchJobsPath (req : option ListBatchJobsRequest.t) : string :=
  let params : url.Values := [] in
  let params :=
    match req with
    | Some req =>
        let params := setOpt params "environment" (ListBatchJobsRequest.Environment req) in
        let params := setOpt params "projectId" (ListBatchJobsRequest.ProjectID req) in
        let params := setOpt params "status" (ListBatchJobsRequest.Status req) in
        let params := url.SetValue params "type" "screenshot" in
        let params := setOpt params "limit"
                        (option_map gostd.Itoa (ListBatchJobsRequest.Limit req)) in
        let params := setOpt params "cursor" (ListBatchJobsRequest.Cursor req) in
        params
    | None => params
    end in
  withQuery "/webdata/batch" params.

(** [ListBatchJobs] lists batch jobs with pagination and filters. *)
Definition ListBatchJobs (t : Trace) (req : option ListBatchJobsRequest.t)
  : (error + (list BatchScreenshotJob.t * option string)) * Trace :=
  client.Get w c t (ListBatchJobsPath req).

(** The path [ListSchedules] requests. *)
Definition ListSchedulesPath (req : option ListSchedulesRequest.t) : string :=
  let params : url.Values := [] in
  let params :=
    match req with
    | Some req =>
        let params := setOpt params "environment" (ListSchedulesRequest.Environment req) in
        let params := setOpt params "projectId" (ListSchedulesRequest.ProjectID req) in
        let params := url.SetValue params "type" "screenshot" in
        let params := setOpt params "isActive"
                        (option_map gostd.FormatBool (ListSchedulesRequest.IsActive req)) in
        let params := setOpt params "limit"
                        (option_map gostd.Itoa (ListSchedulesRequest.Limit req)) in
        let params := setOpt params "cursor" (ListSchedulesRequest.Cursor req) in
        params
    | None => params
    end in
  withQuery "/webdata/schedules" params.

(** [ListSchedules] lists schedules with pagination and filters. *)
Definition ListSchedules (t : Trace) (req : option ListSchedulesRequest.t)
  : (error + (list string * option string)) * Trace :=
  client.Get w c t (ListSchedulesPath req).

(** [BatchAndWait] creates a batch job and waits for completion. *)
Definition BatchAndWait (t : Trace) (req : CreateBatchScreenshotsRequest.t)
           (opts : option CaptureAndWaitOptions)
  : option ((error + BatchScreenshotJob.t) * Trace) :=
  let (pollInterval, timeout) := resolve (2 * Second) (300 * Second) opts in
  match Batch t req with
  | (inl err, t1) => Some (inl err, t1)
  | (inr resp, t1) =>
      pollLoop w
        (fun t =>
           GetBatchJob t (GetBatchJobRequest.mk
                            (CreateBatchResponse.ID resp)
                            (CreateBatchScreenshotsRequest.Environment req)
                            (CreateBatchScreenshotsRequest.ProjectID req)))
        (fun job =>
           let status := BatchScreenshotJob.Status job in
           if String.eqb status BatchJobStatusCompleted
              || String.eqb status BatchJobStatusFailed
              || String.eqb status BatchJobStatusCancelled
           then Some (inr job)
           else None)
        pollInterval timeout "Batch job timed out"
        (pollFuel pollInterval timeout) 0 (Z.of_N (firstCheck w)) t1
  end.

(** The status call that the loop of [CaptureAndWait] repeats. *)
Definition CaptureAndWait_status (req : CreateScreenshotRequest.t) (resp : CreateScreenshotResponse.t)
  : Trace -> (error + Screenshot.t) * Trace :=
  fun t =>
    Get t (GetScreenshotRequest.mk
             (CreateScreenshotResponse.ID resp) (CreateScreenshotRequest.Environment req) (CreateScreenshotRequest.ProjectID req)).

(** The status call that the loop of [BatchAndWait] repeats. *)
Definition BatchAndWait_status (req : CreateBatchScreenshotsRequest.t) (resp : CreateBatchResponse.t)
  : Trace -> (error + BatchScreenshotJob.t) * Trace :=
  fun t =>
    GetBatchJob t (GetBatchJobRequest.mk
                     (CreateBatchResponse.ID resp) (CreateBatchScreenshotsRequest.Environment req)
                     (CreateBatchScreenshotsRequest.ProjectID req)).

End Client.

(** The statuses on which [CaptureAndWait] stops polling. *)
Definition isTerminal (status : ScreenshotStatus) : bool :=
  String.eqb status ScreenshotStatusCompleted || String.eqb status ScreenshotStatusFailed.

(** The terminal-status block of [CaptureAndWait]. *)
Definition onScreenshot (screenshot : Screenshot.t)
  : option (error + Screenshot.t) :=
  let status := Screenshot.Status screenshot in
  if String.eqb status ScreenshotStatusCompleted
     || String.eqb status ScreenshotStatusFailed
  then
    if String.eqb status ScreenshotStatusFailed then
      Some (inl (errorString
                   match Screenshot.Error screenshot with
                   | Some m => m
                   | None => "Screenshot failed"
                   end))
    else Some (inr screenshot)
  else None.

(** The terminal-status block of [BatchAndWait]. *)
Definition onBatchJob (job : BatchScreenshotJob.t)
  : option (error + BatchScreenshotJob.t) :=
  if isBatchTerminal (BatchScreenshotJob.Status job) then Some (inr job) else None.

(** *** Codecs for flat JSON objects *)

Definition flatCreateRequestEncoder : Encoder CreateScreenshotRequest.t :=
  {| Marshal := fun req =>
       inr ("{" ++ gostd.Join
              (List.app [json.quote "url" ++ ":" ++ json.quote (CreateScreenshotRequest.URL req)]
                 (List.app (optMember "environment" (CreateScreenshotRequest.Environment req))
                           (optMember "projectId" (CreateScreenshotRequest.ProjectID req)))) "," ++ "}") |}.

Definition flatCreateResponseDecoder : Decoder CreateScreenshotResponse.t :=
  {| zero := CreateScreenshotResponse.mk "" "";
     Unmarshal := fun data =>
       match json.parseObject data with
       | None => (CreateScreenshotResponse.mk "" "", Some json.SyntaxError)
       | Some ms =>
           let (id, e1) := stringField "id" ms "" None in
           let (st, e2) := stringField "status" ms "" e1 in
           (CreateScreenshotResponse.mk id st, e2)
       end |}.

Definition flatResultDecoder : Decoder Screenshot.t :=
  {| zero := Screenshot.mk "" "" "" None "";
     Unmarshal := fun data =>
       match json.parseObject data with
       | None => (Screenshot.mk "" "" "" None "", Some json.SyntaxError)
       | Some ms =>
           let (id, e1) := stringField "id" ms "" None in
           let (u, e2) := stringField "url" ms "" e1 in
           let (st, e3) := stringField "status" ms "" e2 in
           let (er, e4) := stringPtrField "error" ms None e3 in
           (Screenshot.mk id u st er "", e4)
       end |}.

Definition flatBatchRequestEncoder : Encoder CreateBatchScreenshotsRequest.t :=
  {| Marshal := fun req =>
       inr ("{" ++ gostd.Join
              (List.app [json.quote "urls" ++ ":["
                           ++ gostd.Join (map json.quote (CreateBatchScreenshotsRequest.URLs req)) "," ++ "]"]
                 (List.app (optMember "environment" (CreateBatchScreenshotsRequest.Environment req))
                           (optMember "projectId" (CreateBatchScreenshotsRequest.ProjectID req)))) "," ++ "}") |}.

Definition flatBatchResponseDecoder : Decoder CreateBatchResponse.t :=
  {| zero := CreateBatchResponse.mk "" 0;
     Unmarshal := fun data =>
       match json.parseObject data with
       | None => (CreateBatchResponse.mk "" 0, Some json.SyntaxError)
       | Some ms =>
           let (id, e1) := stringField "id" ms "" None in
           let (n, e2) := intField "totalUrls" ms 0 e1 in
           (CreateBatchResponse.mk id n, e2)
       end |}.

Definition flatBatchJobDecoder : Decoder BatchScreenshotJob.t :=
  {| zero := BatchScreenshotJob.mk "" "" 0 0 0 0 "";
     Unmarshal := fun data =>
       match json.parseObject data with
       | None => (BatchScreenshotJob.mk "" "" 0 0 0 0 "", Some json.SyntaxError)
       | Some ms =>
           let (id, e1) := stringField "id" ms "" None in
           let (st, e2) := stringField "status" ms "" e1 in
           let (n1, e3) := intField "totalUrls" ms 0 e2 in
           let (n2, e4) := intField "processedUrls" ms 0 e3 in
           let (n3, e5) := intField "successfulUrls" ms 0 e4 in
           let (n4, e6) := intField "failedUrls" ms 0 e5 in
           (BatchScreenshotJob.mk id st n1 n2 n3 n4 "", e6)
       end |}.

(** *** Deleting, cancelling and scheduling *)

(** [SuccessResponse] is a generic success response. *)
Module SuccessResponse.
Record t : Type := mk {
  Success : bool
}.
End SuccessResponse.

(** [ToggleResponse] is the response from toggling a schedule. *)
Module ToggleResponse.
Record t : Type := mk {
  IsActive : bool
}.
End ToggleResponse.

(** [CreateScheduleResponse] is the response from creating a schedule. *)
Module CreateScheduleResponse.
Record t : Type := mk {
  ID : string
}.
End CreateScheduleResponse.

(** [GetScheduleRequest] is the request for getting a schedule. *)
Module GetScheduleRequest.
Record t : Type := mk {
  ID : string;
  Environment : option Environment;
  ProjectID : option string
}.
End GetScheduleRequest.

(** [CreateScreenshotScheduleRequest] is the request for creating a schedule.
    [Frequency] is a Go string type; [Config] (a pointer to a struct) and
    [Metadata] (a map) are values that only [json.Marshal] looks at, [None]
    when [nil]. *)
Module CreateScreenshotScheduleRequest.
Record t : Type := mk {
  Name : string;
  URL : string;
  Environment : option Environment;
  ProjectID : option string;
  Frequency : option string;
  Config : option string;
  DetectChanges : option bool;
  ChangeThreshold : option Z;
  WebhookURL : option string;
  WebhookSecret : option string;
  Metadata : option string
}.
End CreateScreenshotScheduleRequest.

(** [UpdateScreenshotScheduleRequest] is the request for updating a schedule;
    [Config] and [Metadata] are maps, [None] when [nil]. *)
Module UpdateScreenshotScheduleRequest.
Record t : Type := mk {
  ID : string;
  Environment : option Environment;
  ProjectID : option string;
  Name : option string;
  Frequency : option string;
  Config : option string;
  IsActive : option bool;
  DetectChanges : option bool;
  ChangeThreshold : option Z;
  WebhookURL : option string;
  WebhookSecret : option string;
  Metadata : option string
}.
End UpdateScreenshotScheduleRequest.

(** The path and the body [Delete] sends. *)
Definition DeletePath (req : GetScreenshotRequest.t) : string :=
  let params : url.Values := [] in
  let params := setOpt params "environment" (GetScreenshotRequest.Environment req) in
  let params := setOpt params "projectId" (GetScreenshotRequest.ProjectID req) in
  let path := "/webdata/screenshots/" ++ GetScreenshotRequest.ID req in
  withQuery path params.

Definition DeleteBody (req : GetScreenshotRequest.t) : Object :=
  let body : Object := [("id", AString (GetScreenshotRequest.ID req))] in
  let body := objSetOpt body "environment"
                (option_map AString (GetScreenshotRequest.Environment req)) in
  let body := objSetOpt body "projectId"
                (option_map AString (GetScreenshotRequest.ProjectID req)) in
  body.

(** The path [CancelBatchJob] posts to. *)
Definition CancelBatchJobPath (req : GetBatchJobRequest.t) : string :=
  let params : url.Values := [] in
  let params := setOpt params "environment" (GetBatchJobRequest.Environment req) in
  let params := setOpt params "projectId" (GetBatchJobRequest.ProjectID req) in
  let path := "/webdata/batch/" ++ GetBatchJobRequest.ID req ++ "/cancel" in
  withQuery path params.

(** The body [CreateSchedule] sends. *)
Definition CreateScheduleBody (req : CreateScreenshotScheduleRequest.t) : Object :=
  let body : Object :=
    [ ("type", AString "screenshot");
      ("name", AString (CreateScreenshotScheduleRequest.Name req));
      ("url", AString (CreateScreenshotScheduleRequest.URL req)) ] in
  let body := objSetOpt body "environment"
                (option_map AString (CreateScreenshotScheduleRequest.Environment req)) in
  let body := objSetOpt body "projectId"
                (option_map AString (CreateScreenshotScheduleRequest.ProjectID req)) in
  let body := objSetOpt body "frequency"
                (option_map AString (CreateScreenshotScheduleRequest.Frequency req)) in
  let body := objSetOpt body "config"
                (option_map ANested (CreateScreenshotScheduleRequest.Config req)) in
  let body := objSetOpt body "detectChanges"
                (option_map ABool (CreateScreenshotScheduleRequest.DetectChanges req)) in
  let body := objSetOpt body "changeThreshold"
                (option_map AInt (CreateScreenshotScheduleRequest.ChangeThreshold req)) in
  let body := objSetOpt body "webhookUrl"
                (option_map AString (CreateScreenshotScheduleRequest.WebhookURL req)) in
  let body := objSetOpt body "webhookSecret"
                (option_map AString (CreateScreenshotScheduleRequest.WebhookSecret req)) in
  let body := objSetOpt body "metadata"
                (option_map ANested (CreateScreenshotScheduleRequest.Metadata req)) in
  body.

(** The path and the body [UpdateSchedule] sends. *)
Definition UpdateSchedulePath (req : UpdateScreenshotScheduleRequest.t) : string :=
  let params : url.Values := [] in
  let params := setOpt params "environment" (UpdateScreenshotScheduleRequest.Environment req) in
  let params := setOpt params "projectId" (UpdateScreenshotScheduleRequest.ProjectID req) in
  let path := "/webdata/schedules/" ++ UpdateScreenshotScheduleRequest.ID req in
  withQuery path params.

Definition UpdateScheduleBody (req : UpdateScreenshotScheduleRequest.t) : Object :=
  let body : Object := [] in
  let body := objSetOpt body "name"
                (option_map AString (UpdateScreenshotScheduleRequest.Name req)) in
  let body := objSetOpt body "frequency"
                (option_map AString (UpdateScreenshotScheduleRequest.Frequency req)) in
  let body := objSetOpt body "config"
                (option_map ANested (UpdateScreenshotScheduleRequest.Config req)) in
  let body := objSetOpt body "isActive"
                (option_map ABool (UpdateScreenshotScheduleRequest.IsActive req)) in
  let body := objSetOpt body "detectChanges"
                (option_map ABool (UpdateScreenshotScheduleRequest.DetectChanges req)) in
  let body := objSetOpt body "changeThreshold"
                (option_map AInt (UpdateScreenshotScheduleRequest.ChangeThreshold req)) in
  let body := objSetOpt body "webhookUrl"
                (option_map AString (UpdateScreenshotScheduleRequest.WebhookURL req)) in
  let body := objSetOpt body "webhookSecret"
                (option_map AString (UpdateScreenshotScheduleRequest.WebhookSecret req)) in
  let body := objSetOpt body "metadata"
                (option_map ANested (UpdateScreenshotScheduleRequest.Metadata req)) in
  body.

(** The path [GetSchedule] requests. *)
Definition GetSchedulePath (req : GetScheduleRequest.t) : string :=
  let params : url.Values := [] in
  let params := setOpt params "environment" (GetScheduleRequest.Environment req) in
  let params := setOpt params "projectId" (GetScheduleRequest.ProjectID req) in
  let path := "/webdata/schedules/" ++ GetScheduleRequest.ID req in
  withQuery path params.

(** The path and the body [DeleteSchedule] sends. *)
Definition DeleteSchedulePath (req : GetScheduleRequest.t) : string :=
  let params : url.Values := [] in
  let params := setOpt params "environment" (GetScheduleRequest.Environment req) in
  let params := setOpt params "projectId" (GetScheduleRequest.ProjectID req) in
  let path := "/webdata/schedules/" ++ GetScheduleRequest.ID req in
  withQuery path params.

Definition DeleteScheduleBody (req : GetScheduleRequest.t) : Object :=
  let body : Object := [("id", AString (GetScheduleRequest.ID req))] in
  let body := objSetOpt body "environment"
                (option_map AString (GetScheduleRequest.Environment req)) in
  let body := objSetOpt body "projectId"
                (option_map AString (GetScheduleRequest.ProjectID req)) in
  body.

(** The path [ToggleSchedule] posts to. *)
Definition ToggleSchedulePath (req : GetScheduleRequest.t) : string :=
  let params : url.Values := [] in
  let params := setOpt params "environment" (GetScheduleRequest.Environment req) in
  let params := setOpt params "projectId" (GetScheduleRequest.ProjectID req) in
  let path := "/webdata/schedules/" ++ GetScheduleRequest.ID req ++ "/toggle" in
  withQuery path params.

Section Mutations.
Context (w : World) (c : HTTPClient).
Context {errorResponseDecoder : Decoder ErrorResponse}
        {objectEncoder : Encoder Object}
        {successDecoder : Decoder SuccessResponse.t}
        {toggleDecoder : Decoder ToggleResponse.t}
        {createScheduleDecoder : Decoder CreateScheduleResponse.t}.

(** [Delete] deletes a screenshot. *)
Definition Delete (t : Trace) (req : GetScreenshotRequest.t)
  : (error + SuccessResponse.t) * Trace :=
  DeleteWithBody w c t (DeletePath req) (DeleteBody req).

(** [CancelBatchJob] cancels a batch job. *)
Definition CancelBatchJob (t : Trace) (req : GetBatchJobRequest.t)
  : (error + SuccessResponse.t) * Trace :=
  Post w c t (CancelBatchJobPath req) ([] : Object).

(** [CreateSchedule] creates a scheduled screenshot job. *)
Definition CreateSchedule (t : Trace) (req : CreateScreenshotScheduleRequest.t)
  : (error + CreateScheduleResponse.t) * Trace :=
  Post w c t "/webdata/schedules" (CreateScheduleBody req).

(** [UpdateSchedule] updates a schedule. *)
Definition UpdateSchedule (t : Trace) (req : UpdateScreenshotScheduleRequest.t)
  : (error + SuccessResponse.t) * Trace :=
  Post w c t (UpdateSchedulePath req) (UpdateScheduleBody req).

(** [DeleteSchedule] deletes a schedule. *)
Definition DeleteSchedule (t : Trace) (req : GetScheduleRequest.t)
  : (error + SuccessResponse.t) * Trace :=
  DeleteWithBody w c t (DeleteSchedulePath req) (DeleteScheduleBody req).

(** [ToggleSchedule] toggles a schedule on or off. *)
Definition ToggleSchedule (t : Trace) (req : GetScheduleRequest.t)
  : (error + ToggleResponse.t) * Trace :=
  Post w c t (ToggleSchedulePath req) ([] : Object).

End Mutations.

End screenshots.

(** ** Package [cdn] *)

Module cdn.
Import types env client poll.

(** [AllowedWidths] are the widths that match the CloudFront url-rewriter
    configuration. *)
Definition AllowedWidths : list Z :=
  [256; 384; 640; 750; 828; 1080; 1200; 1920; 2048; 3840].

(** [Client] handles CDN operations. *)
Record Client : Type := NewClient {
  http : HTTPClient;
  cdnURL : string
}.

(** [TransformOptions] represents image transformation options. *)
Record TransformOptions : Type := mkTransformOptions {
  Width : option Z;
  Height : option Z;
  Fit : option string;
  Format : option string;
  Quality : option Z;
  Crop : option string;
  CropX : option Z;
  CropY : option Z;
  CropWidth : option Z;
  CropHeight : option Z;
  Blur : option Z;
  Sharpen : option Z;
  Brightness : option Z;
  Saturation : option Z;
  Grayscale : bool;
  Rotate : option Z;
  Flip : bool;
  Flop : bool
}.

(** [abs]: [if x < 0 { return -x }; return x], on Go [int]. *)
Definition abs (x : Z) : Z := if x <? 0 then goint.neg x else x.

(** One iteration of the [range AllowedWidths] loop of [getNearestWidth]:
    [if abs(w-width) < abs(nearest-width) { nearest = w }]. *)
Definition nearer (width nearest w : Z) : Z :=
  if abs (goint.sub w width) <? abs (goint.sub nearest width) then w else nearest.

(** [getNearestWidth]: [nearest := AllowedWidths[0]], then a scan of the
    whole slice that keeps a strictly closer candidate. *)
Definition getNearestWidth (width : Z) : Z :=
  fold_left (nearer width) AllowedWidths (nth 0 AllowedWidths 0).

(** [if options.Flag { params.Set(key, value) }]. *)
Definition setFlag (params : url.Values) (key value : string) (flag : bool)
  : url.Values :=
  setOpt params key (if flag then Some value else None).

Definition itoa (field : option Z) : option string := option_map gostd.Itoa field.

(** [buildTransformQuery]. *)
Definition buildTransformQuery (options : option TransformOptions) : string :=
  match options with
  | None => ""
  | Some options =>
      let params : url.Values := [] in
      let params := setOpt params "f" (Format options) in
      let params := setOpt params "q" (itoa (Quality options)) in
      let params := setOpt params "w" (itoa (option_map getNearestWidth (Width options))) in
      let params := setOpt params "h" (itoa (Height options)) in
      let params := setOpt params "fit" (Fit options) in
      let params := setOpt params "crop" (Crop options) in
      let params := setOpt params "crop-x" (itoa (CropX options)) in
      let params := setOpt params "crop-y" (itoa (CropY options)) in
      let params := setOpt params "crop-w" (itoa (CropWidth options)) in
      let params := setOpt params "crop-h" (itoa (CropHeight options)) in
      let params := setOpt params "blur" (itoa (Blur options)) in
      let params := setOpt params "sharpen" (itoa (Sharpen options)) in
      let params := setOpt params "brightness" (itoa (Brightness options)) in
      let params := setOpt params "saturation" (itoa (Saturation options)) in
      let params := setFlag params "grayscale" "true" (Grayscale options) in
      let params := setOpt params "rotate" (itoa (Rotate options)) in
      let params := setFlag params "flip" "y" (Flip options) in
      let params := setFlag params "flop" "x" (Flop options) in
      url.Encode params
  end.

Definition configError : error :=
  errorString "getTransformURL requires either a full URL or cdnURL to be configured".

(** The first half of [GetTransformURL]: the base URL, or the error. *)
Definition resolveBaseURL (c : Client) (assetURLOrS3Key : string) : error + string :=
  if gostd.HasPrefix assetURLOrS3Key "http://"
     || gostd.HasPrefix assetURLOrS3Key "https://"
  then
    match url.Parse assetURLOrS3Key with
    | inl err => inl (urlError err)
    | inr parsed =>
        inr (url.Scheme parsed ++ "://" ++ url.Host parsed ++ url.Path parsed)
    end
  else if negb (String.eqb (cdnURL c) "") then
    let cdnBase := gostd.TrimSuffix (cdnURL c) "/" in
    inr (cdnBase ++ "/" ++ assetURLOrS3Key)
  else inl configError.

(** [GetTransformURL] generates a transformed image URL client-side. *)
Definition GetTransformURL (c : Client) (assetURLOrS3Key : string)
           (options : option TransformOptions) : error + string :=
  match resolveBaseURL c assetURLOrS3Key with
  | inl err => inl err
  | inr baseURL =>
      let params := buildTransformQuery options in
      if String.eqb params "" then inr baseURL
      else inr (baseURL ++ "?" ++ params)
  end.

(** *** Specification of the transform query *)

(** The options in the order [buildTransformQuery] looks at them, each with
    the parameter it sets and the text it sets it to. *)
Definition fieldsOf (options : TransformOptions) : list (string * option string) :=
  [ ("f", Format options);
    ("q", itoa (Quality options));
    ("w", itoa (option_map getNearestWidth (Width options)));
    ("h", itoa (Height options));
    ("fit", Fit options);
    ("crop", Crop options);
    ("crop-x", itoa (CropX options));
    ("crop-y", itoa (CropY options));
    ("crop-w", itoa (CropWidth options));
    ("crop-h", itoa (CropHeight options));
    ("blur", itoa (Blur options));
    ("sharpen", itoa (Sharpen options));
    ("brightness", itoa (Brightness options));
    ("saturation", itoa (Saturation options));
    ("grayscale", if Grayscale options then Some "true" else None);
    ("rotate", itoa (Rotate options));
    ("flip", if Flip options then Some "y" else None);
    ("flop", if Flop options then Some "x" else None) ].

(** The same parameters in the fixed order of the query string: ascending
    by name. *)
Definition orderedFieldsOf (options : TransformOptions) : list (string * option string) :=
  [ ("blur", itoa (Blur options));
    ("brightness", itoa (Brightness options));
    ("crop", Crop options);
    ("crop-h", itoa (CropHeight options));
    ("crop-w", itoa (CropWidth options));
    ("crop-x", itoa (CropX options));
    ("crop-y", itoa (CropY options));
    ("f", Format options);
    ("fit", Fit options);
    ("flip", if Flip options then Some "y" else None);
    ("flop", if Flop options then Some "x" else None);
    ("grayscale", if Grayscale options then Some "true" else None);
    ("h", itoa (Height options));
    ("q", itoa (Quality options));
    ("rotate", itoa (Rotate options));
    ("saturation", itoa (Saturation options));
    ("sharpen", itoa (Sharpen options));
    ("w", itoa (option_map getNearestWidth (Width options))) ].

(** The parameters of the options that are set. *)
Definition setOnly (fields : list (string * option string)) : list (string * string) :=
  flat_map (fun kv => match snd kv with
                      | Some v => [(fst kv, v)]
                      | None => []
                      end) fields.

(** The query string the specification describes: [name=value] for the set
    options only, in the fixed order, joined by [&]. *)
Definition transformQuerySpec (options : option TransformOptions) : string :=
  match options with
  | None => ""
  | Some options =>
      gostd.Join (map (fun kv => url.QueryEscape (fst kv) ++ "=" ++ url.QueryEscape (snd kv))
                      (setOnly (orderedFieldsOf options))) "&"
  end.

Definition isNone {A} (o : option A) : bool :=
  match o with None => true | Some _ => false end.

(** No transform option is set: the options are [nil], or every optional
    field is unset and every flag is false. *)
Definition noTransform (options : option TransformOptions) : bool :=
  match options with
  | None => true
  | Some o =>
      isNone (Width o) && isNone (Height o) && isNone (Fit o) && isNone (Format o)
      && isNone (Quality o) && isNone (Crop o) && isNone (CropX o) && isNone (CropY o)
      && isNone (CropWidth o) && isNone (CropHeight o) && isNone (Blur o)
      && isNone (Sharpen o) && isNone (Brightness o) && isNone (Saturation o)
      && negb (Grayscale o) && isNone (Rotate o) && negb (Flip o) && negb (Flop o)
  end.

(** The asset reference is a full URL. *)
Definition isFullURL (ref : string) : bool :=
  gostd.HasPrefix ref "http://" || gostd.HasPrefix ref "https://".

(** One conditional [Set] of [buildTransformQuery]. *)
Definition setStep (acc : url.Values) (kv : string * option string) : url.Values :=
  setOpt acc (fst kv) (snd kv).

(** The entries of a [url.Values] built from the set parameters. *)
Definition entries (fields : list (string * option string)) : url.Values :=
  map (fun kv => (fst kv, [snd kv])) (setOnly fields).

(** Insertion of a parameter into a table kept in ascending name order,
    and the table this builds from a list of parameters. *)
Fixpoint insertField (f : string * option string) (table : list (string * option string))
  : list (string * option string) :=
  match table with
  | [] => [f]
  | g :: rest =>
      if String.leb (fst f) (fst g) then f :: g :: rest
      else g :: insertField f rest
  end.

Definition sortFields (fields : list (string * option string))
  : list (string * option string) :=
  fold_right insertField [] fields.

(** Name [k] has its place in a table: from the first name it does not
    exceed onwards, it exceeds none. *)
Fixpoint fitsIn (k : string) (names : list string) : bool :=
  match names with
  | [] => true
  | g :: rest => if String.leb k g then forallb (String.leb k) rest else fitsIn k rest
  end.

(** Every parameter of a list has its place in the table of those after it. *)
Fixpoint insertable (fields : list (string * option string)) : bool :=
  match fields with
  | [] => true
  | f :: rest => insertable rest && fitsIn (fst f) (map fst (sortFields rest))
  end.

(** No two parameters of a list have the same name. *)
Fixpoint distinctNames (names : list string) : bool :=
  match names with
  | [] => true
  | k :: rest => negb (existsb (String.eqb k) rest) && distinctNames rest
  end.

(** *** Specification of width snapping *)

(** The loop step over the integers, without wrap-around. *)
Definition nearerZ (width nearest w : Z) : Z :=
  if Z.abs (w - width) <? Z.abs (nearest - width) then w else nearest.

(** [r] is the allowed width nearest to [width], the smaller one on a tie. *)
Definition Nearest (width r : Z) : Prop :=
  In r AllowedWidths /\
  forall w, In w AllowedWidths ->
            Z.abs (r - width) <= Z.abs (w - width) /\
            (Z.abs (w - width) = Z.abs (r - width) -> r <= w).

(** The same for a candidate among the widths [seen] so far. *)
Definition Best (width : Z) (seen : list Z) (r : Z) : Prop :=
  In r seen /\
  forall x, In x seen ->
            Z.abs (r - width) <= Z.abs (x - width) /\
            (Z.abs (x - width) = Z.abs (r - width) -> r <= x).

(** The inputs on which no subtraction of [getNearestWidth] overflows. *)
Definition noOverflow (width : Z) : Prop :=
  goint.MinInt + 3840 < width <= goint.MaxInt.

(** *** The list methods of the package: the path each one requests *)

Module ListAssetsRequest.
Record t : Type := mk {
  ProjectSlug : string;
  Folder : option string;
  Type_ : option string;
  Status : option string;
  Search : option string;
  Tags : list string;
  SortBy : option string;
  SortOrder : option string;
  Limit : option Z;
  Offset : option Z
}.
End ListAssetsRequest.

(** [List] lists assets with filters and pagination. *)
Definition ListPath (req : ListAssetsRequest.t) : string :=
  let params : url.Values := [] in
  let params := url.SetValue params "projectSlug" (ListAssetsRequest.ProjectSlug req) in
  let params := setOpt params "folder" (ListAssetsRequest.Folder req) in
  let params := setOpt params "type" (ListAssetsRequest.Type_ req) in
  let params := setOpt params "status" (ListAssetsRequest.Status req) in
  let params := setOpt params "search" (ListAssetsRequest.Search req) in
  let params :=
    if (0 <? List.length (ListAssetsRequest.Tags req))%nat
    then url.SetValue params "tags" (gostd.Join (ListAssetsRequest.Tags req) ",")
    else params in
  let params := setOpt params "sortBy" (ListAssetsRequest.SortBy req) in
  let params := setOpt params "sortOrder" (ListAssetsRequest.SortOrder req) in
  let params := setOpt params "limit" (itoa (ListAssetsRequest.Limit req)) in
  let params := setOpt params "offset" (itoa (ListAssetsRequest.Offset req)) in
  "/cdn/assets?" ++ url.Encode params.

Module ListFoldersRequest.
Record t : Type := mk {
  ParentID : option string;
  Limit : option Z;
  Offset : option Z;
  Search : option string
}.
End ListFoldersRequest.

(** [ListFolders] lists folders with optional filters. *)
Definition ListFoldersPath (req : option ListFoldersRequest.t) : string :=
  let params : url.Values := [] in
  let params :=
    match req with
    | Some req =>
        let params := setOpt params "parentId" (ListFoldersRequest.ParentID req) in
        let params := setOpt params "limit" (itoa (ListFoldersRequest.Limit req)) in
        let params := setOpt params "offset" (itoa (ListFoldersRequest.Offset req)) in
        let params := setOpt params "search" (ListFoldersRequest.Search req) in
        params
    | None => params
    end in
  withQuery "/cdn/folders" params.

Module ListJobsRequest.
Record t : Type := mk {
  ProjectSlug : string;
  AssetID : option string;
  Status : option string;
  Limit : option Z;
  Offset : option Z
}.
End ListJobsRequest.

(** [ListJobs] lists transcoding jobs with filters. *)
Definition ListJobsPath (req : ListJobsRequest.t) : string :=
  let params : url.Values := [] in
  let params := url.SetValue params "projectSlug" (ListJobsRequest.ProjectSlug req) in
  let params := setOpt params "assetId" (ListJobsRequest.AssetID req) in
  let params := setOpt params "status" (ListJobsRequest.Status req) in
  let params := setOpt params "limit" (itoa (ListJobsRequest.Limit req)) in
  let params := setOpt params "offset" (itoa (ListJobsRequest.Offset req)) in
  "/cdn/video/jobs?" ++ url.Encode params.

Module ListMergeJobsRequest.
Record t : Type := mk {
  ProjectSlug : string;
  Status : option string;
  Limit : option Z;
  Offset : option Z
}.
End ListMergeJobsRequest.

(** [ListMergeJobs] lists merge jobs with optional filters. *)
Definition ListMergeJobsPath (req : ListMergeJobsRequest.t) : string :=
  let params : url.Values := [] in
  let params := url.SetValue params "projectSlug" (ListMergeJobsRequest.ProjectSlug req) in
  let params := setOpt params "status" (ListMergeJobsRequest.Status req) in
  let params := setOpt params "limit" (itoa (ListMergeJobsRequest.Limit req)) in
  let params := setOpt params "offset" (itoa (ListMergeJobsRequest.Offset req)) in
  "/cdn/video/merge?" ++ url.Encode params.

Module ListPrivateFilesRequest.
Record t : Type := mk {
  ProjectSlug : string;
  Folder : option string;
  Status : option string;
  Search : option string;
  SortBy : option string;
  SortOrder : option string;
  Limit : option Z;
  Offset : option Z
}.
End ListPrivateFilesRequest.

(** [ListPrivateFiles] lists private files with filters and pagination. *)
Definition ListPrivateFilesPath (req : ListPrivateFilesRequest.t) : string :=
  let params : url.Values := [] in
  let params := url.SetValue params "projectSlug" (ListPrivateFilesRequest.ProjectSlug req) in
  let params := setOpt params "folder" (ListPrivateFilesRequest.Folder req) in
  let params := setOpt params "status" (ListPrivateFilesRequest.Status req) in
  let params := setOpt params "search" (ListPrivateFilesRequest.Search req) in
  let params := setOpt params "sortBy" (ListPrivateFilesRequest.SortBy req) in
  let params := setOpt params "sortOrder" (ListPrivateFilesRequest.SortOrder req) in
  let params := setOpt params "limit" (itoa (ListPrivateFilesRequest.Limit req)) in
  let params := setOpt params "offset" (itoa (ListPrivateFilesRequest.Offset req)) in
  "/cdn/private?" ++ url.Encode params.

Module ListBundlesRequest.
Record t : Type := mk {
  ProjectSlug : string;
  Status : option string;
  Search : option string;
  Limit : option Z;
  Offset : option Z
}.
End ListBundlesRequest.

(** [ListBundles] lists download bundles with filters and pagination. *)
Definition ListBundlesPath (req : ListBundlesRequest.t) : string :=
  let params : url.Values := [] in
  let params := url.SetValue params "projectSlug" (ListBundlesRequest.ProjectSlug req) in
  let params := setOpt params "status" (ListBundlesRequest.Status req) in
  let params := setOpt params "search" (ListBundlesRequest.Search req) in
  let params := setOpt params "limit" (itoa (ListBundlesRequest.Limit req)) in
  let params := setOpt params "offset" (itoa (ListBundlesRequest.Offset req)) in
  "/cdn/bundles?" ++ url.Encode params.

Module ListImportsRequest.
Record t : Type := mk {
  ProjectSlug : string;
  Environment : option string;
  Status : option string;
  SortBy : option string;
  SortOrder : option string;
  Limit : option Z;
  Offset : option Z
}.
End ListImportsRequest.

(** [ListImports] lists import jobs with pagination and filters. *)
Definition ListImportsPath (req : ListImportsRequest.t) : string :=
  let params : url.Values := [] in
  let params := url.SetValue params "projectSlug" (ListImportsRequest.ProjectSlug req) in
  let params := setOpt params "environment" (ListImportsRequest.Environment req) in
  let params := setOpt params "status" (ListImportsRequest.Status req) in
  let params := setOpt params "sortBy" (ListImportsRequest.SortBy req) in
  let params := setOpt params "sortOrder" (ListImportsRequest.SortOrder req) in
  let params := setOpt params "limit" (itoa (ListImportsRequest.Limit req)) in
  let params := setOpt params "offset" (itoa (ListImportsRequest.Offset req)) in
  "/cdn/imports?" ++ url.Encode params.

Module ListImportFilesRequest.
Record t : Type := mk {
  ImportID : string;
  Status : option string;
  SortBy : option string;
  SortOrder : option string;
  Limit : option Z;
  Offset : option Z
}.
End ListImportFilesRequest.

(** [ListImportFiles] lists files in an import job. *)
Definition ListImportFilesPath (req : ListImportFilesRequest.t) : string :=
  let params : url.Values := [] in
  let params := setOpt params "status" (ListImportFilesRequest.Status req) in
  let params := setOpt params "sortBy" (ListImportFilesRequest.SortBy req) in
  let params := setOpt params "sortOrder" (ListImportFilesRequest.SortOrder req) in
  let params := setOpt params "limit" (itoa (ListImportFilesRequest.Limit req)) in
  let params := setOpt params "offset" (itoa (ListImportFilesRequest.Offset req)) in
  let path := "/cdn/imports/" ++ ListImportFilesRequest.ImportID req ++ "/files" in
  withQuery path params.

(** *** Folders *)

(** [GetFolderTreeRequest] is the request for getting the folder tree. *)
Module GetFolderTreeRequest.
Record t : Type := mk {
  ProjectSlug : string;
  MaxDepth : option Z
}.
End GetFolderTreeRequest.

(** The path [GetFolderTree] requests. *)
Definition GetFolderTreePath (req : GetFolderTreeRequest.t) : string :=
  let params : url.Values := [] in
  let params := url.SetValue params "projectSlug" (GetFolderTreeRequest.ProjectSlug req) in
  let params := setOpt params "maxDepth" (itoa (GetFolderTreeRequest.MaxDepth req)) in
  "/cdn/folders/tree?" ++ url.Encode params.

(** [SuccessResponse] is a generic success response. *)
Module SuccessResponse.
Record t : Type := mk {
  Success : bool
}.
End SuccessResponse.



Section Folders.
Context (w : World) (c : Client).
Context {errorResponseDecoder : Decoder ErrorResponse}
        {objectEncoder : Encoder Object}
        {successDecoder : Decoder SuccessResponse.t}.


End Folders.

End cdn.

(** ** Package [mail]: the list methods of the client and its sub-clients *)

Module mail.
Import types poll.

(** A [time.Time] filter value, carried as the RFC 3339 text that
    [Format("2006-01-02T15:04:05Z07:00")] renders for it: formatting is the
    only thing the SDK does with the value. *)
Definition Time : Type := string.
Definition Format (t : Time) : string := t.

Definition itoa (field : option Z) : option string := option_map gostd.Itoa field.

Module ListEmailsRequest.
Record t : Type := mk {
  ProjectSlug : option string;
  Environment : option Environment;
  Limit : option Z;
  Offset : option Z;
  Status : option string;
  From : option string;
  To : option string;
  Subject : option string;
  Tag : option string;
  StartDate : option Time;
  EndDate : option Time;
  SortBy : option string;
  SortOrder : option string
}.
End ListEmailsRequest.

(** [Client.List] lists emails with optional filters. *)
Definition Client_ListPath (req : option ListEmailsRequest.t) : string :=
  let params : url.Values := [] in
  let params :=
    match req with
    | Some req =>
        let params := setOpt params "projectSlug" (ListEmailsRequest.ProjectSlug req) in
        let params := setOpt params "environment" (ListEmailsRequest.Environment req) in
        let params := setOpt params "limit" (itoa (ListEmailsRequest.Limit req)) in
        let params := setOpt params "offset" (itoa (ListEmailsRequest.Offset req)) in
        let params := setOpt params "status" (ListEmailsRequest.Status req) in
        let params := setOpt params "from" (ListEmailsRequest.From req) in
        let params := setOpt params "to" (ListEmailsRequest.To req) in
        let params := setOpt params "subject" (ListEmailsRequest.Subject req) in
        let params := setOpt params "tag" (ListEmailsRequest.Tag req) in
        let params := setOpt params "startDate" (option_map Format (ListEmailsRequest.StartDate req)) in
        let params := setOpt params "endDate" (option_map Format (ListEmailsRequest.EndDate req)) in
        let params := setOpt params "sortBy" (ListEmailsRequest.SortBy req) in
        let params := setOpt params "sortOrder" (ListEmailsRequest.SortOrder req) in
        params
    | None => params
    end in
  withQuery "/mail" params.

Module ListSendersRequest.
Record t : Type := mk {
  ProjectSlug : option string;
  Environment : option Environment;
  Search : option string
}.
End ListSendersRequest.

(** [Client.ListSenders] lists unique senders with statistics. *)
Definition Client_ListSendersPath (req : option ListSendersRequest.t) : string :=
  let params : url.Values := [] in
  let params :=
    match req with
    | Some req =>
        let params := setOpt params "projectSlug" (ListSendersRequest.ProjectSlug req) in
        let params := setOpt params "environment" (ListSendersRequest.Environment req) in
        let params := setOpt params "search" (ListSendersRequest.Search req) in
        params
    | None => params
    end in
  withQuery "/mail/senders" params.

Module ListDomainsRequest.
Record t : Type := mk {
  ProjectSlug : string;
  Environment : option Environment
}.
End ListDomainsRequest.

(** [DomainsClient.List] lists all domains. *)
Definition DomainsClient_ListPath (req : ListDomainsRequest.t) : string :=
  let params : url.Values := [] in
  let params := url.SetValue params "projectSlug" (ListDomainsRequest.ProjectSlug req) in
  let params := setOpt params "environment" (ListDomainsRequest.Environment req) in
  "/mail/domains?" ++ url.Encode params.

Module ListCampaignsRequest.
Record t : Type := mk {
  Environment : option Environment;
  Limit : option Z;
  Offset : option Z;
  Search : option string;
  Status : option string
}.
End ListCampaignsRequest.

(** [CampaignsClient.List] lists all campaigns. *)
Definition CampaignsClient_ListPath (req : option ListCampaignsRequest.t) : string :=
  let params : url.Values := [] in
  let params :=
    match req with
    | Some req =>
        let params := setOpt params "environment" (ListCampaignsRequest.Environment req) in
        let params := setOpt params "limit" (itoa (ListCampaignsRequest.Limit req)) in
        let params := setOpt params "offset" (itoa (ListCampaignsRequest.Offset req)) in
        let params := setOpt params "search" (ListCampaignsRequest.Search req) in
        let params := setOpt params "status" (ListCampaignsRequest.Status req) in
        params
    | None => params
    end in
  withQuery "/mail/campaigns" params.

Module ListSequencesRequest.
Record t : Type := mk {
  Environment : option Environment;
  Limit : option Z;
  Offset : option Z;
  Search : option string;
  Status : option string;
  TriggerType : option string
}.
End ListSequencesRequest.

(** [SequencesClient.List] lists all sequences. *)
Definition SequencesClient_ListPath (req : option ListSequencesRequest.t) : string :=
  let params : url.Values := [] in
  let params :=
    match req with
    | Some req =>
        let params := setOpt params "environment" (ListSequencesRequest.Environment req) in
        let params := setOpt params "limit" (itoa (ListSequencesRequest.Limit req)) in
        let params := setOpt params "offset" (itoa (ListSequencesRequest.Offset req)) in
        let params := setOpt params "search" (ListSequencesRequest.Search req) in
        let params := setOpt params "status" (ListSequencesRequest.Status req) in
        let params := setOpt params "triggerType" (ListSequencesRequest.TriggerType req) in
        params
    | None => params
    end in
  withQuery "/mail/sequences" params.

Module ListSequenceEntriesRequest.
Record t : Type := mk {
  ID : string;
  Status : option string;
  Limit : option Z;
  Offset : option Z
}.
End ListSequenceEntriesRequest.

(** [SequencesClient.ListEntries] lists contacts in a sequence. *)
Definition SequencesClient_ListEntriesPath (req : ListSequenceEntriesRequest.t) : string :=
  let params : url.Values := [] in
  let params := setOpt params "limit" (itoa (ListSequenceEntriesRequest.Limit req)) in
  let params := setOpt params "offset" (itoa (ListSequenceEntriesRequest.Offset req)) in
  let params := setOpt params "status" (ListSequenceEntriesRequest.Status req) in
  let path := "/mail/sequences/" ++ ListSequenceEntriesRequest.ID req ++ "/entries" in
  withQuery path params.

Module ListEventsRequest.
Record t : Type := mk {
  ProjectSlug : option string;
  Environment : option Environment;
  Limit : option Z;
  Offset : option Z;
  Search : option string
}.
End ListEventsRequest.

(** [EventsClient.List] lists all event definitions. *)
Definition EventsClient_ListPath (req : option ListEventsRequest.t) : string :=
  let params : url.Values := [] in
  let params :=
    match req with
    | Some req =>
        let params := setOpt params "projectSlug" (ListEventsRequest.ProjectSlug req) in
        let params := setOpt params "environment" (ListEventsRequest.Environment req) in
        let params := setOpt params "limit" (itoa (ListEventsRequest.Limit req)) in
        let params := setOpt params "offset" (itoa (ListEventsRequest.Offset req)) in
        let params := setOpt params "search" (ListEventsRequest.Search req) in
        params
    | None => params
    end in
  withQuery "/mail/events" params.

Module ListEventOccurrencesRequest.
Record t : Type := mk {
  EventID : option string;
  ContactID : option string;
  StartDate : option Time;
  EndDate : option Time;
  Limit : option Z;
  Offset : option Z
}.
End ListEventOccurrencesRequest.

(** [EventsClient.ListOccurrences] lists event occurrences. *)
Definition EventsClient_ListOccurrencesPath (req : option ListEventOccurrencesRequest.t) : string :=
  let params : url.Values := [] in
  let params :=
    match req with
    | Some req =>
        let params := setOpt params "eventId" (ListEventOccurrencesRequest.EventID req) in
        let params := setOpt params "contactId" (ListEventOccurrencesRequest.ContactID req) in
        let params := setOpt params "limit" (itoa (ListEventOccurrencesRequest.Limit req)) in
        let params := setOpt params "offset" (itoa (ListEventOccurrencesRequest.Offset req)) in
        let params := setOpt params "startDate" (option_map Format (ListEventOccurrencesRequest.StartDate req)) in
        let params := setOpt params "endDate" (option_map Format (ListEventOccurrencesRequest.EndDate req)) in
        params
    | None => params
    end in
  withQuery "/mail/events/occurrences" params.

Module ListTemplatesRequest.
Record t : Type := mk {
  Environment : option Environment;
  Limit : option Z;
  Offset : option Z;
  IsActive : option bool;
  Search : option string
}.
End ListTemplatesRequest.

(** [TemplatesClient.List] lists all templates. *)
Definition TemplatesClient_ListPath (req : option ListTemplatesRequest.t) : string :=
  let params : url.Values := [] in
  let params :=
    match req with
    | Some req =>
        let params := setOpt params "environment" (ListTemplatesRequest.Environment req) in
        let params := setOpt params "limit" (itoa (ListTemplatesRequest.Limit req)) in
        let params := setOpt params "offset" (itoa (ListTemplatesRequest.Offset req)) in
        let params := setOpt params "isActive" (option_map gostd.FormatBool (ListTemplatesRequest.IsActive req)) in
        let params := setOpt params "search" (ListTemplatesRequest.Search req) in
        params
    | None => params
    end in
  withQuery "/mail/templates" params.

Module ListContactsRequest.
Record t : Type := mk {
  Environment : option Environment;
  Limit : option Z;
  Offset : option Z;
  Search : option string;
  Status : option string
}.
End ListContactsRequest.

(** [ContactsClient.List] lists all contacts. *)
Definition ContactsClient_ListPath (req : option ListContactsRequest.t) : string :=
  let params : url.Values := [] in
  let params :=
    match req with
    | Some req =>
        let params := setOpt params "environment" (ListContactsRequest.Environment req) in
        let params := setOpt params "limit" (itoa (ListContactsRequest.Limit req)) in
        let params := setOpt params "offset" (itoa (ListContactsRequest.Offset req)) in
        let params := setOpt params "search" (ListContactsRequest.Search req) in
        let params := setOpt params "status" (ListContactsRequest.Status req) in
        params
    | None => params
    end in
  withQuery "/mail/contacts" params.

Module ListAudiencesRequest.
Record t : Type := mk {
  Environment : option Environment;
  Limit : option Z;
  Offset : option Z;
  Search : option string
}.
End ListAudiencesRequest.

(** [AudiencesClient.List] lists all audiences. *)
Definition AudiencesClient_ListPath (req : option ListAudiencesRequest.t) : string :=
  let params : url.Values := [] in
  let params :=
    match req with
    | Some req =>
        let params := setOpt params "environment" (ListAudiencesRequest.Environment req) in
        let params := setOpt params "limit" (itoa (ListAudiencesRequest.Limit req)) in
        let params := setOpt params "offset" (itoa (ListAudiencesRequest.Offset req)) in
        let params := setOpt params "search" (ListAudiencesRequest.Search req) in
        params
    | None => params
    end in
  withQuery "/mail/audiences" params.

Module ListAudienceContactsRequest.
Record t : Type := mk {
  ID : string;
  Environment : option Environment;
  Limit : option Z;
  Offset : option Z;
  Search : option string;
  Status : option string
}.
End ListAudienceContactsRequest.

(** [AudiencesClient.ListContacts] lists contacts in an audience. *)
Definition AudiencesClient_ListContactsPath (req : ListAudienceContactsRequest.t) : string :=
  let params : url.Values := [] in
  let params := setOpt params "environment" (ListAudienceContactsRequest.Environment req) in
  let params := setOpt params "limit" (itoa (ListAudienceContactsRequest.Limit req)) in
  let params := setOpt params "offset" (itoa (ListAudienceContactsRequest.Offset req)) in
  let params := setOpt params "search" (ListAudienceContactsRequest.Search req) in
  let params := setOpt params "status" (ListAudienceContactsRequest.Status req) in
  let path := "/mail/audiences/" ++ ListAudienceContactsRequest.ID req ++ "/contacts" in
  withQuery path params.

End mail.

(** ** Concrete worlds, used to exercise the theorems *)

Module examples.
Import types env client poll.

Definition apiClient : HTTPClient := New "sk_test_123" "https://api.stack0.dev/v1".

Definition ok (body : string) : string + Response :=
  inr (mkResponse 200 (inr body)).

Definition status (code : Z) (body : string) : string + Response :=
  inr (mkResponse code (inr body)).

(** A world that answers the requests of a call from a script, repeats the
    last entry for ever after, and lets every timer fire on time. *)
Definition scripted (script : list (string + Response)) (last : string + Response)
  : World :=
  mkWorld (fun _ _ => None) (fun n => nth n script last) 0 (fun _ => timerFired 0).

Definition created : string + Response :=
  ok (json.object [("id", "job-123"); ("status", "pending")]).

Definition processing : string + Response :=
  ok (json.object [("id", "job-123"); ("status", "processing")]).



Definition invalidRequest : string + Response :=
  status 400 (json.object [("message", "Invalid request"); ("code", "INVALID_REQUEST")]).


(** The job never leaves the processing state. *)
Definition stuckWorld : World := scripted [created] processing.

(** The second status call is answered with HTTP 400. *)
Definition brokenWorld : World := scripted [created; processing; invalidRequest] processing.


Definition completed : string + Response :=
  ok (json.object [("id", "job-123"); ("status", "completed")]).

(** The job completes on the third status call. *)
Definition completingWorld : World := scripted [created; processing; processing] completed.

(** The job never leaves the processing state and the caller cancels the
    context during the second wait. *)
Definition cancellingWorld : World :=
  mkWorld (fun _ _ => None) (fun n => nth n [created] processing) 0
          (fun i => if Nat.eqb i 1 then ctxDone Canceled else timerFired 0).

Definition extractionRequest : extraction.CreateExtractionRequest.t :=
  extraction.CreateExtractionRequest.mk "https://example.com" (Some EnvironmentSandbox) None "".


(** Timeout 50ms, poll interval 10ms. *)
Definition shortWait : WaitOptions := mkWaitOptions 10000000 50000000.

(** Options that set nothing: a zero interval and a negative timeout. *)
Definition unsetWait : WaitOptions := mkWaitOptions 0 (-5).

(** A CDN client without and with a configured CDN URL. *)
Definition bareCDN : cdn.Client := cdn.NewClient apiClient "".
Definition configuredCDN : cdn.Client := cdn.NewClient apiClient "https://cdn.example.com/".

(** Options that set nothing, and options that ask for width 800 at
    quality 80. *)
Definition noOptions : cdn.TransformOptions :=
  cdn.mkTransformOptions None None None None None None None None None None
                         None None None None false None false false.

Definition widthAndQuality : cdn.TransformOptions :=
  cdn.mkTransformOptions (Some 800) None None None (Some 80) None None None None None
                         None None None None false None false false.

End examples.

(** * Theorems *)

(** ** The polling loop *)

Module poll_facts.
Import types env poll.

Lemma resolve_positive d1 d2 opts :
  0 < d1 -> 0 < d2 ->
  0 < fst (resolve d1 d2 opts) /\ 0 < snd (resolve d1 d2 opts).
Proof.
  intros H1 H2. unfold resolve.
  destruct opts as [o|]; simpl; [|lia].
  destruct (0 <? PollInterval o) eqn:Ep; destruct (0 <? Timeout o) eqn:Et;
    rewrite ?Z.ltb_lt in *; lia.
Qed.

Lemma resolve_spec d1 d2 opts :
  UsesDefaults d1 d2 opts (fst (resolve d1 d2 opts)) (snd (resolve d1 d2 opts)).
Proof.
  unfold UsesDefaults, resolve. split.
  - intros ->. auto.
  - intros o ->. simpl.
    destruct (0 <? PollInterval o) eqn:Ep; destruct (0 <? Timeout o) eqn:Et;
      rewrite ?Z.ltb_lt, ?Z.ltb_ge in *; repeat split; intros; lia.
Qed.

Lemma resolve_unset d1 d2 o :
  PollInterval o <= 0 -> Timeout o <= 0 ->
  resolve d1 d2 (Some o) = resolve d1 d2 None.
Proof.
  intros Hp Ht. unfold resolve.
  destruct (0 <? PollInterval o) eqn:Ep; destruct (0 <? Timeout o) eqn:Et;
    rewrite ?Z.ltb_lt in *; try lia. reflexivity.
Qed.

Section Loop.
Context (w : World) {R : Type}.
Variable getStatus : Trace -> (error + R) * Trace.
Variable onStatus : R -> option (error + R).
Variables (pollInterval timeout : Z) (timeoutMessage : string).

Local Abbreviation loop := (pollLoop w getStatus onStatus pollInterval timeout timeoutMessage).
Local Abbreviation run := (Run w getStatus onStatus pollInterval timeout timeoutMessage).
Local Abbreviation polledAt := (polled getStatus).

(** The executable loop only produces runs of the relation. *)
Lemma pollLoop_sound fuel :
  forall i elapsed t out t',
    loop fuel i elapsed t = Some (out, t') ->
    exists n, run n i elapsed t out t'.
Proof.
  induction fuel as [|fuel IH]; intros i elapsed t out t' H; simpl in H.
  - discriminate.
  - destruct (elapsed <? timeout) eqn:Hlt.
    + apply Z.ltb_lt in Hlt.
      destruct (getStatus t) as [[err|r] t1] eqn:Hget.
      * inversion H; subst. exists 1%nat. now apply run_get_failed.
      * destruct (onStatus r) as [o|] eqn:Hon.
        { inversion H; subst. exists 1%nat. eapply run_terminal; eauto. }
        destruct (selectWake w i) as [e|late] eqn:Hsel.
        { inversion H; subst. exists 1%nat. eapply run_cancelled; eauto. }
        destruct (IH _ _ _ _ _ H) as [n Hn].
        exists (S n). eapply run_again; eauto.
    + apply Z.ltb_ge in Hlt. inversion H; subst.
      exists 0%nat. now apply run_deadline.
Qed.

(** With a positive poll interval the loop returns as soon as the fuel
    covers the iterations that fit before the deadline. *)
Lemma pollLoop_total :
  0 < pollInterval ->
  forall f i elapsed t,
    timeout - elapsed <= Z.of_nat f * pollInterval ->
    exists out t', loop (S f) i elapsed t = Some (out, t').
Proof.
  intros Hpos. induction f as [|f IH]; intros i elapsed t Hb.
  - simpl. destruct (elapsed <? timeout) eqn:Hlt.
    + apply Z.ltb_lt in Hlt. lia.
    + eauto.
  - change (loop (S (S f)) i elapsed t) with
      (if elapsed <? timeout then
         match getStatus t with
         | (inl err, t') => Some (inl err, t')
         | (inr r, t') =>
             match onStatus r with
             | Some out => Some (out, t')
             | None =>
                 match selectWake w i with
                 | ctxDone e => Some (inl (ctx_Err e), t')
                 | timerFired late =>
                     loop (S f) (S i) (elapsed + pollInterval + Z.of_N late) t'
                 end
             end
         end
       else Some (inl (ptrTimeoutError (NewTimeoutError timeoutMessage)), t)).
    destruct (elapsed <? timeout); [|eauto].
    destruct (getStatus t) as [[err|r] t1]; [eauto|].
    destruct (onStatus r); [eauto|].
    destruct (selectWake w i) as [e|late]; [eauto|].
    apply IH. nia.
Qed.

Lemma pollFuel_enough i elapsed t :
  0 < pollInterval -> 0 <= elapsed ->
  exists out t', loop (pollFuel pollInterval timeout) i elapsed t = Some (out, t').
Proof.
  intros Hpos Hel. unfold pollFuel. apply pollLoop_total; [assumption|].
  destruct (Z.le_gt_cases timeout 0) as [Hneg|Hp].
  - nia.
  - rewrite Nat2Z.inj_succ, Z2Nat.id by (apply Z.div_pos; lia).
    pose proof (Z.mul_succ_div_gt timeout pollInterval Hpos). nia.
Qed.


(** A status call that failed ends the run with its error. *)
Lemma Run_polled_error n i elapsed t out t' :
  run n i elapsed t out t' ->
  forall k err, (k < n)%nat -> polledAt t k = inl err -> out = inl err /\ S k = n.
Proof.
  unfold polled.
  induction 1 as [i el t Hd | i el t err0 t1 Hlt Hget | i el t r0 t1 o Hlt Hget Hon
                 | i el t r0 t1 e Hlt Hget Hon Hsel
                 | n i el t r0 t1 late o t2 Hlt Hget Hon Hsel Hrun IH];
    intros k err Hk Hp.
  - lia.
  - assert (k = 0)%nat by lia; subst. simpl in Hp. rewrite Hget in Hp.
    simpl in Hp. inversion Hp; subst. auto.
  - assert (k = 0)%nat by lia; subst. simpl in Hp. rewrite Hget in Hp. discriminate.
  - assert (k = 0)%nat by lia; subst. simpl in Hp. rewrite Hget in Hp. discriminate.
  - destruct k as [|k].
    + simpl in Hp. rewrite Hget in Hp. discriminate.
    + simpl in Hp. rewrite Hget in Hp. simpl in Hp.
      destruct (IH k err ltac:(lia) Hp) as [-> ->]. auto.
Qed.

(** A run all of whose status calls succeed with a non-terminal status,
    and none of whose waits is cut short by the context, ends with the
    timeout error. *)
Lemma Run_all_pending n i elapsed t out t' :
  run n i elapsed t out t' ->
  (forall k, (k < n)%nat -> exists r, polledAt t k = inr r /\ onStatus r = None) ->
  (forall k, (k < n)%nat -> exists late, selectWake w (i + k) = timerFired late) ->
  out = inl (ptrTimeoutError (NewTimeoutError timeoutMessage)).
Proof.
  unfold polled.
  induction 1 as [i el t Hd | i el t err0 t1 Hlt Hget | i el t r0 t1 o Hlt Hget Hon
                 | i el t r0 t1 e Hlt Hget Hon Hsel
                 | n i el t r0 t1 late o t2 Hlt Hget Hon Hsel Hrun IH];
    intros Hall Hwake.
  - reflexivity.
  - destruct (Hall 0%nat ltac:(lia)) as [r [Hp _]]. simpl in Hp.
    rewrite Hget in Hp. discriminate.
  - destruct (Hall 0%nat ltac:(lia)) as [r [Hp Hn]]. simpl in Hp.
    rewrite Hget in Hp. simpl in Hp. inversion Hp; subst. congruence.
  - destruct (Hwake 0%nat ltac:(lia)) as [late Hl].
    rewrite Nat.add_0_r in Hl. congruence.
  - apply IH.
    + intros k Hk. destruct (Hall (S k) ltac:(lia)) as [r [Hp Hn]].
      simpl in Hp. rewrite Hget in Hp. simpl in Hp. eauto.
    + intros k Hk. destruct (Hwake (S k) ltac:(lia)) as [l Hl].
      exists l. rewrite <- Hl. f_equal. lia.
Qed.

(** *** What a run leaves in the log of invocations *)

Variables (op : Op) (id : string).
Hypothesis getStatus_logs :
  forall t r t', getStatus t = (r, t') ->
                 calls t' = (calls t ++ [mkCall op id (errOf r)])%list.

(** The run appends one entry per status call, all for the same
    operation and job; an entry that carries an error is the last one
    and its error is the result of the run. *)
Lemma single_call_split (c g : Call) pre post :
  [c] = (pre ++ g :: post)%list -> g = c /\ post = [].
Proof.
  destruct pre as [|p [|q pre]]; simpl; intros H; inversion H; auto.
Qed.

Lemma Run_calls n i elapsed t out t' :
  run n i elapsed t out t' ->
  exists gets,
    calls t' = (calls t ++ gets)%list /\
    List.length gets = n /\
    Forall (fun c => call_op c = op /\ call_id c = id) gets /\
    (forall pre g post e,
        gets = (pre ++ g :: post)%list -> call_err g = Some e ->
        post = [] /\ out = inl e).
Proof.
  induction 1 as [i el t Hd | i el t err0 t1 Hlt Hget | i el t r0 t1 o Hlt Hget Hon
                 | i el t r0 t1 e Hlt Hget Hon Hsel
                 | n i el t r0 t1 late o t2 Hlt Hget Hon Hsel Hrun IH].
  - exists []. rewrite app_nil_r.
    split; [reflexivity|]. split; [reflexivity|]. split; [constructor|].
    intros pre g post e H. destruct pre; discriminate.
  - exists [mkCall op id (Some err0)]. rewrite (getStatus_logs _ _ _ Hget).
    split; [reflexivity|]. split; [reflexivity|]. split; [auto|].
    intros pre g post e H Hg.
    apply single_call_split in H. destruct H as [-> ->].
    simpl in Hg. inversion Hg; subst. auto.
  - exists [mkCall op id None]. rewrite (getStatus_logs _ _ _ Hget).
    split; [reflexivity|]. split; [reflexivity|]. split; [auto|].
    intros pre g post e H Hg.
    apply single_call_split in H. destruct H as [-> ->]. discriminate.
  - exists [mkCall op id None]. rewrite (getStatus_logs _ _ _ Hget).
    split; [reflexivity|]. split; [reflexivity|]. split; [auto|].
    intros pre g post e0 H Hg.
    apply single_call_split in H. destruct H as [-> ->]. discriminate.
  - destruct IH as [gets [Hc [Hl [Hf He]]]].
    exists (mkCall op id None :: gets).
    rewrite Hc, (getStatus_logs _ _ _ Hget), <- app_assoc. simpl.
    split; [reflexivity|]. split; [now rewrite Hl|]. split; [auto|].
    intros pre g post e H Hg.
    destruct pre as [|p pre]; simpl in H; inversion H; subst.
    + discriminate.
    + eapply He; eauto.
Qed.

End Loop.

Lemma filter_all {A} (p : A -> bool) (l : list A) :
  Forall (fun x => p x = true) l -> filter p l = l.
Proof.
  induction 1 as [|x l Hx Hl IH]; simpl; [reflexivity|].
  now rewrite Hx, IH.
Qed.

Section Helper.
Context (w : World) {Resp R : Type}.
Variable start : Trace -> (error + Resp) * Trace.
Variable getStatusOf : Resp -> Trace -> (error + R) * Trace.
Variable onStatus : R -> option (error + R).
Variable timeoutMessage : string.
Variables (startOp getOp : Op) (idOf : Resp -> string).

Hypothesis startOp_is_start : isGetStatus startOp = false.
Hypothesis getOp_is_get : isGetStatus getOp = true.
Hypothesis start_logs :
  forall t r t1, start t = (r, t1) ->
                 calls t1 = (calls t ++ [mkCall startOp "" (errOf r)])%list.
Hypothesis getStatus_logs :
  forall resp t r t', getStatusOf resp t = (r, t') ->
                      calls t' = (calls t ++ [mkCall getOp (idOf resp) (errOf r)])%list.

Local Abbreviation helper := (andWait w start getStatusOf onStatus timeoutMessage).

(** The helper always returns. *)
Lemma andWait_total params t :
  0 < fst params ->
  exists res t', helper params t = Some (res, t').
Proof.
  destruct params as [p to]; unfold andWait; cbn [fst snd]. intros Hp.
  destruct (start t) as [[err|resp] t1]; [eauto|].
  apply pollFuel_enough; lia.
Qed.

(** The run of the loop behind a helper that got past its start call. *)
Lemma andWait_run params res t' resp t1 :
  helper params emptyTrace = Some (res, t') ->
  start emptyTrace = (inr resp, t1) ->
  exists n,
    Run w (getStatusOf resp) onStatus (fst params) (snd params) timeoutMessage
        n 0 (Z.of_N (firstCheck w)) t1 res t' /\
    npolls t' = n.
Proof.
  destruct params as [p to]; unfold andWait; cbn [fst snd]. intros H Hs. rewrite Hs in H.
  destruct (pollLoop_sound _ _ _ _ _ _ _ _ _ _ _ _ H) as [n Hn].
  exists n. split; [assumption|].
  destruct (Run_calls w (getStatusOf resp) onStatus p to timeoutMessage
                      getOp (idOf resp) (getStatus_logs resp) _ _ _ _ _ _ Hn)
    as [gets [Hc [Hl [Hf _]]]].
  unfold npolls, getCalls. rewrite Hc, (start_logs _ _ _ Hs). simpl.
  rewrite startOp_is_start, filter_all; [assumption|].
  eapply Forall_impl; [|exact Hf]. intros a [-> _]. assumption.
Qed.

(** C1, for any helper of this shape. *)
Lemma andWait_start_once_fail_fast params res t' :
  helper params emptyTrace = Some (res, t') ->
  StartOnceFailFast startOp getOp res t'.
Proof.
  destruct params as [p to]; unfold andWait; cbn [fst snd]. intros H.
  destruct (start emptyTrace) as [[err|resp] t1] eqn:Hs.
  - inversion H; subst. exists (mkCall startOp "" (Some err)), [].
    rewrite (start_logs _ _ _ Hs). simpl.
    split; [reflexivity|]. split; [reflexivity|]. split; [constructor|].
    split.
    + intros e He. inversion He; subst. auto.
    + intros pre g post e Hg. destruct pre; discriminate.
  - destruct (pollLoop_sound _ _ _ _ _ _ _ _ _ _ _ _ H) as [n Hn].
    destruct (Run_calls w (getStatusOf resp) onStatus p to timeoutMessage
                        getOp (idOf resp) (getStatus_logs resp) _ _ _ _ _ _ Hn)
      as [gets [Hc [Hl [Hf He]]]].
    exists (mkCall startOp "" None), gets.
    rewrite Hc, (start_logs _ _ _ Hs). simpl.
    split; [reflexivity|]. split; [reflexivity|]. split.
    + eapply Forall_impl; [|exact Hf]. intros a [Ha _]. exact Ha.
    + split; [discriminate|].
      intros pre g post e Hg Hge.
      destruct (He _ _ _ _ Hg Hge). auto.
Qed.


(** C4, for any helper of this shape. *)
Lemma andWait_timeout params res t' resp t1 :
  helper params emptyTrace = Some (res, t') ->
  start emptyTrace = (inr resp, t1) ->
  (forall k, (k < npolls t')%nat ->
             exists r, polled (getStatusOf resp) t1 k = inr r /\ onStatus r = None) ->
  (forall k, (k < npolls t')%nat -> exists late, selectWake w k = timerFired late) ->
  res = inl (ptrTimeoutError (NewTimeoutError timeoutMessage)).
Proof.
  intros H Hs Hall Hwake.
  destruct (andWait_run _ _ _ _ _ H Hs) as [n [Hn Hnp]].
  eapply Run_all_pending; eauto.
  - intros k Hk. apply Hall. lia.
  - intros k Hk. simpl. apply Hwake. lia.
Qed.

End Helper.

End poll_facts.

(** ** Package [client] *)

Module client_facts.
Import types env client.

Section Requests.
Context (w : World) (c : HTTPClient) {errorResponseDecoder : Decoder ErrorResponse}.

(** [doRequest] sends at most one request and invokes no client
    operation. *)
Lemma doRequest_calls {B} `{Encoder B} t method path (body : option B) :
  calls (snd (doRequest w c t method path body)) = calls t.
Proof.
  unfold doRequest.
  destruct body as [b|]; [destruct (Marshal b)|]; simpl; try reflexivity;
    (destruct (newRequestError w method (baseURL c ++ path)); [reflexivity|];
     destruct (roundTrip w (List.length (sent t))) as [e|resp]; [reflexivity|];
     destruct (resp_Body resp) as [e|respBody]; [reflexivity|];
     destruct (400 <=? resp_StatusCode resp); [|reflexivity];
     destruct (Unmarshal respBody) as [er [e|]]; reflexivity).
Qed.

Lemma finish_calls {T} `{Decoder T} (r : (error + string) * Trace) :
  calls (snd (finish (T := T) r)) = calls (snd r).
Proof. destruct r as [[e|b] t]; reflexivity. Qed.

Lemma Get_calls {T} `{Decoder T} t path :
  calls (snd (Get (T := T) w c t path)) = calls t.
Proof. unfold Get. now rewrite finish_calls, doRequest_calls. Qed.

Lemma Post_calls {B T} `{Encoder B} `{Decoder T} t path (body : B) :
  calls (snd (Post (T := T) w c t path body)) = calls t.
Proof. unfold Post. now rewrite finish_calls, doRequest_calls. Qed.

End Requests.

End client_facts.

(** ** Package [extraction] *)

Module extraction_facts.
Import types env client poll extraction.

Section Client.
Context (w : World) (c : HTTPClient).
Context {errorResponseDecoder : Decoder ErrorResponse}
        {createRequestEncoder : Encoder CreateExtractionRequest.t}
        {createResponseDecoder : Decoder CreateExtractionResponse.t}
        {resultDecoder : Decoder ExtractionResult.t}
        {batchRequestEncoder : Encoder CreateBatchExtractionsRequest.t}
        {batchResponseDecoder : Decoder CreateBatchResponse.t}
        {batchJobDecoder : Decoder BatchExtractionJob.t}.

Lemma Extract_logs req t r t1 :
  Extract w c t req = (r, t1) ->
  calls t1 = (calls t ++ [mkCall OpExtract "" (errOf r)])%list.
Proof.
  unfold Extract. intros H.
  pose proof (client_facts.Post_calls w c (T := CreateExtractionResponse.t)
                t "/webdata/extractions" req) as Hc.
  destruct (Post w c t "/webdata/extractions" req) as [r0 t0].
  inversion H; subst. simpl in *. now rewrite Hc.
Qed.

Lemma ExtractAndWait_status_logs req resp t r t' :
  ExtractAndWait_status w c req resp t = (r, t') ->
  calls t' = (calls t ++ [mkCall OpGet (CreateExtractionResponse.ID resp) (errOf r)])%list.
Proof.
  unfold ExtractAndWait_status, Get. intros H.
  match type of H with
  | (let (_, _) := client.Get w c t ?path in _) = _ =>
      pose proof (client_facts.Get_calls w c (T := ExtractionResult.t) t path) as Hc;
      destruct (client.Get w c t path) as [r0 t0]
  end.
  inversion H; subst. simpl in *. now rewrite Hc.
Qed.

Lemma extraction_Batch_logs req t r t1 :
  Batch w c t req = (r, t1) ->
  calls t1 = (calls t ++ [mkCall OpBatch "" (errOf r)])%list.
Proof.
  unfold Batch. intros H.
  pose proof (client_facts.Post_calls w c (T := CreateBatchResponse.t)
                t "/webdata/batch/extractions" req) as Hc.
  destruct (Post w c t "/webdata/batch/extractions" req) as [r0 t0].
  inversion H; subst. simpl in *. now rewrite Hc.
Qed.

Lemma extraction_BatchAndWait_status_logs req resp t r t' :
  BatchAndWait_status w c req resp t = (r, t') ->
  calls t' = (calls t ++ [mkCall OpGetBatchJob (CreateBatchResponse.ID resp) (errOf r)])%list.
Proof.
  unfold BatchAndWait_status, GetBatchJob. intros H.
  match type of H with
  | (let (_, _) := client.Get w c t ?path in _) = _ =>
      pose proof (client_facts.Get_calls w c (T := BatchExtractionJob.t) t path) as Hc;
      destruct (client.Get w c t path) as [r0 t0]
  end.
  inversion H; subst. simpl in *. now rewrite Hc.
Qed.

(** [ExtractAndWait] is the common shape at its defaults. *)
Lemma ExtractAndWait_shape t req opts :
  ExtractAndWait w c t req opts =
  andWait w (fun t => Extract w c t req) (ExtractAndWait_status w c req)
          onExtraction "Extraction timed out"
          (resolve (1 * Second) (60 * Second) opts) t.
Proof.
  unfold ExtractAndWait, andWait.
  destruct (resolve (1 * Second) (60 * Second) opts) as [p to].
  reflexivity.
Qed.

(** [BatchAndWait] is the common shape at its defaults. *)
Lemma extraction_BatchAndWait_shape t req opts :
  BatchAndWait w c t req opts =
  andWait w (fun t => Batch w c t req) (BatchAndWait_status w c req)
          onBatchJob "Batch job timed out"
          (resolve (2 * Second) (300 * Second) opts) t.
Proof.
  unfold BatchAndWait, andWait.
  destruct (resolve (2 * Second) (300 * Second) opts) as [p to].
  reflexivity.
Qed.

End Client.

End extraction_facts.

(** ** Package [screenshots] *)

Module screenshots_facts.
Import types env client poll screenshots.

Section Client.
Context (w : World) (c : HTTPClient).
Context {errorResponseDecoder : Decoder ErrorResponse}
        {createRequestEncoder : Encoder CreateScreenshotRequest.t}
        {createResponseDecoder : Decoder CreateScreenshotResponse.t}
        {resultDecoder : Decoder Screenshot.t}
        {batchRequestEncoder : Encoder CreateBatchScreenshotsRequest.t}
        {batchResponseDecoder : Decoder CreateBatchResponse.t}
        {batchJobDecoder : Decoder BatchScreenshotJob.t}.

Lemma Capture_logs req t r t1 :
  Capture w c t req = (r, t1) ->
  calls t1 = (calls t ++ [mkCall OpCapture "" (errOf r)])%list.
Proof.
  unfold Capture. intros H.
  pose proof (client_facts.Post_calls w c (T := CreateScreenshotResponse.t)
                t "/webdata/screenshots" req) as Hc.
  destruct (Post w c t "/webdata/screenshots" req) as [r0 t0].
  inversion H; subst. simpl in *. now rewrite Hc.
Qed.

Lemma CaptureAndWait_status_logs req resp t r t' :
  CaptureAndWait_status w c req resp t = (r, t') ->
  calls t' = (calls t ++ [mkCall OpGet (CreateScreenshotResponse.ID resp) (errOf r)])%list.
Proof.
  unfold CaptureAndWait_status, Get. intros H.
  match type of H with
  | (let (_, _) := client.Get w c t ?path in _) = _ =>
      pose proof (client_facts.Get_calls w c (T := Screenshot.t) t path) as Hc;
      destruct (client.Get w c t path) as [r0 t0]
  end.
  inversion H; subst. simpl in *. now rewrite Hc.
Qed.

Lemma screenshots_Batch_logs req t r t1 :
  Batch w c t req = (r, t1) ->
  calls t1 = (calls t ++ [mkCall OpBatch "" (errOf r)])%list.
Proof.
  unfold Batch. intros H.
  pose proof (client_facts.Post_calls w c (T := CreateBatchResponse.t)
                t "/webdata/batch/screenshots" req) as Hc.
  destruct (Post w c t "/webdata/batch/screenshots" req) as [r0 t0].
  inversion H; subst. simpl in *. now rewrite Hc.
Qed.

Lemma screenshots_BatchAndWait_status_logs req resp t r t' :
  BatchAndWait_status w c req resp t = (r, t') ->
  calls t' = (calls t ++ [mkCall OpGetBatchJob (CreateBatchResponse.ID resp) (errOf r)])%list.
Proof.
  unfold BatchAndWait_status, GetBatchJob. intros H.
  match type of H with
  | (let (_, _) := client.Get w c t ?path in _) = _ =>
      pose proof (client_facts.Get_calls w c (T := BatchScreenshotJob.t) t path) as Hc;
      destruct (client.Get w c t path) as [r0 t0]
  end.
  inversion H; subst. simpl in *. now rewrite Hc.
Qed.

(** [CaptureAndWait] is the common shape at its defaults. *)
Lemma CaptureAndWait_shape t req opts :
  CaptureAndWait w c t req opts =
  andWait w (fun t => Capture w c t req) (CaptureAndWait_status w c req)
          onScreenshot "Screenshot timed out"
          (resolve (1 * Second) (60 * Second) opts) t.
Proof.
  unfold CaptureAndWait, andWait.
  destruct (resolve (1 * Second) (60 * Second) opts) as [p to].
  reflexivity.
Qed.

(** [BatchAndWait] is the common shape at its defaults. *)
Lemma screenshots_BatchAndWait_shape t req opts :
  BatchAndWait w c t req opts =
  andWait w (fun t => Batch w c t req) (BatchAndWait_status w c req)
          onBatchJob "Batch job timed out"
          (resolve (2 * Second) (300 * Second) opts) t.
Proof.
  unfold BatchAndWait, andWait.
  destruct (resolve (2 * Second) (300 * Second) opts) as [p to].
  reflexivity.
Qed.

End Client.

End screenshots_facts.

(** ** The and-wait helpers *)

Module AndWait.
Import types env client poll poll_facts.

Lemma second_positive : 0 < 1 * Second /\ 0 < 60 * Second /\ 0 < 2 * Second /\ 0 < 300 * Second.
Proof. unfold Second. lia. Qed.

Ltac defaults_positive :=
  apply resolve_positive; unfold Second; lia.

Section Helpers.
Context (w : World) (c : HTTPClient).
Context {errorResponseDecoder : Decoder ErrorResponse}
        {extractRequestEncoder : Encoder extraction.CreateExtractionRequest.t}
        {extractResponseDecoder : Decoder extraction.CreateExtractionResponse.t}
        {extractionDecoder : Decoder extraction.ExtractionResult.t}
        {extractBatchEncoder : Encoder extraction.CreateBatchExtractionsRequest.t}
        {extractBatchResponseDecoder : Decoder extraction.CreateBatchResponse.t}
        {extractBatchJobDecoder : Decoder extraction.BatchExtractionJob.t}
        {captureRequestEncoder : Encoder screenshots.CreateScreenshotRequest.t}
        {captureResponseDecoder : Decoder screenshots.CreateScreenshotResponse.t}
        {screenshotDecoder : Decoder screenshots.Screenshot.t}
        {captureBatchEncoder : Encoder screenshots.CreateBatchScreenshotsRequest.t}
        {captureBatchResponseDecoder : Decoder screenshots.CreateBatchResponse.t}
        {captureBatchJobDecoder : Decoder screenshots.BatchScreenshotJob.t}.

(** Every helper returns, whatever the world does. *)
Lemma ExtractAndWait_returns req opts :
  exists res t, extraction.ExtractAndWait w c emptyTrace req opts = Some (res, t).
Proof.
  rewrite extraction_facts.ExtractAndWait_shape.
  apply andWait_total. defaults_positive.
Qed.

Lemma extraction_BatchAndWait_returns req opts :
  exists res t, extraction.BatchAndWait w c emptyTrace req opts = Some (res, t).
Proof.
  rewrite extraction_facts.extraction_BatchAndWait_shape.
  apply andWait_total. defaults_positive.
Qed.

Lemma CaptureAndWait_returns req opts :
  exists res t, screenshots.CaptureAndWait w c emptyTrace req opts = Some (res, t).
Proof.
  rewrite screenshots_facts.CaptureAndWait_shape.
  apply andWait_total. defaults_positive.
Qed.

Lemma screenshots_BatchAndWait_returns req opts :
  exists res t, screenshots.BatchAndWait w c emptyTrace req opts = Some (res, t).
Proof.
  rewrite screenshots_facts.screenshots_BatchAndWait_shape.
  apply andWait_total. defaults_positive.
Qed.

(** C1.  In a run from the empty history, whatever the world and the
    codecs, every and-wait helper invokes its start operation exactly once;
    when the start fails its error is returned and no status call is
    made; when a status call fails its error is returned and no further
    call follows.  Stated on the log of invocations of the run, for
    [ExtractAndWait], [CaptureAndWait] and both [BatchAndWait]. *)
Theorem start_once_and_fail_fast :
  (forall req opts, exists res t,
      extraction.ExtractAndWait w c emptyTrace req opts = Some (res, t) /\
      StartOnceFailFast OpExtract OpGet res t) /\
  (forall req opts, exists res t,
      screenshots.CaptureAndWait w c emptyTrace req opts = Some (res, t) /\
      StartOnceFailFast OpCapture OpGet res t) /\
  (forall req opts, exists res t,
      extraction.BatchAndWait w c emptyTrace req opts = Some (res, t) /\
      StartOnceFailFast OpBatch OpGetBatchJob res t) /\
  (forall req opts, exists res t,
      screenshots.BatchAndWait w c emptyTrace req opts = Some (res, t) /\
      StartOnceFailFast OpBatch OpGetBatchJob res t).
Proof.
  repeat split; intros req opts.
  - destruct (ExtractAndWait_returns req opts) as [res [t H]].
    exists res, t. split; [exact H|].
    rewrite extraction_facts.ExtractAndWait_shape in H.
    eapply andWait_start_once_fail_fast with (idOf := extraction.CreateExtractionResponse.ID);
      [ | | exact H ];
      [ intros t0 r0 t1 H0; exact (extraction_facts.Extract_logs w c req t0 r0 t1 H0)
      | intros resp t0 r0 t1 H0;
        exact (extraction_facts.ExtractAndWait_status_logs w c req resp t0 r0 t1 H0) ].
  - destruct (CaptureAndWait_returns req opts) as [res [t H]].
    exists res, t. split; [exact H|].
    rewrite screenshots_facts.CaptureAndWait_shape in H.
    eapply andWait_start_once_fail_fast with (idOf := screenshots.CreateScreenshotResponse.ID);
      [ | | exact H ];
      [ intros t0 r0 t1 H0; exact (screenshots_facts.Capture_logs w c req t0 r0 t1 H0)
      | intros resp t0 r0 t1 H0;
        exact (screenshots_facts.CaptureAndWait_status_logs w c req resp t0 r0 t1 H0) ].
  - destruct (extraction_BatchAndWait_returns req opts) as [res [t H]].
    exists res, t. split; [exact H|].
    rewrite extraction_facts.extraction_BatchAndWait_shape in H.
    eapply andWait_start_once_fail_fast with (idOf := extraction.CreateBatchResponse.ID);
      [ | | exact H ];
      [ intros t0 r0 t1 H0; exact (extraction_facts.extraction_Batch_logs w c req t0 r0 t1 H0)
      | intros resp t0 r0 t1 H0;
        exact (extraction_facts.extraction_BatchAndWait_status_logs w c req resp t0 r0 t1 H0) ].
  - destruct (screenshots_BatchAndWait_returns req opts) as [res [t H]].
    exists res, t. split; [exact H|].
    rewrite screenshots_facts.screenshots_BatchAndWait_shape in H.
    eapply andWait_start_once_fail_fast with (idOf := screenshots.CreateBatchResponse.ID);
      [ | | exact H ];
      [ intros t0 r0 t1 H0; exact (screenshots_facts.screenshots_Batch_logs w c req t0 r0 t1 H0)
      | intros resp t0 r0 t1 H0;
        exact (screenshots_facts.screenshots_BatchAndWait_status_logs w c req resp t0 r0 t1 H0) ].
Qed.

(** *** The generic results, at each helper *)


Lemma extract_timeout req opts res t' resp t1 :
  extraction.ExtractAndWait w c emptyTrace req opts = Some (res, t') ->
  extraction.Extract w c emptyTrace req = (inr resp, t1) ->
  (forall k, (k < npolls t')%nat ->
             exists r, polled (extraction.ExtractAndWait_status w c req resp) t1 k = inr r /\
                       extraction.onExtraction r = None) ->
  (forall k, (k < npolls t')%nat -> exists late, selectWake w k = timerFired late) ->
  res = inl (ptrTimeoutError (NewTimeoutError "Extraction timed out")).
Proof.
  intros H Hs Hall Hwake. rewrite extraction_facts.ExtractAndWait_shape in H.
  eapply (andWait_timeout w _ _ _ _ OpExtract OpGet extraction.CreateExtractionResponse.ID);
    [ reflexivity | reflexivity | | | exact H | exact Hs | exact Hall | exact Hwake ];
    [ intros t0 r0 t2 H0; exact (extraction_facts.Extract_logs w c req t0 r0 t2 H0)
    | intros resp0 t0 r0 t2 H0;
      exact (extraction_facts.ExtractAndWait_status_logs w c req resp0 t0 r0 t2 H0) ].
Qed.


Lemma capture_timeout req opts res t' resp t1 :
  screenshots.CaptureAndWait w c emptyTrace req opts = Some (res, t') ->
  screenshots.Capture w c emptyTrace req = (inr resp, t1) ->
  (forall k, (k < npolls t')%nat ->
             exists r, polled (screenshots.CaptureAndWait_status w c req resp) t1 k = inr r /\
                       screenshots.onScreenshot r = None) ->
  (forall k, (k < npolls t')%nat -> exists late, selectWake w k = timerFired late) ->
  res = inl (ptrTimeoutError (NewTimeoutError "Screenshot timed out")).
Proof.
  intros H Hs Hall Hwake. rewrite screenshots_facts.CaptureAndWait_shape in H.
  eapply (andWait_timeout w _ _ _ _ OpCapture OpGet screenshots.CreateScreenshotResponse.ID);
    [ reflexivity | reflexivity | | | exact H | exact Hs | exact Hall | exact Hwake ];
    [ intros t0 r0 t2 H0; exact (screenshots_facts.Capture_logs w c req t0 r0 t2 H0)
    | intros resp0 t0 r0 t2 H0;
      exact (screenshots_facts.CaptureAndWait_status_logs w c req resp0 t0 r0 t2 H0) ].
Qed.


Lemma extraction_batch_timeout req opts res t' resp t1 :
  extraction.BatchAndWait w c emptyTrace req opts = Some (res, t') ->
  extraction.Batch w c emptyTrace req = (inr resp, t1) ->
  (forall k, (k < npolls t')%nat ->
             exists r, polled (extraction.BatchAndWait_status w c req resp) t1 k = inr r /\
                       extraction.onBatchJob r = None) ->
  (forall k, (k < npolls t')%nat -> exists late, selectWake w k = timerFired late) ->
  res = inl (ptrTimeoutError (NewTimeoutError "Batch job timed out")).
Proof.
  intros H Hs Hall Hwake. rewrite extraction_facts.extraction_BatchAndWait_shape in H.
  eapply (andWait_timeout w _ _ _ _ OpBatch OpGetBatchJob extraction.CreateBatchResponse.ID);
    [ reflexivity | reflexivity | | | exact H | exact Hs | exact Hall | exact Hwake ];
    [ intros t0 r0 t2 H0; exact (extraction_facts.extraction_Batch_logs w c req t0 r0 t2 H0)
    | intros resp0 t0 r0 t2 H0;
      exact (extraction_facts.extraction_BatchAndWait_status_logs w c req resp0 t0 r0 t2 H0) ].
Qed.


Lemma screenshots_batch_timeout req opts res t' resp t1 :
  screenshots.BatchAndWait w c emptyTrace req opts = Some (res, t') ->
  screenshots.Batch w c emptyTrace req = (inr resp, t1) ->
  (forall k, (k < npolls t')%nat ->
             exists r, polled (screenshots.BatchAndWait_status w c req resp) t1 k = inr r /\
                       screenshots.onBatchJob r = None) ->
  (forall k, (k < npolls t')%nat -> exists late, selectWake w k = timerFired late) ->
  res = inl (ptrTimeoutError (NewTimeoutError "Batch job timed out")).
Proof.
  intros H Hs Hall Hwake. rewrite screenshots_facts.screenshots_BatchAndWait_shape in H.
  eapply (andWait_timeout w _ _ _ _ OpBatch OpGetBatchJob screenshots.CreateBatchResponse.ID);
    [ reflexivity | reflexivity | | | exact H | exact Hs | exact Hall | exact Hwake ];
    [ intros t0 r0 t2 H0; exact (screenshots_facts.screenshots_Batch_logs w c req t0 r0 t2 H0)
    | intros resp0 t0 r0 t2 H0;
      exact (screenshots_facts.screenshots_BatchAndWait_status_logs w c req resp0 t0 r0 t2 H0) ].
Qed.





Lemma timeout_kind msg : DistinctTimeoutKind (ptrTimeoutError (NewTimeoutError msg)).
Proof.
  unfold DistinctTimeoutKind. simpl.
  repeat split; try discriminate.
  - intros [|]; discriminate.
  - eauto.
Qed.

Lemma onExtraction_pending r :
  extraction.isTerminal (extraction.ExtractionResult.Status r) = false ->
  extraction.onExtraction r = None.
Proof. unfold extraction.onExtraction, extraction.isTerminal. now intros ->. Qed.

Lemma onScreenshot_pending r :
  screenshots.isTerminal (screenshots.Screenshot.Status r) = false ->
  screenshots.onScreenshot r = None.
Proof. unfold screenshots.onScreenshot, screenshots.isTerminal. now intros ->. Qed.

Lemma onBatchJob_pending_extraction r :
  isBatchTerminal (extraction.BatchExtractionJob.Status r) = false ->
  extraction.onBatchJob r = None.
Proof. unfold extraction.onBatchJob. now intros ->. Qed.

Lemma onBatchJob_pending_screenshots r :
  isBatchTerminal (screenshots.BatchScreenshotJob.Status r) = false ->
  screenshots.onBatchJob r = None.
Proof. unfold screenshots.onBatchJob. now intros ->. Qed.

(** C4.  A run of an and-wait helper in which the start succeeds, every
    status call made succeeds with a non-terminal status and no wait is
    ended by the context, returns the [*TimeoutError] built by
    [NewTimeoutError]; its dynamic type differs from that of every API
    error, domain failure and context error. *)
Theorem pending_until_deadline_returns_timeout_error :
  (forall req opts, exists res t',
      extraction.ExtractAndWait w c emptyTrace req opts = Some (res, t') /\
      forall resp t1,
        extraction.Extract w c emptyTrace req = (inr resp, t1) ->
        (forall k, (k < npolls t')%nat ->
                   exists r, polled (extraction.ExtractAndWait_status w c req resp) t1 k = inr r /\
                             extraction.isTerminal (extraction.ExtractionResult.Status r) = false) ->
        (forall k, (k < npolls t')%nat -> exists late, selectWake w k = timerFired late) ->
        res = inl (ptrTimeoutError (NewTimeoutError "Extraction timed out")) /\
        DistinctTimeoutKind (ptrTimeoutError (NewTimeoutError "Extraction timed out"))) /\
  (forall req opts, exists res t',
      screenshots.CaptureAndWait w c emptyTrace req opts = Some (res, t') /\
      forall resp t1,
        screenshots.Capture w c emptyTrace req = (inr resp, t1) ->
        (forall k, (k < npolls t')%nat ->
                   exists r, polled (screenshots.CaptureAndWait_status w c req resp) t1 k = inr r /\
                             screenshots.isTerminal (screenshots.Screenshot.Status r) = false) ->
        (forall k, (k < npolls t')%nat -> exists late, selectWake w k = timerFired late) ->
        res = inl (ptrTimeoutError (NewTimeoutError "Screenshot timed out")) /\
        DistinctTimeoutKind (ptrTimeoutError (NewTimeoutError "Screenshot timed out"))) /\
  (forall req opts, exists res t',
      extraction.BatchAndWait w c emptyTrace req opts = Some (res, t') /\
      forall resp t1,
        extraction.Batch w c emptyTrace req = (inr resp, t1) ->
        (forall k, (k < npolls t')%nat ->
                   exists r, polled (extraction.BatchAndWait_status w c req resp) t1 k = inr r /\
                             isBatchTerminal (extraction.BatchExtractionJob.Status r) = false) ->
        (forall k, (k < npolls t')%nat -> exists late, selectWake w k = timerFired late) ->
        res = inl (ptrTimeoutError (NewTimeoutError "Batch job timed out")) /\
        DistinctTimeoutKind (ptrTimeoutError (NewTimeoutError "Batch job timed out"))) /\
  (forall req opts, exists res t',
      screenshots.BatchAndWait w c emptyTrace req opts = Some (res, t') /\
      forall resp t1,
        screenshots.Batch w c emptyTrace req = (inr resp, t1) ->
        (forall k, (k < npolls t')%nat ->
                   exists r, polled (screenshots.BatchAndWait_status w c req resp) t1 k = inr r /\
                             isBatchTerminal (screenshots.BatchScreenshotJob.Status r) = false) ->
        (forall k, (k < npolls t')%nat -> exists late, selectWake w k = timerFired late) ->
        res = inl (ptrTimeoutError (NewTimeoutError "Batch job timed out")) /\
        DistinctTimeoutKind (ptrTimeoutError (NewTimeoutError "Batch job timed out"))).
Proof.
  split; [|split; [|split]]; intros req opts.
  - destruct (ExtractAndWait_returns req opts) as [res [t' H]].
    exists res, t'. split; [exact H|].
    intros resp t1 Hs Hall Hwake. split; [|apply timeout_kind].
    eapply extract_timeout; eauto.
    intros k Hk. destruct (Hall k Hk) as [r [Hp Hn]].
    exists r. split; [exact Hp|]. now apply onExtraction_pending.
  - destruct (CaptureAndWait_returns req opts) as [res [t' H]].
    exists res, t'. split; [exact H|].
    intros resp t1 Hs Hall Hwake. split; [|apply timeout_kind].
    eapply capture_timeout; eauto.
    intros k Hk. destruct (Hall k Hk) as [r [Hp Hn]].
    exists r. split; [exact Hp|]. now apply onScreenshot_pending.
  - destruct (extraction_BatchAndWait_returns req opts) as [res [t' H]].
    exists res, t'. split; [exact H|].
    intros resp t1 Hs Hall Hwake. split; [|apply timeout_kind].
    eapply extraction_batch_timeout; eauto.
    intros k Hk. destruct (Hall k Hk) as [r [Hp Hn]].
    exists r. split; [exact Hp|]. now apply onBatchJob_pending_extraction.
  - destruct (screenshots_BatchAndWait_returns req opts) as [res [t' H]].
    exists res, t'. split; [exact H|].
    intros resp t1 Hs Hall Hwake. split; [|apply timeout_kind].
    eapply screenshots_batch_timeout; eauto.
    intros k Hk. destruct (Hall k Hk) as [r [Hp Hn]].
    exists r. split; [exact Hp|]. now apply onBatchJob_pending_screenshots.
Qed.

(** C10.  Each helper runs with the poll interval and timeout that
    [UsesDefaults] describes: 1s and 60s for [ExtractAndWait] and
    [CaptureAndWait], 2s and 300s for [BatchAndWait], unless a field of
    the options is strictly positive; options whose two fields are zero
    or negative give the same run as no options. *)
Theorem non_positive_options_use_defaults :
  (forall t req opts,
      (exists p to,
          extraction.ExtractAndWait w c t req opts =
          andWait w (fun t => extraction.Extract w c t req) (extraction.ExtractAndWait_status w c req)
                  extraction.onExtraction "Extraction timed out" (p, to) t /\
          UsesDefaults 1000000000 60000000000 opts p to) /\
      (forall o, opts = Some o -> PollInterval o <= 0 -> Timeout o <= 0 ->
                 extraction.ExtractAndWait w c t req opts = extraction.ExtractAndWait w c t req None)) /\
  (forall t req opts,
      (exists p to,
          screenshots.CaptureAndWait w c t req opts =
          andWait w (fun t => screenshots.Capture w c t req) (screenshots.CaptureAndWait_status w c req)
                  screenshots.onScreenshot "Screenshot timed out" (p, to) t /\
          UsesDefaults 1000000000 60000000000 opts p to) /\
      (forall o, opts = Some o -> PollInterval o <= 0 -> Timeout o <= 0 ->
                 screenshots.CaptureAndWait w c t req opts = screenshots.CaptureAndWait w c t req None)) /\
  (forall t req opts,
      (exists p to,
          extraction.BatchAndWait w c t req opts =
          andWait w (fun t => extraction.Batch w c t req) (extraction.BatchAndWait_status w c req)
                  extraction.onBatchJob "Batch job timed out" (p, to) t /\
          UsesDefaults 2000000000 300000000000 opts p to) /\
      (forall o, opts = Some o -> PollInterval o <= 0 -> Timeout o <= 0 ->
                 extraction.BatchAndWait w c t req opts = extraction.BatchAndWait w c t req None)) /\
  (forall t req opts,
      (exists p to,
          screenshots.BatchAndWait w c t req opts =
          andWait w (fun t => screenshots.Batch w c t req) (screenshots.BatchAndWait_status w c req)
                  screenshots.onBatchJob "Batch job timed out" (p, to) t /\
          UsesDefaults 2000000000 300000000000 opts p to) /\
      (forall o, opts = Some o -> PollInterval o <= 0 -> Timeout o <= 0 ->
                 screenshots.BatchAndWait w c t req opts = screenshots.BatchAndWait w c t req None)).
Proof.
  split; [|split; [|split]]; intros t req opts.
  - split.
    + exists (fst (resolve (1 * Second) (60 * Second) opts)),
             (snd (resolve (1 * Second) (60 * Second) opts)).
      rewrite <- surjective_pairing.
      split; [apply extraction_facts.ExtractAndWait_shape|apply resolve_spec].
    + intros o -> Hp Ht.
      rewrite !extraction_facts.ExtractAndWait_shape, (resolve_unset _ _ o Hp Ht). reflexivity.
  - split.
    + exists (fst (resolve (1 * Second) (60 * Second) opts)),
             (snd (resolve (1 * Second) (60 * Second) opts)).
      rewrite <- surjective_pairing.
      split; [apply screenshots_facts.CaptureAndWait_shape|apply resolve_spec].
    + intros o -> Hp Ht.
      rewrite !screenshots_facts.CaptureAndWait_shape, (resolve_unset _ _ o Hp Ht). reflexivity.
  - split.
    + exists (fst (resolve (2 * Second) (300 * Second) opts)),
             (snd (resolve (2 * Second) (300 * Second) opts)).
      rewrite <- surjective_pairing.
      split; [apply extraction_facts.extraction_BatchAndWait_shape|apply resolve_spec].
    + intros o -> Hp Ht.
      rewrite !extraction_facts.extraction_BatchAndWait_shape, (resolve_unset _ _ o Hp Ht). reflexivity.
  - split.
    + exists (fst (resolve (2 * Second) (300 * Second) opts)),
             (snd (resolve (2 * Second) (300 * Second) opts)).
      rewrite <- surjective_pairing.
      split; [apply screenshots_facts.screenshots_BatchAndWait_shape|apply resolve_spec].
    + intros o -> Hp Ht.
      rewrite !screenshots_facts.screenshots_BatchAndWait_shape, (resolve_unset _ _ o Hp Ht). reflexivity.
Qed.

End Helpers.

End AndWait.

(** ** The helpers in concrete worlds *)

Module AndWaitExamples.
Import types env client poll examples.


(** C1 at work: the second status call is answered with HTTP 400; the
    helper returns that API error. *)
Lemma start_once_and_fail_fast_witness :
  option_map fst
    (extraction.ExtractAndWait brokenWorld apiClient
       (errorResponseDecoder := flatErrorResponseDecoder)
       (createRequestEncoder := extraction.flatCreateRequestEncoder)
       (createResponseDecoder := extraction.flatCreateResponseDecoder)
       (resultDecoder := extraction.flatResultDecoder)
       emptyTrace extractionRequest None)
  = Some (inl (ptrAPIError
                 (mkAPIError 400 "INVALID_REQUEST" "Invalid request"
                             (mkErrorResponse "Invalid request" "INVALID_REQUEST")))).
Proof.
  destruct (proj1 (@AndWait.start_once_and_fail_fast
                     brokenWorld apiClient flatErrorResponseDecoder
                     extraction.flatCreateRequestEncoder
                     extraction.flatCreateResponseDecoder
                     extraction.flatResultDecoder
                     extraction.flatBatchRequestEncoder
                     extraction.flatBatchResponseDecoder
                     extraction.flatBatchJobDecoder
                     screenshots.flatCreateRequestEncoder
                     screenshots.flatCreateResponseDecoder
                     screenshots.flatResultDecoder
                     screenshots.flatBatchRequestEncoder
                     screenshots.flatBatchResponseDecoder
                     screenshots.flatBatchJobDecoder)
                  extractionRequest None)
    as [res [t [Hrun [start [gets [Hcalls [_ [_ [_ Hget]]]]]]]]].
  rewrite Hrun. simpl. f_equal.
  pose proof Hrun as Hc. vm_compute in Hc. injection Hc as Hres Ht.
  rewrite <- Ht in Hcalls. vm_compute in Hcalls. injection Hcalls as Hstart Hgets.
  refine (proj1 (Hget [mkCall OpGet "job-123" None] _ [] _ _ _)).
  - rewrite <- Hgets. reflexivity.
  - reflexivity.
Defined.


(** C4 at work: the job never leaves the processing state; with a 50ms
    timeout and a 10ms poll interval the helper gives up with the timeout
    error. *)
Lemma pending_until_deadline_returns_timeout_error_witness :
  option_map fst
    (extraction.ExtractAndWait stuckWorld apiClient
       (errorResponseDecoder := flatErrorResponseDecoder)
       (createRequestEncoder := extraction.flatCreateRequestEncoder)
       (createResponseDecoder := extraction.flatCreateResponseDecoder)
       (resultDecoder := extraction.flatResultDecoder)
       emptyTrace extractionRequest (Some shortWait))
  = Some (inl (ptrTimeoutError (NewTimeoutError "Extraction timed out"))).
Proof.
  destruct (proj1 (@AndWait.pending_until_deadline_returns_timeout_error
                     stuckWorld apiClient flatErrorResponseDecoder
                     extraction.flatCreateRequestEncoder
                     extraction.flatCreateResponseDecoder
                     extraction.flatResultDecoder
                     extraction.flatBatchRequestEncoder
                     extraction.flatBatchResponseDecoder
                     extraction.flatBatchJobDecoder
                     screenshots.flatCreateRequestEncoder
                     screenshots.flatCreateResponseDecoder
                     screenshots.flatResultDecoder
                     screenshots.flatBatchRequestEncoder
                     screenshots.flatBatchResponseDecoder
                     screenshots.flatBatchJobDecoder)
                  extractionRequest (Some shortWait)) as [res [t' [Hrun Htimeout]]].
  rewrite Hrun. simpl. f_equal.
  pose proof Hrun as Hc. vm_compute in Hc. injection Hc as Hres Ht.
  refine (proj1 (Htimeout _ _ _ _ _)).
  - vm_compute. reflexivity.
  - intros k Hk. rewrite <- Ht in Hk. vm_compute in Hk.
    do 5 (destruct k as [|k]; [eexists; split; vm_compute; reflexivity|]).
    exfalso. do 5 apply le_S_n in Hk. inversion Hk.
  - intros k _. exists 0%N. reflexivity.
Defined.

(** C10 at work: options with a zero interval and a negative timeout run
    [ExtractAndWait] exactly as no options do. *)
Lemma non_positive_options_use_defaults_witness :
  extraction.ExtractAndWait stuckWorld apiClient
    (errorResponseDecoder := flatErrorResponseDecoder)
    (createRequestEncoder := extraction.flatCreateRequestEncoder)
    (createResponseDecoder := extraction.flatCreateResponseDecoder)
    (resultDecoder := extraction.flatResultDecoder)
    emptyTrace extractionRequest (Some unsetWait)
  = extraction.ExtractAndWait stuckWorld apiClient
      (errorResponseDecoder := flatErrorResponseDecoder)
      (createRequestEncoder := extraction.flatCreateRequestEncoder)
      (createResponseDecoder := extraction.flatCreateResponseDecoder)
      (resultDecoder := extraction.flatResultDecoder)
      emptyTrace extractionRequest None.
Proof.
  refine (proj2 (proj1 (@AndWait.non_positive_options_use_defaults
                          stuckWorld apiClient flatErrorResponseDecoder
                          extraction.flatCreateRequestEncoder
                          extraction.flatCreateResponseDecoder
                          extraction.flatResultDecoder
                          extraction.flatBatchRequestEncoder
                          extraction.flatBatchResponseDecoder
                          extraction.flatBatchJobDecoder
                          screenshots.flatCreateRequestEncoder
                          screenshots.flatCreateResponseDecoder
                          screenshots.flatResultDecoder
                          screenshots.flatBatchRequestEncoder
                          screenshots.flatBatchResponseDecoder
                          screenshots.flatBatchJobDecoder)
                       emptyTrace extractionRequest (Some unsetWait))
                unsetWait eq_refl _ _); simpl; lia.
Defined.

End AndWaitExamples.

(** ** Package [cdn]: width snapping *)

Module Width.
Import cdn.

Lemma wrap_in_range z : goint.in_range z -> goint.wrap z = z.
Proof.
  unfold goint.in_range, goint.wrap, goint.MinInt, goint.MaxInt, goint.bits.
  change (2 ^ (64 - 1)) with 9223372036854775808.
  change (2 ^ 64) with 18446744073709551616.
  intros H. rewrite Z.mod_small; lia.
Qed.

Lemma allowed_bounds w : In w AllowedWidths -> 256 <= w <= 3840.
Proof.
  unfold AllowedWidths. simpl. intros H.
  repeat (destruct H as [H|H]; [lia|]). contradiction.
Qed.

(** Away from the bottom of the [int] range the machine distance is the
    mathematical one. *)
Lemma abs_sub_exact width w :
  noOverflow width -> 256 <= w <= 3840 ->
  abs (goint.sub w width) = Z.abs (w - width).
Proof.
  unfold noOverflow, goint.MinInt, goint.MaxInt, goint.bits.
  change (2 ^ (64 - 1)) with 9223372036854775808.
  intros Hw Hb. unfold abs, goint.sub, goint.neg.
  rewrite (wrap_in_range (w - width)).
  - destruct (w - width <? 0) eqn:E.
    + apply Z.ltb_lt in E. rewrite wrap_in_range; [lia|].
      unfold goint.in_range, goint.MinInt, goint.MaxInt, goint.bits.
      change (2 ^ (64 - 1)) with 9223372036854775808. lia.
    + apply Z.ltb_ge in E. lia.
  - unfold goint.in_range, goint.MinInt, goint.MaxInt, goint.bits.
    change (2 ^ (64 - 1)) with 9223372036854775808. lia.
Qed.

Lemma nearer_exact width nearest w :
  noOverflow width -> 256 <= nearest <= 3840 -> 256 <= w <= 3840 ->
  nearer width nearest w = nearerZ width nearest w.
Proof.
  intros Hw Hn Hx. unfold nearer, nearerZ.
  now rewrite !abs_sub_exact.
Qed.

Lemma nearerZ_bounds width nearest w :
  256 <= nearest <= 3840 -> 256 <= w <= 3840 ->
  256 <= nearerZ width nearest w <= 3840.
Proof. unfold nearerZ. destruct (_ <? _); auto. Qed.

Lemma fold_nearer_exact width l :
  noOverflow width ->
  (forall w, In w l -> 256 <= w <= 3840) ->
  forall nearest, 256 <= nearest <= 3840 ->
  fold_left (nearer width) l nearest = fold_left (nearerZ width) l nearest.
Proof.
  intros Hw. induction l as [|w l IH]; intros Hl nearest Hn; simpl.
  - reflexivity.
  - rewrite nearer_exact by (auto; apply Hl; now left).
    apply IH.
    + intros x Hx. apply Hl. now right.
    + apply nearerZ_bounds; auto. apply Hl. now left.
Qed.

(** The scan keeps the best candidate seen so far, provided the widths
    come in ascending order. *)
Lemma fold_best width l :
  forall seen r,
    Best width seen r ->
    (forall x y, In x seen -> In y l -> x <= y) ->
    StronglySorted Z.le l ->
    Best width (seen ++ l) (fold_left (nearerZ width) l r).
Proof.
  induction l as [|w l IH]; intros seen r HB Hle Hs; simpl.
  - now rewrite app_nil_r.
  - replace (seen ++ w :: l)%list with ((seen ++ [w]) ++ l)%list
      by (now rewrite <- app_assoc).
    inversion Hs as [|? ? Hs' Hall]; subst.
    apply IH; [| |assumption].
    + destruct HB as [Hin Hmin]. unfold nearerZ.
      destruct (Z.abs (w - width) <? Z.abs (r - width)) eqn:E.
      * apply Z.ltb_lt in E. split; [apply in_or_app; right; now left|].
        intros x Hx. apply in_app_or in Hx. destruct Hx as [Hx|[<-|[]]].
        -- destruct (Hmin x Hx). split; lia.
        -- split; lia.
      * apply Z.ltb_ge in E. split; [apply in_or_app; now left|].
        intros x Hx. apply in_app_or in Hx. destruct Hx as [Hx|[<-|[]]].
        -- now apply Hmin.
        -- split; [lia|]. intros _. apply Hle; [assumption|now left].
    + intros x y Hx Hy. apply in_app_or in Hx. destruct Hx as [Hx|[<-|[]]].
      * apply Hle; [assumption|now right].
      * rewrite Forall_forall in Hall. now apply Hall.
Qed.

Lemma allowed_sorted : StronglySorted Z.le AllowedWidths.
Proof.
  unfold AllowedWidths.
  repeat (constructor; [|repeat (constructor; try lia)]). constructor.
Qed.

(** The result is always one of the allowed widths. *)
Lemma getNearestWidth_allowed width : In (getNearestWidth width) AllowedWidths.
Proof.
  unfold getNearestWidth.
  assert (H : forall l r, In r AllowedWidths -> incl l AllowedWidths ->
                          In (fold_left (nearer width) l r) AllowedWidths).
  { induction l as [|w l IH]; intros r Hr Hl; simpl; [assumption|].
    apply IH.
    - unfold nearer. destruct (_ <? _); [apply Hl; now left|assumption].
    - intros x Hx. apply Hl. now right. }
  apply H; [now left|apply incl_refl].
Qed.

(** On every input that keeps the subtractions in range, the result is the
    nearest allowed width, the smaller one on a tie. *)
Lemma getNearestWidth_nearest width :
  noOverflow width -> Nearest width (getNearestWidth width).
Proof.
  intros Hw. unfold getNearestWidth.
  rewrite fold_nearer_exact; [|assumption|apply allowed_bounds|simpl; lia].
  destruct (fold_best width AllowedWidths [256] 256) as [Hin Hmin].
  - split; [now left|]. intros x [<-|[]]. split; lia.
  - intros x y [<-|[]] Hy. apply allowed_bounds in Hy. lia.
  - apply allowed_sorted.
  - change (nth 0 AllowedWidths 0) with 256.
    split.
    + apply in_app_or in Hin. destruct Hin as [[Hin|[]]|Hin]; [|exact Hin].
      rewrite <- Hin. now left.
    + intros w Hw'. apply Hmin. apply in_or_app. now right.
Qed.

(** The three values the specification quotes. *)
Lemma getNearestWidth_examples :
  getNearestWidth 100 = 256 /\ getNearestWidth 1100 = 1080 /\ getNearestWidth 4000 = 3840.
Proof. repeat split; vm_compute; reflexivity. Qed.

(** C5.  At the smallest [int] every subtraction [w - width] wraps around:
    the scan ends on 3840, the allowed width farthest from the input,
    although 256 is strictly nearer. *)
Theorem getNearestWidth_wraps_at_MinInt :
  getNearestWidth (-9223372036854775808) = 3840 /\
  In 256 AllowedWidths /\
  Z.abs (256 - (-9223372036854775808)) < Z.abs (3840 - (-9223372036854775808)) /\
  ~ Nearest (-9223372036854775808) (getNearestWidth (-9223372036854775808)).
Proof.
  assert (E : getNearestWidth (-9223372036854775808) = 3840) by (vm_compute; reflexivity).
  split; [exact E|]. split; [now left|]. split; [lia|].
  rewrite E. intros [_ H]. destruct (H 256 ltac:(now left)) as [H1 _]. lia.
Qed.

End Width.

(** ** Package [client]: error mapping *)

Module Transport.
Import types env client examples.

(** The text of the error payload quoted in the specification. *)
Lemma invalid_request_body :
  json.object [("message", "Invalid request"); ("code", "INVALID_REQUEST")]
  = String "{" (String json.dquote ("message" ++ String json.dquote (String ":"
      (String json.dquote ("Invalid request" ++ String json.dquote (String ","
      (String json.dquote ("code" ++ String json.dquote (String ":"
      (String json.dquote ("INVALID_REQUEST" ++ String json.dquote "}")))))))))))%string.
Proof. reflexivity. Qed.



End Transport.

(** ** Package [cdn]: the transform URL *)

Module Transform.
Import types poll cdn.

(** [buildTransformQuery] is the chain of conditional [Set] calls over the
    options in source order. *)
Lemma buildTransformQuery_fold o :
  buildTransformQuery (Some o) = url.Encode (fold_left setStep (fieldsOf o) []).
Proof. reflexivity. Qed.

Lemma Has_app (v v' : url.Values) k :
  url.Has (v ++ v')%list k = url.Has v k || url.Has v' k.
Proof. unfold url.Has. apply existsb_app. Qed.

(** [Set] on a key the map does not hold adds an entry. *)
Lemma SetValue_fresh v k x :
  url.Has v k = false -> url.SetValue v k x = (v ++ [(k, [x])])%list.
Proof.
  induction v as [|[k' vs] v IH]; simpl; intros H; [reflexivity|].
  apply orb_false_iff in H. destruct H as [Hk Hv].
  rewrite Hk. now rewrite IH.
Qed.

Lemma distinctNames_cons k rest :
  distinctNames (k :: rest) = true ->
  (forall k', In k' rest -> String.eqb k k' = false) /\ distinctNames rest = true.
Proof.
  simpl. intros H. apply andb_true_iff in H. destruct H as [Hn Hd].
  split; [|assumption]. intros k' Hin.
  destruct (String.eqb k k') eqn:E; [|reflexivity].
  apply negb_true_iff in Hn.
  assert (existsb (String.eqb k) rest = true)
    by (apply existsb_exists; exists k'; auto).
  congruence.
Qed.

(** With distinct names the chain of [Set] calls yields one entry per set
    option, in source order. *)
Lemma fold_setStep fields :
  forall acc,
    distinctNames (map fst fields) = true ->
    (forall k, In k (map fst fields) -> url.Has acc k = false) ->
    fold_left setStep fields acc = (acc ++ entries fields)%list.
Proof.
  induction fields as [|[k o] fields IH]; intros acc Hd Hfresh; simpl.
  - unfold entries. simpl. now rewrite app_nil_r.
  - simpl in Hd. apply distinctNames_cons in Hd. destruct Hd as [Hk Hd].
    unfold setStep at 2. simpl. destruct o as [v|]; simpl.
    + rewrite SetValue_fresh by (apply Hfresh; now left).
      rewrite IH; [|assumption|].
      * unfold entries. simpl. now rewrite <- app_assoc.
      * intros k' Hin. rewrite Has_app, (Hfresh k') by (now right). simpl.
        now rewrite (Hk k' Hin).
    + apply IH; [assumption|]. intros k' Hin. apply Hfresh. now right.
Qed.

(** Sorting the entries by key is inserting the parameters into the
    ordered table. *)
Lemma insertKey_fits k v table :
  fitsIn k (map fst table) = true ->
  url.insertKey (k, [v]) (entries table) = entries (insertField (k, Some v) table).
Proof.
  induction table as [|[g o] table IH]; simpl; intros Hfit; [reflexivity|].
  destruct (String.leb k g) eqn:E.
  - unfold entries. simpl. destruct o as [x|]; simpl.
    + now rewrite E.
    + clear IH. induction table as [|[g' o'] table IH']; simpl; [reflexivity|].
      simpl in Hfit. apply andb_true_iff in Hfit. destruct Hfit as [Hg' Hrest].
      destruct o' as [x'|]; simpl.
      * now rewrite Hg'.
      * now apply IH'.
  - specialize (IH Hfit). unfold entries in *. simpl. destruct o as [x|]; simpl.
    + rewrite E. now rewrite IH.
    + exact IH.
Qed.

Lemma insertField_unset k table :
  entries (insertField (k, None) table) = entries table.
Proof.
  induction table as [|[g o] table IH]; simpl; [reflexivity|].
  destruct (String.leb k g); [reflexivity|].
  unfold entries in *. simpl. destruct o; simpl; now rewrite IH.
Qed.

Lemma sortKeys_entries fields :
  insertable fields = true ->
  url.sortKeys (entries fields) = entries (sortFields fields).
Proof.
  induction fields as [|[k o] fields IH]; simpl; intros H; [reflexivity|].
  apply andb_true_iff in H. destruct H as [Hi Hfit].
  destruct o as [v|].
  - unfold entries at 1. simpl.
    change (map (fun kv : string * string => (fst kv, [snd kv])) (setOnly fields))
      with (entries fields).
    change (url.sortKeys ((k, [v]) :: entries fields))
      with (url.insertKey (k, [v]) (url.sortKeys (entries fields))).
    rewrite (IH Hi). now apply insertKey_fits.
  - rewrite insertField_unset. unfold entries at 1. simpl. now apply IH.
Qed.

Lemma flat_entries (l : list (string * string)) :
  flat_map (fun kv : string * list string =>
              map (fun x => url.QueryEscape (fst kv) ++ "=" ++ url.QueryEscape x) (snd kv))
           (map (fun kv : string * string => (fst kv, [snd kv])) l)
  = map (fun kv => url.QueryEscape (fst kv) ++ "=" ++ url.QueryEscape (snd kv)) l.
Proof. induction l as [|[k v] l IH]; simpl; [reflexivity|]. f_equal. exact IH. Qed.

Lemma Encode_entries fields :
  insertable fields = true ->
  url.Encode (entries fields) =
  gostd.Join (map (fun kv => url.QueryEscape (fst kv) ++ "=" ++ url.QueryEscape (snd kv))
                  (setOnly (sortFields fields))) "&".
Proof.
  intros H. unfold url.Encode. rewrite (sortKeys_entries _ H).
  unfold entries. f_equal. apply flat_entries.
Qed.

(** The code builds the query string of the specification. *)
Lemma buildTransformQuery_spec options :
  buildTransformQuery options = transformQuerySpec options.
Proof.
  destruct options as [o|]; [|reflexivity].
  rewrite buildTransformQuery_fold, fold_setStep.
  - simpl app. rewrite Encode_entries by reflexivity. reflexivity.
  - reflexivity.
  - intros k _. reflexivity.
Qed.

Lemma isNone_true {A} (o : option A) : isNone o = true -> o = None.
Proof. destruct o; [discriminate|reflexivity]. Qed.

Lemma noTransform_query options :
  noTransform options = true -> transformQuerySpec options = "".
Proof.
  destruct options as [o|]; [|reflexivity].
  unfold noTransform, transformQuerySpec, orderedFieldsOf. intros H.
  repeat (apply andb_true_iff in H; destruct H as [H ?]).
  repeat match goal with
         | Hn : isNone _ = true |- _ => apply isNone_true in Hn; rewrite Hn
         | Hn : negb _ = true |- _ => apply negb_true_iff in Hn; rewrite Hn
         end.
  reflexivity.
Qed.

Lemma Join_nonempty x l sep : x <> "" -> gostd.Join (x :: l) sep <> "".
Proof.
  intros Hx. destruct l as [|y l]; simpl; [assumption|].
  destruct x; [congruence|discriminate].
Qed.

Lemma pair_nonempty k v : url.QueryEscape k ++ "=" ++ url.QueryEscape v <> "".
Proof. destruct (url.QueryEscape k); discriminate. Qed.

Lemma setOnly_nil_noTransform o :
  setOnly (orderedFieldsOf o) = [] -> noTransform (Some o) = true.
Proof.
  unfold orderedFieldsOf, noTransform, setOnly. simpl.
  destruct (Blur o); [discriminate|].
  destruct (Brightness o); [discriminate|].
  destruct (Crop o); [discriminate|].
  destruct (CropHeight o); [discriminate|].
  destruct (CropWidth o); [discriminate|].
  destruct (CropX o); [discriminate|].
  destruct (CropY o); [discriminate|].
  destruct (Format o); [discriminate|].
  destruct (Fit o); [discriminate|].
  destruct (Flip o); [discriminate|].
  destruct (Flop o); [discriminate|].
  destruct (Grayscale o); [discriminate|].
  destruct (Height o); [discriminate|].
  destruct (Quality o); [discriminate|].
  destruct (Rotate o); [discriminate|].
  destruct (Saturation o); [discriminate|].
  destruct (Sharpen o); [discriminate|].
  destruct (Width o); [discriminate|].
  reflexivity.
Qed.

Lemma transform_query_nonempty options :
  noTransform options = false -> transformQuerySpec options <> "".
Proof.
  destruct options as [o|]; [|discriminate].
  intros H. unfold transformQuerySpec.
  destruct (setOnly (orderedFieldsOf o)) as [|kv l] eqn:E.
  - apply setOnly_nil_noTransform in E. congruence.
  - simpl map. apply Join_nonempty, pair_nonempty.
Qed.

(** C6, as amended.  With no transform option set [GetTransformURL]
    returns the base URL unchanged; with at least one set it returns the
    base URL, [?] and the query string of the set options in ascending name
    order.  The base URL of a full-URL reference is the scheme, host and
    decoded path of the parsed reference, not the reference itself; that of
    a storage key is the CDN URL without a trailing slash, a slash and the
    key. *)
Theorem transform_url_shape (c : Client) (ref : string) (options : option TransformOptions) :
  (forall base,
      resolveBaseURL c ref = inr base ->
      (noTransform options = true -> GetTransformURL c ref options = inr base) /\
      (noTransform options = false ->
       GetTransformURL c ref options = inr (base ++ "?" ++ transformQuerySpec options) /\
       transformQuerySpec options <> "")) /\
  (isFullURL ref = true ->
   forall u, url.Parse ref = inr u ->
             resolveBaseURL c ref = inr (url.Scheme u ++ "://" ++ url.Host u ++ url.Path u)) /\
  (isFullURL ref = false -> cdnURL c <> "" ->
   resolveBaseURL c ref = inr (gostd.TrimSuffix (cdnURL c) "/" ++ "/" ++ ref)).
Proof.
  split; [|split].
  - intros base Hb. unfold GetTransformURL. rewrite Hb, buildTransformQuery_spec.
    split; intros Hn.
    + now rewrite (noTransform_query _ Hn).
    + pose proof (transform_query_nonempty _ Hn) as Hq.
      split; [|exact Hq].
      apply String.eqb_neq in Hq. now rewrite Hq.
  - unfold isFullURL, resolveBaseURL. intros -> u ->. reflexivity.
  - unfold isFullURL, resolveBaseURL. intros -> Hc.
    apply String.eqb_neq in Hc. now rewrite Hc.
Qed.

(** C6 at work: a storage key under a configured CDN URL, once without
    options and once with width 800 and quality 80. *)
Lemma transform_url_shape_witness :
  GetTransformURL examples.configuredCDN "uploads/image.jpg" (Some examples.noOptions)
  = inr "https://cdn.example.com/uploads/image.jpg" /\
  GetTransformURL examples.configuredCDN "uploads/image.jpg" (Some examples.widthAndQuality)
  = inr "https://cdn.example.com/uploads/image.jpg?q=80&w=828".
Proof.
  split.
  - refine (proj1 (proj1 (transform_url_shape examples.configuredCDN "uploads/image.jpg"
                                              (Some examples.noOptions))
                         "https://cdn.example.com/uploads/image.jpg" _) _);
      reflexivity.
  - refine (proj1 (proj2 (proj1 (transform_url_shape examples.configuredCDN
                                   "uploads/image.jpg" (Some examples.widthAndQuality))
                                "https://cdn.example.com/uploads/image.jpg" _) _));
      reflexivity.
Defined.

(** C6 as stated fails: a full-URL reference with a query string does not
    come back unchanged, its query string is dropped. *)
Lemma full_url_not_returned_unchanged :
  isFullURL "https://cdn.example.com/image.jpg?v=2" = true /\
  noTransform None = true /\
  GetTransformURL examples.bareCDN "https://cdn.example.com/image.jpg?v=2" None
  = inr "https://cdn.example.com/image.jpg" /\
  ~ (forall (c : Client) (ref : string) (options : option TransformOptions),
        noTransform options = true -> isFullURL ref = true ->
        GetTransformURL c ref options = inr ref).
Proof.
  split; [reflexivity|]. split; [reflexivity|]. split; [reflexivity|].
  intros H.
  specialize (H examples.bareCDN "https://cdn.example.com/image.jpg?v=2" None
                eq_refl eq_refl).
  vm_compute in H. discriminate H.
Qed.

(** C7, as amended.  [GetTransformURL] returns the configuration error
    exactly when the reference is not a full URL and no CDN URL is
    configured; any other failure is the error of [url.Parse] on a full-URL
    reference, returned as it is; on every other input the builder
    succeeds. *)
Theorem transform_url_failures (c : Client) (ref : string) (options : option TransformOptions) :
  (GetTransformURL c ref options = inl configError <->
   isFullURL ref = false /\ cdnURL c = "") /\
  (forall e, GetTransformURL c ref options = inl e -> e <> configError ->
             isFullURL ref = true /\
             exists pe, url.Parse ref = inl pe /\ e = urlError pe) /\
  ((isFullURL ref = true /\ exists u, url.Parse ref = inr u) \/
   (isFullURL ref = false /\ cdnURL c <> "") ->
   exists s, GetTransformURL c ref options = inr s).
Proof.
  unfold GetTransformURL, resolveBaseURL, isFullURL.
  destruct (gostd.HasPrefix ref "http://" || gostd.HasPrefix ref "https://") eqn:Hfull.
  - destruct (url.Parse ref) as [pe|u] eqn:Hp.
    + split; [|split].
      * split; [discriminate|intros [H _]; discriminate].
      * intros e H _. inversion H; subst. eauto.
      * intros [[_ [u Hu]]|[H _]]; discriminate.
    + split; [|split].
      * split; [|intros [H _]; discriminate].
        destruct (String.eqb (buildTransformQuery options) ""); discriminate.
      * intros e H.
        destruct (String.eqb (buildTransformQuery options) ""); discriminate.
      * intros _. destruct (String.eqb (buildTransformQuery options) ""); eauto.
  - destruct (String.eqb (cdnURL c) "") eqn:Hc; simpl.
    + apply String.eqb_eq in Hc. split; [|split].
      * split; auto.
      * intros e H Hne. inversion H; subst. congruence.
      * intros [[H _]|[_ H]]; [discriminate|congruence].
    + apply String.eqb_neq in Hc. split; [|split].
      * split; [|intros [_ H]; congruence].
        destruct (String.eqb (buildTransformQuery options) ""); discriminate.
      * intros e H.
        destruct (String.eqb (buildTransformQuery options) ""); discriminate.
      * intros _. destruct (String.eqb (buildTransformQuery options) ""); eauto.
Qed.

(** C7 at work: a storage key with no CDN URL configured is the
    configuration error; the same key under a CDN URL succeeds. *)
Lemma transform_url_failures_witness :
  GetTransformURL examples.bareCDN "uploads/image.jpg" (Some examples.noOptions)
  = inl configError /\
  exists s, GetTransformURL examples.configuredCDN "uploads/image.jpg"
                            (Some examples.noOptions) = inr s.
Proof.
  split.
  - apply (proj2 (proj1 (transform_url_failures examples.bareCDN "uploads/image.jpg"
                                                (Some examples.noOptions)))).
    split; reflexivity.
  - apply (proj2 (proj2 (transform_url_failures examples.configuredCDN "uploads/image.jpg"
                                                (Some examples.noOptions)))).
    right. split; [reflexivity|discriminate].
Defined.

(** C7 as stated fails: a full-URL reference with an invalid percent
    escape is neither a configuration error nor a success. *)
Lemma parse_error_is_another_failure :
  isFullURL "https://example.com/%zz" = true /\
  GetTransformURL examples.bareCDN "https://example.com/%zz" None
  = inl (urlError (url.EscapeError "%zz")) /\
  ~ (forall (c : Client) (ref : string) (options : option TransformOptions),
        (isFullURL ref = false /\ cdnURL c = "") \/
        exists s, GetTransformURL c ref options = inr s).
Proof.
  split; [reflexivity|]. split; [reflexivity|].
  intros H.
  destruct (H examples.bareCDN "https://example.com/%zz" None) as [[Hf _]|[s Hs]].
  - discriminate Hf.
  - vm_compute in Hs. discriminate Hs.
Qed.

End Transform.

(** ** List requests: unset filters *)

Module Filters.
Import types env client poll.



End Filters.

(** ** Package [client]: what a call puts on the wire and what it returns *)

Module Wire.
Import types env client examples.

Section Requests.
Context (w : World) (c : HTTPClient) {errorResponseDecoder : Decoder ErrorResponse}.


(** X2.  An error of [doRequest] in which [errors.As] finds an
    [*APIError] is that [*APIError] itself, unwrapped, and it comes from
    a response that was received with a status of 400 or more and whose
    body was read: a failure to marshal, to build the request, to reach
    the server or to read the body is never reported as an API error. *)
Theorem api_error_only_from_error_status {B} (E : Encoder B) t method path
        (body : option B) (e : error) (a : APIError) :
  fst (doRequest w c t method path body) = inl e ->
  AsAPIError e = Some a ->
  e = ptrAPIError a /\
  exists resp respBody,
    roundTrip w (List.length (sent t)) = inr resp /\
    resp_Body resp = inr respBody /\
    400 <= resp_StatusCode resp /\
    StatusCode a = resp_StatusCode resp.
Proof.
  unfold doRequest. intros H Ha.
  assert (G : forall reqBody header,
             fst (match newRequestError w method (baseURL c ++ path) with
                  | Some e => (inl (wrapError "failed to create request" (netError e)), t)
                  | None =>
                      let req := mkRequest method (baseURL c ++ path) header reqBody in
                      let t' := logRequest t req in
                      match roundTrip w (List.length (sent t)) with
                      | inl e => (inl (wrapError "request failed" (netError e)), t')
                      | inr resp =>
                          match resp_Body resp with
                          | inl e =>
                              (inl (wrapError "failed to read response body" (netError e)), t')
                          | inr respBody =>
                              if 400 <=? resp_StatusCode resp then
                                let (errResp, err) := Unmarshal (T := ErrorResponse) respBody in
                                let errResp :=
                                  match err with
                                  | Some _ => mkErrorResponse respBody (er_Code errResp)
                                  | None => errResp
                                  end in
                                (inl (ptrAPIError
                                        (mkAPIError (resp_StatusCode resp) (er_Code errResp)
                                                    (er_Message errResp) errResp)), t')
                              else (inr respBody, t')
                          end
                      end
                  end) = inl e ->
             e = ptrAPIError a /\
             exists resp respBody,
               roundTrip w (List.length (sent t)) = inr resp /\
               resp_Body resp = inr respBody /\
               400 <= resp_StatusCode resp /\
               StatusCode a = resp_StatusCode resp).
  { intros reqBody header G.
    destruct (newRequestError w method (baseURL c ++ path)).
    { simpl in G. inversion G; subst. discriminate Ha. }
    destruct (roundTrip w (List.length (sent t))) as [e0|resp].
    { simpl in G. inversion G; subst. discriminate Ha. }
    destruct (resp_Body resp) as [e0|respBody] eqn:Hb.
    { simpl in G. inversion G; subst. discriminate Ha. }
    cbv zeta in G.
    destruct (400 <=? resp_StatusCode resp) eqn:Hs; [|discriminate G].
    apply Z.leb_le in Hs.
    destruct (Unmarshal respBody) as [er [e0|]]; simpl in G; inversion G; subst;
      simpl in Ha; inversion Ha; subst; (split; [reflexivity|]);
      exists resp, respBody; auto. }
  destruct body as [b|].
  - destruct (Marshal b) as [me|bytes].
    + simpl in H. inversion H; subst. discriminate Ha.
    + exact (G _ _ H).
  - exact (G _ _ H).
Qed.

(** X3.  [doRequest] returns bytes and no error exactly when the body
    marshals, the request is built, a response arrives with a status
    below 400 and its body is read; the bytes are the response body as
    read.  Every status below 400 counts as success, not only those of
    the 2xx class. *)
Theorem success_iff_status_below_400 {B} (E : Encoder B) t method path
        (body : option B) (bytes : string) :
  fst (doRequest w c t method path body) = inr bytes <->
  ((forall b, body = Some b -> exists payload, Marshal b = inr payload) /\
   newRequestError w method (baseURL c ++ path) = None /\
   exists resp,
     roundTrip w (List.length (sent t)) = inr resp /\
     resp_Body resp = inr bytes /\
     resp_StatusCode resp < 400).
Proof.
  unfold doRequest. split.
  - intros H.
    assert (Hm : forall b, body = Some b -> exists payload, Marshal b = inr payload).
    { intros b ->. destruct (Marshal b) as [me|p]; [discriminate H|eauto]. }
    split; [exact Hm|].
    assert (H' : exists reqBody header,
               fst (match newRequestError w method (baseURL c ++ path) with
                    | Some e => (inl (wrapError "failed to create request" (netError e)), t)
                    | None =>
                        let req := mkRequest method (baseURL c ++ path) header reqBody in
                        let t' := logRequest t req in
                        match roundTrip w (List.length (sent t)) with
                        | inl e => (inl (wrapError "request failed" (netError e)), t')
                        | inr resp =>
                            match resp_Body resp with
                            | inl e =>
                                (inl (wrapError "failed to read response body" (netError e)), t')
                            | inr respBody =>
                                if 400 <=? resp_StatusCode resp then
                                  let (errResp, err) := Unmarshal (T := ErrorResponse) respBody in
                                  let errResp :=
                                    match err with
                                    | Some _ => mkErrorResponse respBody (er_Code errResp)
                                    | None => errResp
                                    end in
                                  (inl (ptrAPIError
                                          (mkAPIError (resp_StatusCode resp) (er_Code errResp)
                                                      (er_Message errResp) errResp)), t')
                                else (inr respBody, t')
                            end
                        end
                    end) = inr bytes).
    { destruct body as [b|]; [|eauto].
      destruct (Marshal b) as [me|p]; [discriminate H|eauto]. }
    destruct H' as [reqBody [header H']].
    destruct (newRequestError w method (baseURL c ++ path)); [discriminate H'|].
    split; [reflexivity|].
    destruct (roundTrip w (List.length (sent t))) as [e0|resp]; [discriminate H'|].
    exists resp. split; [reflexivity|].
    destruct (resp_Body resp) as [e0|respBody]; [discriminate H'|].
    cbv zeta in H'.
    destruct (400 <=? resp_StatusCode resp) eqn:Hs.
    + destruct (Unmarshal respBody) as [er [e0|]]; discriminate H'.
    + apply Z.leb_gt in Hs. simpl in H'. inversion H'; subst. auto.
  - intros [Hm [Hn [resp [Hr [Hb Hs]]]]].
    apply Z.leb_gt in Hs.
    destruct body as [b|].
    + destruct (Hm b eq_refl) as [payload ->].
      rewrite Hn, Hr, Hb. cbv zeta. rewrite Hs. reflexivity.
    + rewrite Hn, Hr, Hb. cbv zeta. rewrite Hs. reflexivity.
Qed.

(** X4.  When the server answers with a status below 400 and an empty
    body, each of the six request methods returns no error and leaves
    the result at its zero value: the decoder is not run on the empty
    body. *)
Theorem empty_success_body_gives_zero_value
        {B T} (E : Encoder B) (D : Decoder T) t path (body : B) resp :
  (forall method, newRequestError w method (baseURL c ++ path) = None) ->
  (exists payload, Marshal body = inr payload) ->
  roundTrip w (List.length (sent t)) = inr resp ->
  resp_Body resp = inr "" ->
  resp_StatusCode resp < 400 ->
  fst (Get (T := T) w c t path) = inr zero /\
  fst (Post (T := T) w c t path body) = inr zero /\
  fst (Put (T := T) w c t path body) = inr zero /\
  fst (Patch (T := T) w c t path body) = inr zero /\
  fst (Delete (T := T) w c t path) = inr zero /\
  fst (DeleteWithBody (T := T) w c t path body) = inr zero.
Proof.
  intros Hn [payload Hm] Hr Hb Hs. apply Z.leb_gt in Hs.
  unfold Get, Post, Put, Patch, Delete, DeleteWithBody, doRequest.
  rewrite Hm, !Hn, Hr, Hb. cbv zeta. rewrite Hs.
  repeat split.
Qed.

End Requests.

(** X2 at work: the answer is HTTP 400; the error is the API error with
    that status. *)
Lemma api_error_only_from_error_status_witness :
  exists resp,
    roundTrip (scripted [invalidRequest] invalidRequest) 0 = inr resp /\
    resp_StatusCode resp = 400.
Proof.
  destruct (@api_error_only_from_error_status
              (scripted [invalidRequest] invalidRequest) apiClient
              flatErrorResponseDecoder Empty_set nilEncoder emptyTrace
              MethodGet "/mail" None
              (ptrAPIError (mkAPIError 400 "INVALID_REQUEST" "Invalid request"
                              (mkErrorResponse "Invalid request" "INVALID_REQUEST")))
              (mkAPIError 400 "INVALID_REQUEST" "Invalid request"
                 (mkErrorResponse "Invalid request" "INVALID_REQUEST")))
    as [_ [resp [respBody [Hr [_ [_ Hs]]]]]].
  - vm_compute. reflexivity.
  - reflexivity.
  - exists resp. split; [exact Hr|]. rewrite <- Hs. reflexivity.
Defined.

(** X3 at work: a 204 answer to a GET is a success with the bytes of its
    body. *)
Lemma success_iff_status_below_400_witness :
  fst (doRequest (scripted [] (status 204 "")) apiClient
                 (errorResponseDecoder := flatErrorResponseDecoder)
                 (H := nilEncoder) emptyTrace MethodGet "/mail" None) = inr "".
Proof.
  apply (proj2 (@success_iff_status_below_400
                  (scripted [] (status 204 "")) apiClient
                  flatErrorResponseDecoder Empty_set nilEncoder emptyTrace
                  MethodGet "/mail" None "")).
  split; [intros b H; discriminate H|].
  split; [reflexivity|].
  exists (mkResponse 204 (inr "")).
  split; [reflexivity|]. split; [reflexivity|]. simpl. lia.
Defined.

(** X4 at work: a 204 answer without a body leaves an extraction result
    at its zero value. *)
Lemma empty_success_body_gives_zero_value_witness :
  fst (Delete (T := extraction.ExtractionResult.t)
              (scripted [] (status 204 "")) apiClient
              (errorResponseDecoder := flatErrorResponseDecoder)
              (H := extraction.flatResultDecoder)
              emptyTrace "/webdata/extractions/x")
  = inr (extraction.ExtractionResult.mk "" "" "" None "").
Proof.
  refine (proj1 (proj2 (proj2 (proj2 (proj2
            (@empty_success_body_gives_zero_value
               (scripted [] (status 204 "")) apiClient flatErrorResponseDecoder
               _ _ extraction.flatCreateRequestEncoder extraction.flatResultDecoder
               emptyTrace "/webdata/extractions/x" extractionRequest
               (mkResponse 204 (inr "")) _ _ _ _ _)))))).
  - intros method. reflexivity.
  - eexists. reflexivity.
  - reflexivity.
  - reflexivity.
  - simpl. lia.
Defined.

End Wire.

(** ** The polling loop: further properties of a run *)

Module Polling.
Import types env client poll poll_facts.

Section Loop.
Context (w : World) {R : Type}.
Variable getStatus : Trace -> (error + R) * Trace.
Variable onStatus : R -> option (error + R).
Variables (pollInterval timeout : Z) (timeoutMessage : string).

Local Abbreviation run := (Run w getStatus onStatus pollInterval timeout timeoutMessage).
Local Abbreviation polledAt := (polled getStatus).

(** A run that ends without an error ends on its last status call, with
    what the terminal-status block makes of the record polled there. *)
Lemma Run_returns_polled_record n i elapsed t out t' :
  run n i elapsed t out t' ->
  forall r, out = inr r ->
            exists k r0, n = S k /\ polledAt t k = inr r0 /\ onStatus r0 = Some (inr r).
Proof.
  unfold polled.
  induction 1 as [i el t Hd | i el t err0 t1 Hlt Hget | i el t r0 t1 o Hlt Hget Hon
                 | i el t r0 t1 e Hlt Hget Hon Hsel
                 | n i el t r0 t1 late o t2 Hlt Hget Hon Hsel Hrun IH];
    intros r Hr; try discriminate Hr.
  - subst. exists 0%nat, r0. simpl. rewrite Hget. auto.
  - destruct (IH r Hr) as [k [r1 [-> [Hp Hs]]]].
    exists (S k), r1. simpl. rewrite Hget. auto.
Qed.

(** A wait that the context ends is the last step of the run, and the
    run returns [ctx.Err()]. *)
Lemma Run_cancel n i elapsed t out t' :
  run n i elapsed t out t' ->
  forall k r e,
    (k < n)%nat -> polledAt t k = inr r -> onStatus r = None ->
    selectWake w (i + k) = ctxDone e ->
    out = inl (ctx_Err e) /\ S k = n.
Proof.
  unfold polled.
  induction 1 as [i el t Hd | i el t err0 t1 Hlt Hget | i el t r0 t1 o Hlt Hget Hon
                 | i el t r0 t1 e0 Hlt Hget Hon Hsel
                 | n i el t r0 t1 late o t2 Hlt Hget Hon Hsel Hrun IH];
    intros k r e Hk Hp Hn Hw.
  - lia.
  - assert (k = 0)%nat by lia; subst. simpl in Hp. rewrite Hget in Hp. discriminate.
  - assert (k = 0)%nat by lia; subst. simpl in Hp. rewrite Hget in Hp.
    simpl in Hp. inversion Hp; subst. congruence.
  - assert (k = 0)%nat by lia; subst. rewrite Nat.add_0_r in Hw.
    rewrite Hsel in Hw. inversion Hw; subst. auto.
  - destruct k as [|k].
    + rewrite Nat.add_0_r in Hw. congruence.
    + simpl in Hp. rewrite Hget in Hp. simpl in Hp.
      replace (i + S k)%nat with (S i + k)%nat in Hw by lia.
      destruct (IH k r e ltac:(lia) Hp Hn Hw) as [-> ->]. auto.
Qed.

(** Every status call but the first comes after a wait of one poll
    interval at least: the calls of a run fit before the deadline. *)
Lemma Run_count n i elapsed t out t' :
  0 < pollInterval ->
  run n i elapsed t out t' ->
  n = 0%nat \/ elapsed + (Z.of_nat n - 1) * pollInterval < timeout.
Proof.
  intros Hp.
  induction 1 as [i el t Hd | i el t err0 t1 Hlt Hget | i el t r0 t1 o Hlt Hget Hon
                 | i el t r0 t1 e0 Hlt Hget Hon Hsel
                 | n i el t r0 t1 late o t2 Hlt Hget Hon Hsel Hrun IH].
  - now left.
  - right. simpl. lia.
  - right. simpl. lia.
  - right. simpl. lia.
  - right. destruct IH as [->|IH]; [simpl; lia|].
    rewrite Nat2Z.inj_succ. pose proof (N2Z.is_nonneg late). nia.
Qed.

Lemma Run_count_bound n i elapsed t out t' :
  0 < pollInterval -> 0 < timeout -> 0 <= elapsed ->
  run n i elapsed t out t' ->
  Z.of_nat n <= (timeout + pollInterval - 1) / pollInterval.
Proof.
  intros Hp Hto Hel Hrun.
  apply Z.div_le_lower_bound; [assumption|].
  destruct (Run_count _ _ _ _ _ _ Hp Hrun) as [->|H]; simpl; nia.
Qed.

(** When neither a status call nor the terminal-status block can produce
    a [*TimeoutError], a run that returns one has seen nothing but
    non-terminal records and timers that fired. *)
Lemma Run_timeout_origin n i elapsed t out t' :
  (forall t0 e t1, getStatus t0 = (inl e, t1) -> AsTimeoutError e = None) ->
  (forall r e, onStatus r = Some (inl e) -> AsTimeoutError e = None) ->
  run n i elapsed t out t' ->
  forall e te,
    out = inl e -> AsTimeoutError e = Some te ->
    e = ptrTimeoutError (NewTimeoutError timeoutMessage) /\
    (forall k, (k < n)%nat -> exists r, polledAt t k = inr r /\ onStatus r = None) /\
    (forall k, (k < n)%nat -> exists late, selectWake w (i + k) = timerFired late).
Proof.
  intros Hg Ho. unfold polled.
  induction 1 as [i el t Hd | i el t err0 t1 Hlt Hget | i el t r0 t1 o Hlt Hget Hon
                 | i el t r0 t1 e0 Hlt Hget Hon Hsel
                 | n i el t r0 t1 late o t2 Hlt Hget Hon Hsel Hrun IH];
    intros e te He Hte.
  - inversion He; subst. split; [reflexivity|]. split; intros k Hk; lia.
  - inversion He; subst. rewrite (Hg _ _ _ Hget) in Hte. discriminate.
  - subst. rewrite (Ho _ _ Hon) in Hte. discriminate.
  - inversion He; subst. destruct e0; discriminate Hte.
  - destruct (IH e te He Hte) as [-> [Hall Hwake]].
    split; [reflexivity|]. split.
    + intros [|k] Hk; simpl; rewrite Hget; simpl; [eauto|].
      apply Hall. lia.
    + intros [|k] Hk.
      * rewrite Nat.add_0_r. eauto.
      * replace (i + S k)%nat with (S i + k)%nat by lia. apply Hwake. lia.
Qed.


End Loop.

(** *** Errors of the transport are no timeout errors *)

Section Requests.
Context (w : World) (c : HTTPClient) {errorResponseDecoder : Decoder ErrorResponse}.

Lemma doRequest_not_timeout {B} (E : Encoder B) t method path (body : option B) e :
  fst (doRequest w c t method path body) = inl e -> AsTimeoutError e = None.
Proof.
  unfold doRequest.
  destruct body as [b|]; [destruct (Marshal b)|]; simpl;
    try (intros H; inversion H; reflexivity);
    (destruct (newRequestError w method (baseURL c ++ path));
     [intros H; inversion H; reflexivity|];
     destruct (roundTrip w (List.length (sent t))) as [e0|resp];
     [intros H; inversion H; reflexivity|];
     destruct (resp_Body resp) as [e0|respBody];
     [intros H; inversion H; reflexivity|];
     destruct (400 <=? resp_StatusCode resp); [|intros H; discriminate H];
     destruct (Unmarshal respBody) as [er [e0|]]; intros H; inversion H; reflexivity).
Qed.

Lemma finish_not_timeout {T} (D : Decoder T) (r : (error + string) * Trace) e :
  (forall e0, fst r = inl e0 -> AsTimeoutError e0 = None) ->
  fst (finish (T := T) r) = inl e -> AsTimeoutError e = None.
Proof.
  destruct r as [[e0|b] t]; simpl; intros Hr H.
  - inversion H; subst. now apply Hr.
  - unfold decodeResult in H.
    destruct (0 <? String.length b)%nat; [|discriminate H].
    destruct (Unmarshal b) as [v [je|]]; inversion H. reflexivity.
Qed.

Lemma Get_not_timeout {T} (D : Decoder T) t path e :
  fst (client.Get (T := T) w c t path) = inl e -> AsTimeoutError e = None.
Proof.
  unfold client.Get. apply finish_not_timeout.
  intros e0. apply doRequest_not_timeout.
Qed.

Lemma Post_not_timeout {B T} (E : Encoder B) (D : Decoder T) t path (body : B) e :
  fst (Post (T := T) w c t path body) = inl e -> AsTimeoutError e = None.
Proof.
  unfold Post. apply finish_not_timeout.
  intros e0. apply doRequest_not_timeout.
Qed.

(** What a POST leaves on the wire. *)
Lemma Post_sent {B T} (E : Encoder B) (D : Decoder T) t path (body : B) :
  sent (snd (Post (T := T) w c t path body)) = sent t \/
  exists payload,
    sent (snd (Post (T := T) w c t path body))
    = List.app (sent t)
               [mkRequest "POST" (baseURL c ++ path)
                          [("Authorization", "Bearer " ++ apiKey c);
                           ("Content-Type", "application/json")]
                          (Some payload)].
Proof.
  unfold Post, finish, doRequest.
  destruct (Marshal body) as [me|bytes]; [now left|].
  destruct (newRequestError w MethodPost (baseURL c ++ path)); [now left|].
  right. exists bytes.
  destruct (roundTrip w (List.length (sent t))) as [e|resp]; [reflexivity|].
  destruct (resp_Body resp) as [e|respBody]; [reflexivity|].
  cbv zeta.
  destruct (400 <=? resp_StatusCode resp); [|reflexivity].
  destruct (Unmarshal respBody) as [er [e|]]; reflexivity.
Qed.


End Requests.

(** *** The common shape: a failed start, or a run of the loop *)

Section Helper.
Context (w : World) {Resp R : Type}.
Variable start : Trace -> (error + Resp) * Trace.
Variable getStatusOf : Resp -> Trace -> (error + R) * Trace.
Variable onStatus : R -> option (error + R).
Variable timeoutMessage : string.
Variables (startOp getOp : Op) (idOf : Resp -> string).

Hypothesis startOp_is_start : isGetStatus startOp = false.
Hypothesis getOp_is_get : isGetStatus getOp = true.
Hypothesis start_logs :
  forall t r t1, start t = (r, t1) ->
                 calls t1 = (calls t ++ [mkCall startOp "" (errOf r)])%list.
Hypothesis getStatus_logs :
  forall resp t r t', getStatusOf resp t = (r, t') ->
                      calls t' = (calls t ++ [mkCall getOp (idOf resp) (errOf r)])%list.

Lemma andWait_cases params res t' :
  andWait w start getStatusOf onStatus timeoutMessage params emptyTrace = Some (res, t') ->
  (exists err, start emptyTrace = (inl err, t') /\ res = inl err) \/
  (exists resp t1,
      start emptyTrace = (inr resp, t1) /\
      Run w (getStatusOf resp) onStatus (fst params) (snd params) timeoutMessage
          (npolls t') 0 (Z.of_N (firstCheck w)) t1 res t').
Proof.
  intros H. destruct (start emptyTrace) as [[err|resp] t1] eqn:Hs.
  - left. destruct params as [p to]. unfold andWait in H. rewrite Hs in H.
    inversion H; subst. eauto.
  - right. exists resp, t1. split; [reflexivity|].
    destruct (andWait_run w start getStatusOf onStatus timeoutMessage startOp getOp idOf
                          startOp_is_start getOp_is_get start_logs getStatus_logs
                          params res t' resp t1 H Hs) as [n [Hn <-]].
    exact Hn.
Qed.

End Helper.

(** *** The four helpers *)

Section Helpers.
Context (w : World) (c : HTTPClient).
Context {errorResponseDecoder : Decoder ErrorResponse}
        {extractRequestEncoder : Encoder extraction.CreateExtractionRequest.t}
        {extractResponseDecoder : Decoder extraction.CreateExtractionResponse.t}
        {extractionDecoder : Decoder extraction.ExtractionResult.t}
        {extractBatchEncoder : Encoder extraction.CreateBatchExtractionsRequest.t}
        {extractBatchResponseDecoder : Decoder extraction.CreateBatchResponse.t}
        {extractBatchJobDecoder : Decoder extraction.BatchExtractionJob.t}
        {captureRequestEncoder : Encoder screenshots.CreateScreenshotRequest.t}
        {captureResponseDecoder : Decoder screenshots.CreateScreenshotResponse.t}
        {screenshotDecoder : Decoder screenshots.Screenshot.t}
        {captureBatchEncoder : Encoder screenshots.CreateBatchScreenshotsRequest.t}
        {captureBatchResponseDecoder : Decoder screenshots.CreateBatchResponse.t}
        {captureBatchJobDecoder : Decoder screenshots.BatchScreenshotJob.t}.

Lemma extract_cases req opts res t' :
  extraction.ExtractAndWait w c emptyTrace req opts = Some (res, t') ->
  (exists err, extraction.Extract w c emptyTrace req = (inl err, t') /\ res = inl err) \/
  (exists resp t1,
      extraction.Extract w c emptyTrace req = (inr resp, t1) /\
      Run w (extraction.ExtractAndWait_status w c req resp) extraction.onExtraction
          (fst (resolve (1 * Second) (60 * Second) opts))
          (snd (resolve (1 * Second) (60 * Second) opts)) "Extraction timed out"
          (npolls t') 0 (Z.of_N (firstCheck w)) t1 res t').
Proof.
  intros H. rewrite extraction_facts.ExtractAndWait_shape in H.
  exact (andWait_cases w (fun t => extraction.Extract w c t req) (extraction.ExtractAndWait_status w c req) extraction.onExtraction
                        "Extraction timed out" OpExtract OpGet extraction.CreateExtractionResponse.ID eq_refl eq_refl
                        (fun t0 r0 t2 H0 => extraction_facts.Extract_logs w c req t0 r0 t2 H0)
                        (fun resp0 t0 r0 t2 H0 => extraction_facts.ExtractAndWait_status_logs w c req resp0 t0 r0 t2 H0)
                        _ _ _ H).
Qed.

Lemma capture_cases req opts res t' :
  screenshots.CaptureAndWait w c emptyTrace req opts = Some (res, t') ->
  (exists err, screenshots.Capture w c emptyTrace req = (inl err, t') /\ res = inl err) \/
  (exists resp t1,
      screenshots.Capture w c emptyTrace req = (inr resp, t1) /\
      Run w (screenshots.CaptureAndWait_status w c req resp) screenshots.onScreenshot
          (fst (resolve (1 * Second) (60 * Second) opts))
          (snd (resolve (1 * Second) (60 * Second) opts)) "Screenshot timed out"
          (npolls t') 0 (Z.of_N (firstCheck w)) t1 res t').
Proof.
  intros H. rewrite screenshots_facts.CaptureAndWait_shape in H.
  exact (andWait_cases w (fun t => screenshots.Capture w c t req) (screenshots.CaptureAndWait_status w c req) screenshots.onScreenshot
                        "Screenshot timed out" OpCapture OpGet screenshots.CreateScreenshotResponse.ID eq_refl eq_refl
                        (fun t0 r0 t2 H0 => screenshots_facts.Capture_logs w c req t0 r0 t2 H0)
                        (fun resp0 t0 r0 t2 H0 => screenshots_facts.CaptureAndWait_status_logs w c req resp0 t0 r0 t2 H0)
                        _ _ _ H).
Qed.

Lemma extraction_batch_cases req opts res t' :
  extraction.BatchAndWait w c emptyTrace req opts = Some (res, t') ->
  (exists err, extraction.Batch w c emptyTrace req = (inl err, t') /\ res = inl err) \/
  (exists resp t1,
      extraction.Batch w c emptyTrace req = (inr resp, t1) /\
      Run w (extraction.BatchAndWait_status w c req resp) extraction.onBatchJob
          (fst (resolve (2 * Second) (300 * Second) opts))
          (snd (resolve (2 * Second) (300 * Second) opts)) "Batch job timed out"
          (npolls t') 0 (Z.of_N (firstCheck w)) t1 res t').
Proof.
  intros H. rewrite extraction_facts.extraction_BatchAndWait_shape in H.
  exact (andWait_cases w (fun t => extraction.Batch w c t req) (extraction.BatchAndWait_status w c req) extraction.onBatchJob
                        "Batch job timed out" OpBatch OpGetBatchJob extraction.CreateBatchResponse.ID eq_refl eq_refl
                        (fun t0 r0 t2 H0 => extraction_facts.extraction_Batch_logs w c req t0 r0 t2 H0)
                        (fun resp0 t0 r0 t2 H0 => extraction_facts.extraction_BatchAndWait_status_logs w c req resp0 t0 r0 t2 H0)
                        _ _ _ H).
Qed.

Lemma screenshots_batch_cases req opts res t' :
  screenshots.BatchAndWait w c emptyTrace req opts = Some (res, t') ->
  (exists err, screenshots.Batch w c emptyTrace req = (inl err, t') /\ res = inl err) \/
  (exists resp t1,
      screenshots.Batch w c emptyTrace req = (inr resp, t1) /\
      Run w (screenshots.BatchAndWait_status w c req resp) screenshots.onBatchJob
          (fst (resolve (2 * Second) (300 * Second) opts))
          (snd (resolve (2 * Second) (300 * Second) opts)) "Batch job timed out"
          (npolls t') 0 (Z.of_N (firstCheck w)) t1 res t').
Proof.
  intros H. rewrite screenshots_facts.screenshots_BatchAndWait_shape in H.
  exact (andWait_cases w (fun t => screenshots.Batch w c t req) (screenshots.BatchAndWait_status w c req) screenshots.onBatchJob
                        "Batch job timed out" OpBatch OpGetBatchJob screenshots.CreateBatchResponse.ID eq_refl eq_refl
                        (fun t0 r0 t2 H0 => screenshots_facts.screenshots_Batch_logs w c req t0 r0 t2 H0)
                        (fun resp0 t0 r0 t2 H0 => screenshots_facts.screenshots_BatchAndWait_status_logs w c req resp0 t0 r0 t2 H0)
                        _ _ _ H).
Qed.

(** *** The terminal-status blocks, read backwards *)

Lemma onExtraction_record r x :
  extraction.onExtraction r = Some (inr x) ->
  x = r /\ extraction.ExtractionResult.Status r = extraction.ExtractionStatusCompleted.
Proof.
  unfold extraction.onExtraction.
  destruct (String.eqb (extraction.ExtractionResult.Status r)
                       extraction.ExtractionStatusCompleted) eqn:Ec;
    destruct (String.eqb (extraction.ExtractionResult.Status r)
                         extraction.ExtractionStatusFailed) eqn:Ef;
    simpl; intros H; inversion H; subst.
  split; [reflexivity|]. now apply String.eqb_eq.
Qed.

Lemma onExtraction_error r e :
  extraction.onExtraction r = Some (inl e) -> AsTimeoutError e = None.
Proof.
  unfold extraction.onExtraction.
  destruct (String.eqb (extraction.ExtractionResult.Status r)
                       extraction.ExtractionStatusCompleted);
    destruct (String.eqb (extraction.ExtractionResult.Status r)
                         extraction.ExtractionStatusFailed);
    simpl; intros H; inversion H; reflexivity.
Qed.

Lemma onExtraction_none r :
  extraction.onExtraction r = None ->
  extraction.isTerminal (extraction.ExtractionResult.Status r) = false.
Proof.
  unfold extraction.onExtraction, extraction.isTerminal.
  destruct (String.eqb (extraction.ExtractionResult.Status r)
                       extraction.ExtractionStatusCompleted);
    destruct (String.eqb (extraction.ExtractionResult.Status r)
                         extraction.ExtractionStatusFailed);
    simpl; intros H; try discriminate H; reflexivity.
Qed.

Lemma onScreenshot_record r x :
  screenshots.onScreenshot r = Some (inr x) ->
  x = r /\ screenshots.Screenshot.Status r = screenshots.ScreenshotStatusCompleted.
Proof.
  unfold screenshots.onScreenshot.
  destruct (String.eqb (screenshots.Screenshot.Status r)
                       screenshots.ScreenshotStatusCompleted) eqn:Ec;
    destruct (String.eqb (screenshots.Screenshot.Status r)
                         screenshots.ScreenshotStatusFailed) eqn:Ef;
    simpl; intros H; inversion H; subst.
  split; [reflexivity|]. now apply String.eqb_eq.
Qed.

Lemma onScreenshot_error r e :
  screenshots.onScreenshot r = Some (inl e) -> AsTimeoutError e = None.
Proof.
  unfold screenshots.onScreenshot.
  destruct (String.eqb (screenshots.Screenshot.Status r)
                       screenshots.ScreenshotStatusCompleted);
    destruct (String.eqb (screenshots.Screenshot.Status r)
                         screenshots.ScreenshotStatusFailed);
    simpl; intros H; inversion H; reflexivity.
Qed.

Lemma onScreenshot_none r :
  screenshots.onScreenshot r = None ->
  screenshots.isTerminal (screenshots.Screenshot.Status r) = false.
Proof.
  unfold screenshots.onScreenshot, screenshots.isTerminal.
  destruct (String.eqb (screenshots.Screenshot.Status r)
                       screenshots.ScreenshotStatusCompleted);
    destruct (String.eqb (screenshots.Screenshot.Status r)
                         screenshots.ScreenshotStatusFailed);
    simpl; intros H; try discriminate H; reflexivity.
Qed.

Lemma extraction_onBatchJob_some r out :
  extraction.onBatchJob r = Some out ->
  out = inr r /\ isBatchTerminal (extraction.BatchExtractionJob.Status r) = true.
Proof.
  unfold extraction.onBatchJob.
  destruct (isBatchTerminal (extraction.BatchExtractionJob.Status r));
    intros H; inversion H; auto.
Qed.

Lemma extraction_onBatchJob_none r :
  extraction.onBatchJob r = None ->
  isBatchTerminal (extraction.BatchExtractionJob.Status r) = false.
Proof.
  unfold extraction.onBatchJob.
  destruct (isBatchTerminal (extraction.BatchExtractionJob.Status r));
    intros H; [discriminate H|reflexivity].
Qed.

Lemma screenshots_onBatchJob_some r out :
  screenshots.onBatchJob r = Some out ->
  out = inr r /\ isBatchTerminal (screenshots.BatchScreenshotJob.Status r) = true.
Proof.
  unfold screenshots.onBatchJob.
  destruct (isBatchTerminal (screenshots.BatchScreenshotJob.Status r));
    intros H; inversion H; auto.
Qed.

Lemma screenshots_onBatchJob_none r :
  screenshots.onBatchJob r = None ->
  isBatchTerminal (screenshots.BatchScreenshotJob.Status r) = false.
Proof.
  unfold screenshots.onBatchJob.
  destruct (isBatchTerminal (screenshots.BatchScreenshotJob.Status r));
    intros H; [discriminate H|reflexivity].
Qed.

(** X5.  An and-wait helper that returns a record and no error returns
    the record of its last status call, and that record is terminal: its
    status is completed for [ExtractAndWait] and [CaptureAndWait], and
    completed, failed or cancelled for the two [BatchAndWait].  No helper
    hands back a pending or processing record as a result. *)
Theorem returned_record_is_terminal :
  (forall req opts rec t',
      extraction.ExtractAndWait w c emptyTrace req opts = Some (inr rec, t') ->
      extraction.ExtractionResult.Status rec = extraction.ExtractionStatusCompleted /\
      exists resp t1 k,
        extraction.Extract w c emptyTrace req = (inr resp, t1) /\
        npolls t' = S k /\
        polled (extraction.ExtractAndWait_status w c req resp) t1 k = inr rec) /\
  (forall req opts rec t',
      screenshots.CaptureAndWait w c emptyTrace req opts = Some (inr rec, t') ->
      screenshots.Screenshot.Status rec = screenshots.ScreenshotStatusCompleted /\
      exists resp t1 k,
        screenshots.Capture w c emptyTrace req = (inr resp, t1) /\
        npolls t' = S k /\
        polled (screenshots.CaptureAndWait_status w c req resp) t1 k = inr rec) /\
  (forall req opts job t',
      extraction.BatchAndWait w c emptyTrace req opts = Some (inr job, t') ->
      isBatchTerminal (extraction.BatchExtractionJob.Status job) = true /\
      exists resp t1 k,
        extraction.Batch w c emptyTrace req = (inr resp, t1) /\
        npolls t' = S k /\
        polled (extraction.BatchAndWait_status w c req resp) t1 k = inr job) /\
  (forall req opts job t',
      screenshots.BatchAndWait w c emptyTrace req opts = Some (inr job, t') ->
      isBatchTerminal (screenshots.BatchScreenshotJob.Status job) = true /\
      exists resp t1 k,
        screenshots.Batch w c emptyTrace req = (inr resp, t1) /\
        npolls t' = S k /\
        polled (screenshots.BatchAndWait_status w c req resp) t1 k = inr job).
Proof.
  split; [|split; [|split]]; intros req opts rec t' H.
  - destruct (extract_cases _ _ _ _ H) as [[err [_ He]]|[resp [t1 [Hs Hrun]]]];
      [discriminate He|].
    destruct (Run_returns_polled_record _ _ _ _ _ _ _ _ _ _ _ _ Hrun rec eq_refl)
      as [k [r0 [Hn [Hp Hon]]]].
    destruct (onExtraction_record _ _ Hon) as [-> Hst].
    split; [exact Hst|]. exists resp, t1, k. auto.
  - destruct (capture_cases _ _ _ _ H) as [[err [_ He]]|[resp [t1 [Hs Hrun]]]];
      [discriminate He|].
    destruct (Run_returns_polled_record _ _ _ _ _ _ _ _ _ _ _ _ Hrun rec eq_refl)
      as [k [r0 [Hn [Hp Hon]]]].
    destruct (onScreenshot_record _ _ Hon) as [-> Hst].
    split; [exact Hst|]. exists resp, t1, k. auto.
  - destruct (extraction_batch_cases _ _ _ _ H) as [[err [_ He]]|[resp [t1 [Hs Hrun]]]];
      [discriminate He|].
    destruct (Run_returns_polled_record _ _ _ _ _ _ _ _ _ _ _ _ Hrun rec eq_refl)
      as [k [r0 [Hn [Hp Hon]]]].
    destruct (extraction_onBatchJob_some _ _ Hon) as [Hr Hst].
    inversion Hr; subst r0.
    split; [exact Hst|]. exists resp, t1, k. auto.
  - destruct (screenshots_batch_cases _ _ _ _ H) as [[err [_ He]]|[resp [t1 [Hs Hrun]]]];
      [discriminate He|].
    destruct (Run_returns_polled_record _ _ _ _ _ _ _ _ _ _ _ _ Hrun rec eq_refl)
      as [k [r0 [Hn [Hp Hon]]]].
    destruct (screenshots_onBatchJob_some _ _ Hon) as [Hr Hst].
    inversion Hr; subst r0.
    split; [exact Hst|]. exists resp, t1, k. auto.
Qed.

(** X6.  When the context is done during the wait that follows a status
    call with a non-terminal record, the helper returns [ctx.Err()] at
    once: that status call is the last one of the run. *)
Theorem cancelled_wait_returns_context_error :
  (forall req opts res t' resp t1 k r e,
      extraction.ExtractAndWait w c emptyTrace req opts = Some (res, t') ->
      extraction.Extract w c emptyTrace req = (inr resp, t1) ->
      (k < npolls t')%nat ->
      polled (extraction.ExtractAndWait_status w c req resp) t1 k = inr r ->
      extraction.isTerminal (extraction.ExtractionResult.Status r) = false ->
      selectWake w k = ctxDone e ->
      res = inl (ctx_Err e) /\ npolls t' = S k) /\
  (forall req opts res t' resp t1 k r e,
      screenshots.CaptureAndWait w c emptyTrace req opts = Some (res, t') ->
      screenshots.Capture w c emptyTrace req = (inr resp, t1) ->
      (k < npolls t')%nat ->
      polled (screenshots.CaptureAndWait_status w c req resp) t1 k = inr r ->
      screenshots.isTerminal (screenshots.Screenshot.Status r) = false ->
      selectWake w k = ctxDone e ->
      res = inl (ctx_Err e) /\ npolls t' = S k) /\
  (forall req opts res t' resp t1 k r e,
      extraction.BatchAndWait w c emptyTrace req opts = Some (res, t') ->
      extraction.Batch w c emptyTrace req = (inr resp, t1) ->
      (k < npolls t')%nat ->
      polled (extraction.BatchAndWait_status w c req resp) t1 k = inr r ->
      isBatchTerminal (extraction.BatchExtractionJob.Status r) = false ->
      selectWake w k = ctxDone e ->
      res = inl (ctx_Err e) /\ npolls t' = S k) /\
  (forall req opts res t' resp t1 k r e,
      screenshots.BatchAndWait w c emptyTrace req opts = Some (res, t') ->
      screenshots.Batch w c emptyTrace req = (inr resp, t1) ->
      (k < npolls t')%nat ->
      polled (screenshots.BatchAndWait_status w c req resp) t1 k = inr r ->
      isBatchTerminal (screenshots.BatchScreenshotJob.Status r) = false ->
      selectWake w k = ctxDone e ->
      res = inl (ctx_Err e) /\ npolls t' = S k).
Proof.
  split; [|split; [|split]]; intros req opts res t' resp t1 k r e H Hs Hk Hp Hn Hw.
  - destruct (extract_cases _ _ _ _ H) as [[err [Hs' _]]|[resp' [t1' [Hs' Hrun]]]];
      rewrite Hs in Hs'; inversion Hs'; subst.
    destruct (Run_cancel _ _ _ _ _ _ _ _ _ _ _ _ Hrun k r e Hk Hp
                         (AndWait.onExtraction_pending _ Hn) Hw) as [-> <-].
    auto.
  - destruct (capture_cases _ _ _ _ H) as [[err [Hs' _]]|[resp' [t1' [Hs' Hrun]]]];
      rewrite Hs in Hs'; inversion Hs'; subst.
    destruct (Run_cancel _ _ _ _ _ _ _ _ _ _ _ _ Hrun k r e Hk Hp
                         (AndWait.onScreenshot_pending _ Hn) Hw) as [-> <-].
    auto.
  - destruct (extraction_batch_cases _ _ _ _ H) as [[err [Hs' _]]|[resp' [t1' [Hs' Hrun]]]];
      rewrite Hs in Hs'; inversion Hs'; subst.
    destruct (Run_cancel _ _ _ _ _ _ _ _ _ _ _ _ Hrun k r e Hk Hp
                         (AndWait.onBatchJob_pending_extraction _ Hn) Hw) as [-> <-].
    auto.
  - destruct (screenshots_batch_cases _ _ _ _ H) as [[err [Hs' _]]|[resp' [t1' [Hs' Hrun]]]];
      rewrite Hs in Hs'; inversion Hs'; subst.
    destruct (Run_cancel _ _ _ _ _ _ _ _ _ _ _ _ Hrun k r e Hk Hp
                         (AndWait.onBatchJob_pending_screenshots _ Hn) Hw) as [-> <-].
    auto.
Qed.

Lemma extraction_onBatchJob_error r e :
  extraction.onBatchJob r = Some (inl e) -> AsTimeoutError e = None.
Proof. intros H. destruct (extraction_onBatchJob_some _ _ H) as [Hr _]. discriminate Hr. Qed.

Lemma screenshots_onBatchJob_error r e :
  screenshots.onBatchJob r = Some (inl e) -> AsTimeoutError e = None.
Proof. intros H. destruct (screenshots_onBatchJob_some _ _ H) as [Hr _]. discriminate Hr. Qed.

(** *** What the start and status calls send, and the errors they return *)


Lemma extract_status_not_timeout req resp t0 e t1 :
  extraction.ExtractAndWait_status w c req resp t0 = (inl e, t1) -> AsTimeoutError e = None.
Proof.
  unfold extraction.ExtractAndWait_status, extraction.Get. intros H.
  match type of H with
  | (let (_, _) := client.Get w c t0 ?path in _) = _ =>
      pose proof (Get_not_timeout w c (T := extraction.ExtractionResult.t) _ t0 path e) as Hc;
      destruct (client.Get w c t0 path) as [r0 t2]
  end.
  inversion H; subst. now apply Hc.
Qed.


Lemma extract_start_not_timeout req e t1 :
  extraction.Extract w c emptyTrace req = (inl e, t1) -> AsTimeoutError e = None.
Proof.
  unfold extraction.Extract. intros H.
  pose proof (Post_not_timeout w c (T := extraction.CreateExtractionResponse.t) _ _ emptyTrace "/webdata/extractions" req e) as Hc.
  destruct (Post w c emptyTrace "/webdata/extractions" req) as [r0 t2].
  inversion H; subst. now apply Hc.
Qed.


Lemma capture_status_not_timeout req resp t0 e t1 :
  screenshots.CaptureAndWait_status w c req resp t0 = (inl e, t1) -> AsTimeoutError e = None.
Proof.
  unfold screenshots.CaptureAndWait_status, screenshots.Get. intros H.
  match type of H with
  | (let (_, _) := client.Get w c t0 ?path in _) = _ =>
      pose proof (Get_not_timeout w c (T := screenshots.Screenshot.t) _ t0 path e) as Hc;
      destruct (client.Get w c t0 path) as [r0 t2]
  end.
  inversion H; subst. now apply Hc.
Qed.


Lemma capture_start_not_timeout req e t1 :
  screenshots.Capture w c emptyTrace req = (inl e, t1) -> AsTimeoutError e = None.
Proof.
  unfold screenshots.Capture. intros H.
  pose proof (Post_not_timeout w c (T := screenshots.CreateScreenshotResponse.t) _ _ emptyTrace "/webdata/screenshots" req e) as Hc.
  destruct (Post w c emptyTrace "/webdata/screenshots" req) as [r0 t2].
  inversion H; subst. now apply Hc.
Qed.


Lemma extraction_batch_status_not_timeout req resp t0 e t1 :
  extraction.BatchAndWait_status w c req resp t0 = (inl e, t1) -> AsTimeoutError e = None.
Proof.
  unfold extraction.BatchAndWait_status, extraction.GetBatchJob. intros H.
  match type of H with
  | (let (_, _) := client.Get w c t0 ?path in _) = _ =>
      pose proof (Get_not_timeout w c (T := extraction.BatchExtractionJob.t) _ t0 path e) as Hc;
      destruct (client.Get w c t0 path) as [r0 t2]
  end.
  inversion H; subst. now apply Hc.
Qed.


Lemma extraction_batch_start_not_timeout req e t1 :
  extraction.Batch w c emptyTrace req = (inl e, t1) -> AsTimeoutError e = None.
Proof.
  unfold extraction.Batch. intros H.
  pose proof (Post_not_timeout w c (T := extraction.CreateBatchResponse.t) _ _ emptyTrace "/webdata/batch/extractions" req e) as Hc.
  destruct (Post w c emptyTrace "/webdata/batch/extractions" req) as [r0 t2].
  inversion H; subst. now apply Hc.
Qed.


Lemma screenshots_batch_status_not_timeout req resp t0 e t1 :
  screenshots.BatchAndWait_status w c req resp t0 = (inl e, t1) -> AsTimeoutError e = None.
Proof.
  unfold screenshots.BatchAndWait_status, screenshots.GetBatchJob. intros H.
  match type of H with
  | (let (_, _) := client.Get w c t0 ?path in _) = _ =>
      pose proof (Get_not_timeout w c (T := screenshots.BatchScreenshotJob.t) _ t0 path e) as Hc;
      destruct (client.Get w c t0 path) as [r0 t2]
  end.
  inversion H; subst. now apply Hc.
Qed.


Lemma screenshots_batch_start_not_timeout req e t1 :
  screenshots.Batch w c emptyTrace req = (inl e, t1) -> AsTimeoutError e = None.
Proof.
  unfold screenshots.Batch. intros H.
  pose proof (Post_not_timeout w c (T := screenshots.CreateBatchResponse.t) _ _ emptyTrace "/webdata/batch/screenshots" req e) as Hc.
  destruct (Post w c emptyTrace "/webdata/batch/screenshots" req) as [r0 t2].
  inversion H; subst. now apply Hc.
Qed.

(** X7.  The status calls of a run fit before the deadline: a helper
    makes at most as many of them as poll intervals are needed to cover
    the timeout, rounded up.  With the default options that is at most 60
    for [ExtractAndWait] and [CaptureAndWait] and at most 150 for
    [BatchAndWait]. *)
Theorem status_calls_fit_before_deadline :
  (forall req opts res t',
      extraction.ExtractAndWait w c emptyTrace req opts = Some (res, t') ->
      Z.of_nat (npolls t')
      <= (snd (resolve (1 * Second) (60 * Second) opts)
          + fst (resolve (1 * Second) (60 * Second) opts) - 1)
         / fst (resolve (1 * Second) (60 * Second) opts) /\
      (opts = None -> (npolls t' <= 60)%nat)) /\
  (forall req opts res t',
      screenshots.CaptureAndWait w c emptyTrace req opts = Some (res, t') ->
      Z.of_nat (npolls t')
      <= (snd (resolve (1 * Second) (60 * Second) opts)
          + fst (resolve (1 * Second) (60 * Second) opts) - 1)
         / fst (resolve (1 * Second) (60 * Second) opts) /\
      (opts = None -> (npolls t' <= 60)%nat)) /\
  (forall req opts res t',
      extraction.BatchAndWait w c emptyTrace req opts = Some (res, t') ->
      Z.of_nat (npolls t')
      <= (snd (resolve (2 * Second) (300 * Second) opts)
          + fst (resolve (2 * Second) (300 * Second) opts) - 1)
         / fst (resolve (2 * Second) (300 * Second) opts) /\
      (opts = None -> (npolls t' <= 150)%nat)) /\
  (forall req opts res t',
      screenshots.BatchAndWait w c emptyTrace req opts = Some (res, t') ->
      Z.of_nat (npolls t')
      <= (snd (resolve (2 * Second) (300 * Second) opts)
          + fst (resolve (2 * Second) (300 * Second) opts) - 1)
         / fst (resolve (2 * Second) (300 * Second) opts) /\
      (opts = None -> (npolls t' <= 150)%nat)).
Proof.
  assert (G : forall d1 d2 opts (n : nat) (bound : Z),
             0 < d1 -> 0 < d2 ->
             Z.of_nat n <= (snd (resolve d1 d2 opts) + fst (resolve d1 d2 opts) - 1)
                           / fst (resolve d1 d2 opts) ->
             (d2 + d1 - 1) / d1 = bound ->
             opts = None -> Z.of_nat n <= bound).
  { intros d1 d2 opts n bound H1 H2 Hn Hb ->. simpl in Hn. now rewrite Hb in Hn. }
  split; [|split; [|split]]; intros req opts res t' H.
  - assert (Hb : Z.of_nat (npolls t')
                 <= (snd (resolve (1 * Second) (60 * Second) opts)
                     + fst (resolve (1 * Second) (60 * Second) opts) - 1)
                    / fst (resolve (1 * Second) (60 * Second) opts)).
    { destruct (resolve_positive (1 * Second) (60 * Second) opts) as [Hp Hto];
        [unfold Second; lia|unfold Second; lia|].
      destruct (extract_cases _ _ _ _ H) as [[err [Hs He]]|[resp [t1 [Hs Hrun]]]].
      - pose proof (extraction_facts.Extract_logs w c req _ _ _ Hs) as Hc.
        assert (Hz : npolls t' = 0%nat)
          by (unfold npolls, getCalls; rewrite Hc; reflexivity).
        rewrite Hz. apply Z.div_pos; lia.
      - eapply Run_count_bound; [exact Hp|exact Hto| |exact Hrun].
        apply N2Z.is_nonneg. }
    split; [exact Hb|]. intros Ho.
    assert (Z.of_nat (npolls t') <= 60); [|lia].
    eapply G; [| |exact Hb| |exact Ho]; [unfold Second; lia|unfold Second; lia|].
    vm_compute. reflexivity.
  - assert (Hb : Z.of_nat (npolls t')
                 <= (snd (resolve (1 * Second) (60 * Second) opts)
                     + fst (resolve (1 * Second) (60 * Second) opts) - 1)
                    / fst (resolve (1 * Second) (60 * Second) opts)).
    { destruct (resolve_positive (1 * Second) (60 * Second) opts) as [Hp Hto];
        [unfold Second; lia|unfold Second; lia|].
      destruct (capture_cases _ _ _ _ H) as [[err [Hs He]]|[resp [t1 [Hs Hrun]]]].
      - pose proof (screenshots_facts.Capture_logs w c req _ _ _ Hs) as Hc.
        assert (Hz : npolls t' = 0%nat)
          by (unfold npolls, getCalls; rewrite Hc; reflexivity).
        rewrite Hz. apply Z.div_pos; lia.
      - eapply Run_count_bound; [exact Hp|exact Hto| |exact Hrun].
        apply N2Z.is_nonneg. }
    split; [exact Hb|]. intros Ho.
    assert (Z.of_nat (npolls t') <= 60); [|lia].
    eapply G; [| |exact Hb| |exact Ho]; [unfold Second; lia|unfold Second; lia|].
    vm_compute. reflexivity.
  - assert (Hb : Z.of_nat (npolls t')
                 <= (snd (resolve (2 * Second) (300 * Second) opts)
                     + fst (resolve (2 * Second) (300 * Second) opts) - 1)
                    / fst (resolve (2 * Second) (300 * Second) opts)).
    { destruct (resolve_positive (2 * Second) (300 * Second) opts) as [Hp Hto];
        [unfold Second; lia|unfold Second; lia|].
      destruct (extraction_batch_cases _ _ _ _ H) as [[err [Hs He]]|[resp [t1 [Hs Hrun]]]].
      - pose proof (extraction_facts.extraction_Batch_logs w c req _ _ _ Hs) as Hc.
        assert (Hz : npolls t' = 0%nat)
          by (unfold npolls, getCalls; rewrite Hc; reflexivity).
        rewrite Hz. apply Z.div_pos; lia.
      - eapply Run_count_bound; [exact Hp|exact Hto| |exact Hrun].
        apply N2Z.is_nonneg. }
    split; [exact Hb|]. intros Ho.
    assert (Z.of_nat (npolls t') <= 150); [|lia].
    eapply G; [| |exact Hb| |exact Ho]; [unfold Second; lia|unfold Second; lia|].
    vm_compute. reflexivity.
  - assert (Hb : Z.of_nat (npolls t')
                 <= (snd (resolve (2 * Second) (300 * Second) opts)
                     + fst (resolve (2 * Second) (300 * Second) opts) - 1)
                    / fst (resolve (2 * Second) (300 * Second) opts)).
    { destruct (resolve_positive (2 * Second) (300 * Second) opts) as [Hp Hto];
        [unfold Second; lia|unfold Second; lia|].
      destruct (screenshots_batch_cases _ _ _ _ H) as [[err [Hs He]]|[resp [t1 [Hs Hrun]]]].
      - pose proof (screenshots_facts.screenshots_Batch_logs w c req _ _ _ Hs) as Hc.
        assert (Hz : npolls t' = 0%nat)
          by (unfold npolls, getCalls; rewrite Hc; reflexivity).
        rewrite Hz. apply Z.div_pos; lia.
      - eapply Run_count_bound; [exact Hp|exact Hto| |exact Hrun].
        apply N2Z.is_nonneg. }
    split; [exact Hb|]. intros Ho.
    assert (Z.of_nat (npolls t') <= 150); [|lia].
    eapply G; [| |exact Hb| |exact Ho]; [unfold Second; lia|unfold Second; lia|].
    vm_compute. reflexivity.
Qed.


(** X9.  A [*TimeoutError] comes from the deadline and from nowhere
    else: when [errors.As] finds one in the error of a helper, the error
    is the helper's own timeout error, the start had succeeded, every
    status call made had returned a non-terminal record and every wait
    had ended with the timer.  No failure of the start or of a status
    call, no failed job and no cancelled context is reported as a
    timeout. *)
Theorem timeout_error_only_at_deadline :
  (forall req opts e te t',
      extraction.ExtractAndWait w c emptyTrace req opts = Some (inl e, t') ->
      AsTimeoutError e = Some te ->
      e = ptrTimeoutError (NewTimeoutError "Extraction timed out") /\
      exists resp t1,
        extraction.Extract w c emptyTrace req = (inr resp, t1) /\
        (forall k, (k < npolls t')%nat ->
                   exists r, polled (extraction.ExtractAndWait_status w c req resp) t1 k = inr r /\
                             extraction.isTerminal (extraction.ExtractionResult.Status r) = false) /\
        (forall k, (k < npolls t')%nat -> exists late, selectWake w k = timerFired late)) /\
  (forall req opts e te t',
      screenshots.CaptureAndWait w c emptyTrace req opts = Some (inl e, t') ->
      AsTimeoutError e = Some te ->
      e = ptrTimeoutError (NewTimeoutError "Screenshot timed out") /\
      exists resp t1,
        screenshots.Capture w c emptyTrace req = (inr resp, t1) /\
        (forall k, (k < npolls t')%nat ->
                   exists r, polled (screenshots.CaptureAndWait_status w c req resp) t1 k = inr r /\
                             screenshots.isTerminal (screenshots.Screenshot.Status r) = false) /\
        (forall k, (k < npolls t')%nat -> exists late, selectWake w k = timerFired late)) /\
  (forall req opts e te t',
      extraction.BatchAndWait w c emptyTrace req opts = Some (inl e, t') ->
      AsTimeoutError e = Some te ->
      e = ptrTimeoutError (NewTimeoutError "Batch job timed out") /\
      exists resp t1,
        extraction.Batch w c emptyTrace req = (inr resp, t1) /\
        (forall k, (k < npolls t')%nat ->
                   exists r, polled (extraction.BatchAndWait_status w c req resp) t1 k = inr r /\
                             isBatchTerminal (extraction.BatchExtractionJob.Status r) = false) /\
        (forall k, (k < npolls t')%nat -> exists late, selectWake w k = timerFired late)) /\
  (forall req opts e te t',
      screenshots.BatchAndWait w c emptyTrace req opts = Some (inl e, t') ->
      AsTimeoutError e = Some te ->
      e = ptrTimeoutError (NewTimeoutError "Batch job timed out") /\
      exists resp t1,
        screenshots.Batch w c emptyTrace req = (inr resp, t1) /\
        (forall k, (k < npolls t')%nat ->
                   exists r, polled (screenshots.BatchAndWait_status w c req resp) t1 k = inr r /\
                             isBatchTerminal (screenshots.BatchScreenshotJob.Status r) = false) /\
        (forall k, (k < npolls t')%nat -> exists late, selectWake w k = timerFired late)).
Proof.
  split; [|split; [|split]]; intros req opts e te t' H Hte.
  - destruct (extract_cases _ _ _ _ H) as [[err [Hs He]]|[resp [t1 [Hs Hrun]]]].
    + inversion He; subst. rewrite (extract_start_not_timeout _ _ _ Hs) in Hte. discriminate.
    + destruct (Run_timeout_origin w _ _ _ _ _ _ _ _ _ _ _
                  (fun t0 e0 t2 H0 => extract_status_not_timeout req resp t0 e0 t2 H0)
                  onExtraction_error Hrun e te eq_refl Hte) as [-> [Hall Hwake]].
      split; [reflexivity|]. exists resp, t1. split; [exact Hs|]. split.
      * intros k Hk. destruct (Hall k Hk) as [r [Hp Hn]].
        exists r. split; [exact Hp|]. exact (onExtraction_none _ Hn).
      * intros k Hk. exact (Hwake k Hk).
  - destruct (capture_cases _ _ _ _ H) as [[err [Hs He]]|[resp [t1 [Hs Hrun]]]].
    + inversion He; subst. rewrite (capture_start_not_timeout _ _ _ Hs) in Hte. discriminate.
    + destruct (Run_timeout_origin w _ _ _ _ _ _ _ _ _ _ _
                  (fun t0 e0 t2 H0 => capture_status_not_timeout req resp t0 e0 t2 H0)
                  onScreenshot_error Hrun e te eq_refl Hte) as [-> [Hall Hwake]].
      split; [reflexivity|]. exists resp, t1. split; [exact Hs|]. split.
      * intros k Hk. destruct (Hall k Hk) as [r [Hp Hn]].
        exists r. split; [exact Hp|]. exact (onScreenshot_none _ Hn).
      * intros k Hk. exact (Hwake k Hk).
  - destruct (extraction_batch_cases _ _ _ _ H) as [[err [Hs He]]|[resp [t1 [Hs Hrun]]]].
    + inversion He; subst. rewrite (extraction_batch_start_not_timeout _ _ _ Hs) in Hte. discriminate.
    + destruct (Run_timeout_origin w _ _ _ _ _ _ _ _ _ _ _
                  (fun t0 e0 t2 H0 => extraction_batch_status_not_timeout req resp t0 e0 t2 H0)
                  extraction_onBatchJob_error Hrun e te eq_refl Hte) as [-> [Hall Hwake]].
      split; [reflexivity|]. exists resp, t1. split; [exact Hs|]. split.
      * intros k Hk. destruct (Hall k Hk) as [r [Hp Hn]].
        exists r. split; [exact Hp|]. exact (extraction_onBatchJob_none _ Hn).
      * intros k Hk. exact (Hwake k Hk).
  - destruct (screenshots_batch_cases _ _ _ _ H) as [[err [Hs He]]|[resp [t1 [Hs Hrun]]]].
    + inversion He; subst. rewrite (screenshots_batch_start_not_timeout _ _ _ Hs) in Hte. discriminate.
    + destruct (Run_timeout_origin w _ _ _ _ _ _ _ _ _ _ _
                  (fun t0 e0 t2 H0 => screenshots_batch_status_not_timeout req resp t0 e0 t2 H0)
                  screenshots_onBatchJob_error Hrun e te eq_refl Hte) as [-> [Hall Hwake]].
      split; [reflexivity|]. exists resp, t1. split; [exact Hs|]. split.
      * intros k Hk. destruct (Hall k Hk) as [r [Hp Hn]].
        exists r. split; [exact Hp|]. exact (screenshots_onBatchJob_none _ Hn).
      * intros k Hk. exact (Hwake k Hk).
Qed.

End Helpers.

End Polling.

(** ** Runs of the helpers in concrete worlds *)

Module PollingExamples.
Import types env client poll examples.

(** X5 at work: the job completes on the third status call; the record
    handed back has the status completed. *)
Lemma returned_record_is_terminal_witness :
  exists rec t',
    extraction.ExtractAndWait completingWorld apiClient
      (errorResponseDecoder := flatErrorResponseDecoder)
      (createRequestEncoder := extraction.flatCreateRequestEncoder)
      (createResponseDecoder := extraction.flatCreateResponseDecoder)
      (resultDecoder := extraction.flatResultDecoder)
      emptyTrace extractionRequest None = Some (inr rec, t') /\
    extraction.ExtractionResult.Status rec = "completed".
Proof.
  destruct (extraction.ExtractAndWait completingWorld apiClient
              (errorResponseDecoder := flatErrorResponseDecoder)
              (createRequestEncoder := extraction.flatCreateRequestEncoder)
              (createResponseDecoder := extraction.flatCreateResponseDecoder)
              (resultDecoder := extraction.flatResultDecoder)
              emptyTrace extractionRequest None) as [[[e|rec] t']|] eqn:Hrun;
    [exfalso; vm_compute in Hrun; discriminate Hrun
    | | exfalso; vm_compute in Hrun; discriminate Hrun].
  exists rec, t'. split; [reflexivity|].
  exact (proj1 (proj1 (@Polling.returned_record_is_terminal
                         completingWorld apiClient flatErrorResponseDecoder
                         extraction.flatCreateRequestEncoder
                         extraction.flatCreateResponseDecoder
                         extraction.flatResultDecoder
                         extraction.flatBatchRequestEncoder
                         extraction.flatBatchResponseDecoder
                         extraction.flatBatchJobDecoder
                         screenshots.flatCreateRequestEncoder
                         screenshots.flatCreateResponseDecoder
                         screenshots.flatResultDecoder
                         screenshots.flatBatchRequestEncoder
                         screenshots.flatBatchResponseDecoder
                         screenshots.flatBatchJobDecoder)
                      extractionRequest None rec t' Hrun)).
Defined.

(** X6 at work: the context is cancelled during the second wait; the
    helper returns the error of the context after two status calls. *)
Lemma cancelled_wait_returns_context_error_witness :
  exists t',
    extraction.ExtractAndWait cancellingWorld apiClient
      (errorResponseDecoder := flatErrorResponseDecoder)
      (createRequestEncoder := extraction.flatCreateRequestEncoder)
      (createResponseDecoder := extraction.flatCreateResponseDecoder)
      (resultDecoder := extraction.flatResultDecoder)
      emptyTrace extractionRequest None = Some (inl (ctx_Err Canceled), t') /\
    npolls t' = 2%nat.
Proof.
  destruct (extraction.ExtractAndWait cancellingWorld apiClient
              (errorResponseDecoder := flatErrorResponseDecoder)
              (createRequestEncoder := extraction.flatCreateRequestEncoder)
              (createResponseDecoder := extraction.flatCreateResponseDecoder)
              (resultDecoder := extraction.flatResultDecoder)
              emptyTrace extractionRequest None) as [[res t']|] eqn:Hrun;
    [|exfalso; vm_compute in Hrun; discriminate Hrun].
  pose proof Hrun as Hc. vm_compute in Hc. injection Hc as Hres Ht.
  edestruct (proj1 (@Polling.cancelled_wait_returns_context_error
                      cancellingWorld apiClient flatErrorResponseDecoder
                      extraction.flatCreateRequestEncoder
                      extraction.flatCreateResponseDecoder
                      extraction.flatResultDecoder
                      extraction.flatBatchRequestEncoder
                      extraction.flatBatchResponseDecoder
                      extraction.flatBatchJobDecoder
                      screenshots.flatCreateRequestEncoder
                      screenshots.flatCreateResponseDecoder
                      screenshots.flatResultDecoder
                      screenshots.flatBatchRequestEncoder
                      screenshots.flatBatchResponseDecoder
                      screenshots.flatBatchJobDecoder)
               extractionRequest None res t') with (k := 1%nat) (e := Canceled)
    as [Hr Hn].
  - exact Hrun.
  - vm_compute. reflexivity.
  - rewrite <- Ht. apply Nat.ltb_lt. vm_compute. reflexivity.
  - vm_compute. reflexivity.
  - vm_compute. reflexivity.
  - reflexivity.
  - exists t'. rewrite Hr. split; [reflexivity|exact Hn].
Defined.

(** X7 at work: with a timeout of 50ms and a poll interval of 10ms a job
    that never finishes is asked for at most five times. *)
Lemma status_calls_fit_before_deadline_witness :
  exists res t',
    extraction.ExtractAndWait stuckWorld apiClient
      (errorResponseDecoder := flatErrorResponseDecoder)
      (createRequestEncoder := extraction.flatCreateRequestEncoder)
      (createResponseDecoder := extraction.flatCreateResponseDecoder)
      (resultDecoder := extraction.flatResultDecoder)
      emptyTrace extractionRequest (Some shortWait) = Some (res, t') /\
    Z.of_nat (npolls t') <= 5.
Proof.
  destruct (extraction.ExtractAndWait stuckWorld apiClient
              (errorResponseDecoder := flatErrorResponseDecoder)
              (createRequestEncoder := extraction.flatCreateRequestEncoder)
              (createResponseDecoder := extraction.flatCreateResponseDecoder)
              (resultDecoder := extraction.flatResultDecoder)
              emptyTrace extractionRequest (Some shortWait)) as [[res t']|] eqn:Hrun;
    [|exfalso; vm_compute in Hrun; discriminate Hrun].
  exists res, t'. split; [reflexivity|].
  exact (proj1 (proj1 (@Polling.status_calls_fit_before_deadline
                         stuckWorld apiClient flatErrorResponseDecoder
                         extraction.flatCreateRequestEncoder
                         extraction.flatCreateResponseDecoder
                         extraction.flatResultDecoder
                         extraction.flatBatchRequestEncoder
                         extraction.flatBatchResponseDecoder
                         extraction.flatBatchJobDecoder
                         screenshots.flatCreateRequestEncoder
                         screenshots.flatCreateResponseDecoder
                         screenshots.flatResultDecoder
                         screenshots.flatBatchRequestEncoder
                         screenshots.flatBatchResponseDecoder
                         screenshots.flatBatchJobDecoder)
                      extractionRequest (Some shortWait) res t' Hrun)).
Defined.


(** X9 at work: the helper gives up on a job that never finishes; the
    timeout error it returns is its own. *)
Lemma timeout_error_only_at_deadline_witness :
  exists e t',
    extraction.ExtractAndWait stuckWorld apiClient
      (errorResponseDecoder := flatErrorResponseDecoder)
      (createRequestEncoder := extraction.flatCreateRequestEncoder)
      (createResponseDecoder := extraction.flatCreateResponseDecoder)
      (resultDecoder := extraction.flatResultDecoder)
      emptyTrace extractionRequest (Some shortWait) = Some (inl e, t') /\
    e = ptrTimeoutError (NewTimeoutError "Extraction timed out").
Proof.
  destruct (extraction.ExtractAndWait stuckWorld apiClient
              (errorResponseDecoder := flatErrorResponseDecoder)
              (createRequestEncoder := extraction.flatCreateRequestEncoder)
              (createResponseDecoder := extraction.flatCreateResponseDecoder)
              (resultDecoder := extraction.flatResultDecoder)
              emptyTrace extractionRequest (Some shortWait)) as [[[e|rec] t']|] eqn:Hrun;
    [ | exfalso; vm_compute in Hrun; discriminate Hrun
    | exfalso; vm_compute in Hrun; discriminate Hrun].
  exists e, t'. split; [reflexivity|].
  pose proof Hrun as Hc. vm_compute in Hc. injection Hc as He Ht.
  refine (proj1 (proj1 (@Polling.timeout_error_only_at_deadline
                          stuckWorld apiClient flatErrorResponseDecoder
                          extraction.flatCreateRequestEncoder
                          extraction.flatCreateResponseDecoder
                          extraction.flatResultDecoder
                          extraction.flatBatchRequestEncoder
                          extraction.flatBatchResponseDecoder
                          extraction.flatBatchJobDecoder
                          screenshots.flatCreateRequestEncoder
                          screenshots.flatCreateResponseDecoder
                          screenshots.flatResultDecoder
                          screenshots.flatBatchRequestEncoder
                          screenshots.flatBatchResponseDecoder
                          screenshots.flatBatchJobDecoder)
                       extractionRequest (Some shortWait) e
                       (NewTimeoutError "Extraction timed out") t' Hrun _)).
  rewrite <- He. reflexivity.
Defined.

End PollingExamples.

(** ** Package [cdn]: width snapping on inputs in range *)

Module Snapping.
Import cdn.

Lemma allowed_cases r :
  In r AllowedWidths ->
  r = 256 \/ r = 384 \/ r = 640 \/ r = 750 \/ r = 828 \/ r = 1080 \/ r = 1200 \/
  r = 1920 \/ r = 2048 \/ r = 3840.
Proof.
  unfold AllowedWidths. simpl. intros H.
  repeat (destruct H as [H|H]; [subst; tauto|]). contradiction.
Qed.

(** X10.  For every width that keeps the subtractions of the scan in
    the range of [int] (all widths above [math.MinInt + 3840]),
    [getNearestWidth] returns the allowed width at the least distance
    from it, and the smaller of the two when two allowed widths are
    equally near. *)
Theorem snaps_to_nearest_allowed_width (width : Z) :
  noOverflow width ->
  In (getNearestWidth width) AllowedWidths /\
  forall w, In w AllowedWidths ->
            Z.abs (getNearestWidth width - width) <= Z.abs (w - width) /\
            (Z.abs (w - width) = Z.abs (getNearestWidth width - width) ->
             getNearestWidth width <= w).
Proof. intros H. exact (Width.getNearestWidth_nearest width H). Qed.

Lemma snaps_to_nearest_allowed_width_witness :
  Z.abs (getNearestWidth 1000 - 1000) <= Z.abs (1200 - 1000).
Proof.
  refine (proj1 (proj2 (snaps_to_nearest_allowed_width 1000 _) 1200 _)).
  - unfold noOverflow, goint.MinInt, goint.MaxInt, goint.bits. simpl. lia.
  - simpl. tauto.
Defined.

(** X11.  Whatever the input, the result of [getNearestWidth] is one of
    the ten allowed widths; an allowed width is returned as it is, so
    snapping a snapped width changes nothing. *)
Theorem snapping_is_idempotent :
  (forall width, In (getNearestWidth width) AllowedWidths) /\
  (forall a, In a AllowedWidths -> getNearestWidth a = a) /\
  (forall width, getNearestWidth (getNearestWidth width) = getNearestWidth width).
Proof.
  assert (Fix : forall a, In a AllowedWidths -> getNearestWidth a = a).
  { intros a Ha. apply allowed_cases in Ha.
    repeat (destruct Ha as [Ha|Ha]; [subst a; vm_compute; reflexivity|]).
    subst a. vm_compute. reflexivity. }
  split; [exact Width.getNearestWidth_allowed|]. split; [exact Fix|].
  intros width. apply Fix, Width.getNearestWidth_allowed.
Qed.

Lemma snapping_is_idempotent_witness : getNearestWidth 1080 = 1080.
Proof.
  refine (proj1 (proj2 snapping_is_idempotent) 1080 _).
  simpl. tauto.
Defined.

(** X12.  On widths in range snapping is monotone: a larger requested
    width never gets a smaller allowed width. *)
Theorem snapping_is_monotone (x y : Z) :
  noOverflow x -> noOverflow y -> x <= y ->
  getNearestWidth x <= getNearestWidth y.
Proof.
  intros Hx Hy Hle.
  destruct (Width.getNearestWidth_nearest x Hx) as [Hix Hnx].
  destruct (Width.getNearestWidth_nearest y Hy) as [Hiy Hny].
  destruct (Hnx _ Hiy) as [H1 H2].
  destruct (Hny _ Hix) as [H3 H4].
  lia.
Qed.

Lemma snapping_is_monotone_witness : getNearestWidth 700 <= getNearestWidth 800.
Proof.
  apply snapping_is_monotone;
    unfold noOverflow, goint.MinInt, goint.MaxInt, goint.bits; simpl; lia.
Defined.

(** X13.  The two ends of the scale: every width in range up to 320,
    zero and the negative ones included, snaps to 256, and every width
    above 2944 snaps to 3840; no width is refused. *)
Theorem small_and_large_widths_are_clamped (width : Z) :
  noOverflow width ->
  (width <= 320 -> getNearestWidth width = 256) /\
  (2944 < width -> getNearestWidth width = 3840).
Proof.
  intros Hw.
  destruct (Width.getNearestWidth_nearest width Hw) as [Hin Hn].
  pose proof (Hn 256 ltac:(simpl; tauto)) as [L1 L2].
  pose proof (Hn 3840 ltac:(simpl; tauto)) as [U1 U2].
  apply allowed_cases in Hin.
  split; intros H; lia.
Qed.

Lemma small_and_large_widths_are_clamped_witness :
  getNearestWidth (-5) = 256 /\ getNearestWidth 100000 = 3840.
Proof.
  split.
  - refine (proj1 (small_and_large_widths_are_clamped (-5) _) _);
      [unfold noOverflow, goint.MinInt, goint.MaxInt, goint.bits; simpl; lia|lia].
  - refine (proj2 (small_and_large_widths_are_clamped 100000 _) _);
      [unfold noOverflow, goint.MinInt, goint.MaxInt, goint.bits; simpl; lia|lia].
Defined.

End Snapping.

(** ** Package [cdn]: the base URL of a storage key *)

Module StorageKey.
Import types cdn.

Lemma length_append (a b : string) :
  String.length (a ++ b) = (String.length a + String.length b)%nat.
Proof. induction a as [|x a IH]; simpl; [reflexivity|now rewrite IH]. Qed.

Lemma substring_prefix (a b : string) :
  substring 0 (String.length a) (a ++ b) = a.
Proof. induction a as [|x a IH]; simpl; [now destruct b|now rewrite IH]. Qed.

Lemma substring_suffix (a b : string) :
  substring (String.length a) (String.length b) (a ++ b) = b.
Proof.
  induction a as [|x a IH]; simpl; [|exact IH].
  induction b as [|y b IHb]; simpl; [reflexivity|now rewrite IHb].
Qed.

Lemma TrimSuffix_append (a p : string) : gostd.TrimSuffix (a ++ p) p = a.
Proof.
  unfold gostd.TrimSuffix, gostd.HasSuffix.
  rewrite length_append.
  replace (String.length a + String.length p - String.length p)%nat
    with (String.length a) by lia.
  rewrite substring_suffix, String.eqb_refl, substring_prefix.
  replace (String.length p <=? String.length a + String.length p)%nat with true
    by (symmetry; apply Nat.leb_le; lia).
  reflexivity.
Qed.

(** X14.  For a storage key the base URL is the configured CDN URL, a
    slash and the key as given.  Exactly one trailing slash of the CDN
    URL is dropped first, so a CDN URL configured with or without a
    trailing slash gives the same transform URL. *)
Theorem one_trailing_slash_is_dropped
        (h : client.HTTPClient) (base key : string) (options : option TransformOptions) :
  isFullURL key = false ->
  resolveBaseURL (NewClient h (base ++ "/")) key = inr (base ++ "/" ++ key) /\
  (base <> "" -> gostd.HasSuffix base "/" = false ->
   resolveBaseURL (NewClient h base) key = inr (base ++ "/" ++ key) /\
   GetTransformURL (NewClient h (base ++ "/")) key options
   = GetTransformURL (NewClient h base) key options).
Proof.
  intros Hk. unfold isFullURL in Hk.
  assert (H1 : resolveBaseURL (NewClient h (base ++ "/")) key = inr (base ++ "/" ++ key)).
  { unfold resolveBaseURL. rewrite Hk. cbn [cdnURL].
    rewrite TrimSuffix_append.
    destruct (String.eqb (base ++ "/") "") eqn:E; [|reflexivity].
    apply String.eqb_eq in E. destruct base; discriminate E. }
  split; [exact H1|]. intros Hb Hs.
  assert (H2 : resolveBaseURL (NewClient h base) key = inr (base ++ "/" ++ key)).
  { unfold resolveBaseURL. rewrite Hk. cbn [cdnURL].
    apply String.eqb_neq in Hb. rewrite Hb. simpl.
    unfold gostd.TrimSuffix. now rewrite Hs. }
  split; [exact H2|].
  unfold GetTransformURL. now rewrite H1, H2.
Qed.

Lemma one_trailing_slash_is_dropped_witness :
  GetTransformURL (NewClient examples.apiClient "https://cdn.example.com/")
                  "uploads/a.jpg" (Some examples.widthAndQuality)
  = GetTransformURL (NewClient examples.apiClient "https://cdn.example.com")
                    "uploads/a.jpg" (Some examples.widthAndQuality).
Proof.
  refine (proj2 (proj2 (one_trailing_slash_is_dropped
                          examples.apiClient "https://cdn.example.com" "uploads/a.jpg"
                          (Some examples.widthAndQuality) _) _ _)).
  - reflexivity.
  - discriminate.
  - reflexivity.
Defined.

End StorageKey.

(** ** Query strings and request bodies of the scoped operations *)

Module Queries.
Import types env client poll cdn.


Lemma setOnly_cons_length (f : string * option string) l :
  List.length (setOnly (f :: l))
  = (List.length (setOnly [f]) + List.length (setOnly l))%nat.
Proof. unfold setOnly. simpl. rewrite app_nil_r. apply length_app. Qed.

Lemma setOnly_insertField_length f table :
  List.length (setOnly (insertField f table))
  = (List.length (setOnly [f]) + List.length (setOnly table))%nat.
Proof.
  induction table as [|g table IH]; simpl insertField.
  - simpl. lia.
  - destruct (String.leb (fst f) (fst g)).
    + apply setOnly_cons_length.
    + rewrite (setOnly_cons_length g (insertField f table)), IH,
        (setOnly_cons_length g table). lia.
Qed.

Lemma setOnly_sortFields_length fields :
  List.length (setOnly (sortFields fields)) = List.length (setOnly fields).
Proof.
  induction fields as [|f fields IH]; [reflexivity|].
  simpl sortFields.
  rewrite setOnly_insertField_length, IH, (setOnly_cons_length f fields). reflexivity.
Qed.

(** A chain of conditional [Set] calls on distinct names followed by
    [Encode] yields the set parameters in ascending name order. *)
Lemma withQuery_fields path fields :
  distinctNames (map fst fields) = true ->
  insertable fields = true ->
  withQuery path (fold_left setStep fields [])
  = withParameters path (setOnly (sortFields fields)).
Proof.
  intros Hd Hi.
  rewrite (Transform.fold_setStep fields [] Hd) by (intros k _; reflexivity).
  simpl app. unfold withQuery, withParameters.
  pose proof (setOnly_sortFields_length fields) as Hl.
  assert (He : List.length (entries fields) = List.length (setOnly fields))
    by (unfold entries; apply length_map).
  rewrite He, <- Hl.
  destruct (setOnly (sortFields fields)) as [|x l] eqn:E; simpl List.length.
  - reflexivity.
  - rewrite Transform.Encode_entries by exact Hi. rewrite E. reflexivity.
Qed.


Section Requests.
Context (w : World) (c : HTTPClient) {errorResponseDecoder : Decoder ErrorResponse}.

(** What a request with a body leaves on the wire. *)
Lemma body_request_sent {B T} (E : Encoder B) (D : Decoder T) t method path (body : B) :
  sent (snd (finish (T := T) (doRequest w c t method path (Some body)))) = sent t \/
  exists payload,
    Marshal body = inr payload /\
    sent (snd (finish (T := T) (doRequest w c t method path (Some body))))
    = List.app (sent t)
               [mkRequest method (baseURL c ++ path)
                          [("Authorization", "Bearer " ++ apiKey c);
                           ("Content-Type", "application/json")]
                          (Some payload)].
Proof.
  unfold finish, doRequest.
  destruct (Marshal body) as [me|bytes]; [now left|].
  destruct (newRequestError w method (baseURL c ++ path)); [now left|].
  right. exists bytes. split; [reflexivity|].
  destruct (roundTrip w (List.length (sent t))) as [e|resp]; [reflexivity|].
  destruct (resp_Body resp) as [e|respBody]; [reflexivity|].
  cbv zeta.
  destruct (400 <=? resp_StatusCode resp); [|reflexivity].
  destruct (Unmarshal respBody) as [er [e|]]; reflexivity.
Qed.

End Requests.

(** *** Maps as request bodies *)

Lemma objGet_objSet m k v k' :
  objGet (objSet m k v) k' = if String.eqb k k' then Some v else objGet m k'.
Proof.
  induction m as [|[k0 x] m IH]; simpl.
  - reflexivity.
  - destruct (String.eqb k0 k) eqn:E; simpl.
    + apply String.eqb_eq in E. subst k0.
      destruct (String.eqb k k'); reflexivity.
    + rewrite IH. destruct (String.eqb k0 k') eqn:E'; [|reflexivity].
      apply String.eqb_eq in E'. subst k'. now rewrite String.eqb_sym, E.
Qed.

Lemma objGet_objSetOpt m k f k' :
  objGet (objSetOpt m k f) k'
  = if String.eqb k k' then match f with Some v => Some v | None => objGet m k' end
    else objGet m k'.
Proof.
  destruct f as [v|]; simpl.
  - apply objGet_objSet.
  - now destruct (String.eqb k k').
Qed.

Ltac by_key k :=
  repeat match goal with
         | |- context [String.eqb ?s k] =>
             let E := fresh "E" in
             destruct (String.eqb s k) eqn:E;
             [apply String.eqb_eq in E; subst k; simpl|]
         end.



Section Scoped.
Context (w : World) (c : HTTPClient).
Context {errorResponseDecoder : Decoder ErrorResponse}
        {objectEncoder : Encoder Object}
        {extractionDecoder : Decoder extraction.ExtractionResult.t}
        {extractBatchJobDecoder : Decoder extraction.BatchExtractionJob.t}
        {extractSuccessDecoder : Decoder extraction.SuccessResponse.t}
        {extractToggleDecoder : Decoder extraction.ToggleResponse.t}
        {extractCreateScheduleDecoder : Decoder extraction.CreateScheduleResponse.t}
        {screenshotDecoder : Decoder screenshots.Screenshot.t}
        {captureBatchJobDecoder : Decoder screenshots.BatchScreenshotJob.t}
        {captureSuccessDecoder : Decoder screenshots.SuccessResponse.t}
        {captureToggleDecoder : Decoder screenshots.ToggleResponse.t}
        {captureCreateScheduleDecoder : Decoder screenshots.CreateScheduleResponse.t}.




(** X19.  [CreateSchedule] sends at most one request: a POST for
    [/webdata/schedules], without any query string.  Its body always
    holds the job type of the package under [type] and the name and the
    URL of the request, empty or not; every optional field has an entry
    exactly when the request sets it; the environment and the project
    travel in the body only. *)
Theorem create_schedule_body_and_path :
  (forall t req,
      (forall k,
          objGet (extraction.CreateScheduleBody req) k
          = fieldValue [ ("type", Some (AString "extraction"));
                         ("name", Some (AString (extraction.CreateExtractionScheduleRequest.Name req)));
                         ("url", Some (AString (extraction.CreateExtractionScheduleRequest.URL req)));
                         ("environment", option_map AString (extraction.CreateExtractionScheduleRequest.Environment req));
                         ("projectId", option_map AString (extraction.CreateExtractionScheduleRequest.ProjectID req));
                         ("frequency", option_map AString (extraction.CreateExtractionScheduleRequest.Frequency req));
                         ("config", option_map ANested (extraction.CreateExtractionScheduleRequest.Config req));
                         ("detectChanges", option_map ABool (extraction.CreateExtractionScheduleRequest.DetectChanges req));
                         ("changeThreshold", option_map AInt (extraction.CreateExtractionScheduleRequest.ChangeThreshold req));
                         ("webhookUrl", option_map AString (extraction.CreateExtractionScheduleRequest.WebhookURL req));
                         ("webhookSecret", option_map AString (extraction.CreateExtractionScheduleRequest.WebhookSecret req));
                         ("metadata", option_map ANested (extraction.CreateExtractionScheduleRequest.Metadata req)) ] k) /\
      (sent (snd (extraction.CreateSchedule w c t req)) = sent t \/
       exists payload,
         Marshal (extraction.CreateScheduleBody req) = inr payload /\
         sent (snd (extraction.CreateSchedule w c t req))
         = List.app (sent t)
             [mkRequest "POST" (baseURL c ++ "/webdata/schedules")
                        [("Authorization", "Bearer " ++ apiKey c);
                         ("Content-Type", "application/json")]
                        (Some payload)])) /\
  (forall t req,
      (forall k,
          objGet (screenshots.CreateScheduleBody req) k
          = fieldValue [ ("type", Some (AString "screenshot"));
                         ("name", Some (AString (screenshots.CreateScreenshotScheduleRequest.Name req)));
                         ("url", Some (AString (screenshots.CreateScreenshotScheduleRequest.URL req)));
                         ("environment", option_map AString (screenshots.CreateScreenshotScheduleRequest.Environment req));
                         ("projectId", option_map AString (screenshots.CreateScreenshotScheduleRequest.ProjectID req));
                         ("frequency", option_map AString (screenshots.CreateScreenshotScheduleRequest.Frequency req));
                         ("config", option_map ANested (screenshots.CreateScreenshotScheduleRequest.Config req));
                         ("detectChanges", option_map ABool (screenshots.CreateScreenshotScheduleRequest.DetectChanges req));
                         ("changeThreshold", option_map AInt (screenshots.CreateScreenshotScheduleRequest.ChangeThreshold req));
                         ("webhookUrl", option_map AString (screenshots.CreateScreenshotScheduleRequest.WebhookURL req));
                         ("webhookSecret", option_map AString (screenshots.CreateScreenshotScheduleRequest.WebhookSecret req));
                         ("metadata", option_map ANested (screenshots.CreateScreenshotScheduleRequest.Metadata req)) ] k) /\
      (sent (snd (screenshots.CreateSchedule w c t req)) = sent t \/
       exists payload,
         Marshal (screenshots.CreateScheduleBody req) = inr payload /\
         sent (snd (screenshots.CreateSchedule w c t req))
         = List.app (sent t)
             [mkRequest "POST" (baseURL c ++ "/webdata/schedules")
                        [("Authorization", "Bearer " ++ apiKey c);
                         ("Content-Type", "application/json")]
                        (Some payload)])).
Proof.
  split; intros t req; split.
  - intros k. unfold extraction.CreateScheduleBody. rewrite !objGet_objSetOpt. unfold fieldValue. cbn [objGet find fst snd].
    by_key k;
      repeat match goal with
             | |- context [option_map ?f ?o] => destruct o; simpl
             end; reflexivity.
  - exact (body_request_sent w c _ _ t MethodPost "/webdata/schedules" (extraction.CreateScheduleBody req)).
  - intros k. unfold screenshots.CreateScheduleBody. rewrite !objGet_objSetOpt. unfold fieldValue. cbn [objGet find fst snd].
    by_key k;
      repeat match goal with
             | |- context [option_map ?f ?o] => destruct o; simpl
             end; reflexivity.
  - exact (body_request_sent w c _ _ t MethodPost "/webdata/schedules" (screenshots.CreateScheduleBody req)).
Qed.


End Scoped.

(** [Encode] after a chain of conditional [Set] calls on distinct names. *)
Lemma encode_fields fields :
  distinctNames (map fst fields) = true ->
  insertable fields = true ->
  url.Encode (fold_left setStep fields []) = queryString (setOnly (sortFields fields)).
Proof.
  intros Hd Hi.
  rewrite (Transform.fold_setStep fields [] Hd) by (intros k _; reflexivity).
  simpl app. now rewrite Transform.Encode_entries.
Qed.

(** X21.  The query string of each list request of package [cdn], and
    of [GetFolderTree], holds the project slug where the request has one
    and the filters that are set, and no others, each once as
    [name=value] with name and value query-escaped, in ascending order of
    the names; the tags of [List] travel as one [tags] parameter, joined
    by commas, when there is at least one tag. *)
Theorem cdn_list_queries :
  (forall req,
      cdn.ListPath req
      = "/cdn/assets?"
        ++ queryString
             (setOnly
                [ ("folder", cdn.ListAssetsRequest.Folder req);
                  ("limit", cdn.itoa (cdn.ListAssetsRequest.Limit req));
                  ("offset", cdn.itoa (cdn.ListAssetsRequest.Offset req));
                  ("projectSlug", Some (cdn.ListAssetsRequest.ProjectSlug req));
                  ("search", cdn.ListAssetsRequest.Search req);
                  ("sortBy", cdn.ListAssetsRequest.SortBy req);
                  ("sortOrder", cdn.ListAssetsRequest.SortOrder req);
                  ("status", cdn.ListAssetsRequest.Status req);
                  ("tags", if (0 <? List.length (cdn.ListAssetsRequest.Tags req))%nat then Some (gostd.Join (cdn.ListAssetsRequest.Tags req) ",") else None);
                  ("type", cdn.ListAssetsRequest.Type_ req) ])) /\
  (forall req,
      cdn.ListFoldersPath (Some req)
      = withParameters "/cdn/folders"
          (setOnly
             [ ("limit", cdn.itoa (cdn.ListFoldersRequest.Limit req));
               ("offset", cdn.itoa (cdn.ListFoldersRequest.Offset req));
               ("parentId", cdn.ListFoldersRequest.ParentID req);
               ("search", cdn.ListFoldersRequest.Search req) ])) /\
  (forall req,
      cdn.GetFolderTreePath req
      = "/cdn/folders/tree?"
        ++ queryString
             (setOnly
                [ ("maxDepth", cdn.itoa (cdn.GetFolderTreeRequest.MaxDepth req));
                  ("projectSlug", Some (cdn.GetFolderTreeRequest.ProjectSlug req)) ])) /\
  (forall req,
      cdn.ListJobsPath req
      = "/cdn/video/jobs?"
        ++ queryString
             (setOnly
                [ ("assetId", cdn.ListJobsRequest.AssetID req);
                  ("limit", cdn.itoa (cdn.ListJobsRequest.Limit req));
                  ("offset", cdn.itoa (cdn.ListJobsRequest.Offset req));
                  ("projectSlug", Some (cdn.ListJobsRequest.ProjectSlug req));
                  ("status", cdn.ListJobsRequest.Status req) ])) /\
  (forall req,
      cdn.ListMergeJobsPath req
      = "/cdn/video/merge?"
        ++ queryString
             (setOnly
                [ ("limit", cdn.itoa (cdn.ListMergeJobsRequest.Limit req));
                  ("offset", cdn.itoa (cdn.ListMergeJobsRequest.Offset req));
                  ("projectSlug", Some (cdn.ListMergeJobsRequest.ProjectSlug req));
                  ("status", cdn.ListMergeJobsRequest.Status req) ])) /\
  (forall req,
      cdn.ListPrivateFilesPath req
      = "/cdn/private?"
        ++ queryString
             (setOnly
                [ ("folder", cdn.ListPrivateFilesRequest.Folder req);
                  ("limit", cdn.itoa (cdn.ListPrivateFilesRequest.Limit req));
                  ("offset", cdn.itoa (cdn.ListPrivateFilesRequest.Offset req));
                  ("projectSlug", Some (cdn.ListPrivateFilesRequest.ProjectSlug req));
                  ("search", cdn.ListPrivateFilesRequest.Search req);
                  ("sortBy", cdn.ListPrivateFilesRequest.SortBy req);
                  ("sortOrder", cdn.ListPrivateFilesRequest.SortOrder req);
                  ("status", cdn.ListPrivateFilesRequest.Status req) ])) /\
  (forall req,
      cdn.ListBundlesPath req
      = "/cdn/bundles?"
        ++ queryString
             (setOnly
                [ ("limit", cdn.itoa (cdn.ListBundlesRequest.Limit req));
                  ("offset", cdn.itoa (cdn.ListBundlesRequest.Offset req));
                  ("projectSlug", Some (cdn.ListBundlesRequest.ProjectSlug req));
                  ("search", cdn.ListBundlesRequest.Search req);
                  ("status", cdn.ListBundlesRequest.Status req) ])) /\
  (forall req,
      cdn.ListImportsPath req
      = "/cdn/imports?"
        ++ queryString
             (setOnly
                [ ("environment", cdn.ListImportsRequest.Environment req);
                  ("limit", cdn.itoa (cdn.ListImportsRequest.Limit req));
                  ("offset", cdn.itoa (cdn.ListImportsRequest.Offset req));
                  ("projectSlug", Some (cdn.ListImportsRequest.ProjectSlug req));
                  ("sortBy", cdn.ListImportsRequest.SortBy req);
                  ("sortOrder", cdn.ListImportsRequest.SortOrder req);
                  ("status", cdn.ListImportsRequest.Status req) ])) /\
  (forall req,
      cdn.ListImportFilesPath req
      = withParameters ("/cdn/imports/" ++ cdn.ListImportFilesRequest.ImportID req ++ "/files")
          (setOnly
             [ ("limit", cdn.itoa (cdn.ListImportFilesRequest.Limit req));
               ("offset", cdn.itoa (cdn.ListImportFilesRequest.Offset req));
               ("sortBy", cdn.ListImportFilesRequest.SortBy req);
               ("sortOrder", cdn.ListImportFilesRequest.SortOrder req);
               ("status", cdn.ListImportFilesRequest.Status req) ])).
Proof.
  repeat split; intros req.
  - unfold cdn.ListPath.
    destruct (0 <? List.length (cdn.ListAssetsRequest.Tags req))%nat.
    + exact (f_equal (fun q => "/cdn/assets?" ++ q)
               (encode_fields
                  [ ("projectSlug", Some (cdn.ListAssetsRequest.ProjectSlug req));
                    ("folder", cdn.ListAssetsRequest.Folder req);
                    ("type", cdn.ListAssetsRequest.Type_ req);
                    ("status", cdn.ListAssetsRequest.Status req);
                    ("search", cdn.ListAssetsRequest.Search req);
                    ("tags", Some (gostd.Join (cdn.ListAssetsRequest.Tags req) ","));
                    ("sortBy", cdn.ListAssetsRequest.SortBy req);
                    ("sortOrder", cdn.ListAssetsRequest.SortOrder req);
                    ("limit", cdn.itoa (cdn.ListAssetsRequest.Limit req));
                    ("offset", cdn.itoa (cdn.ListAssetsRequest.Offset req)) ]
                  eq_refl eq_refl)).
    + exact (f_equal (fun q => "/cdn/assets?" ++ q)
               (encode_fields
                  [ ("projectSlug", Some (cdn.ListAssetsRequest.ProjectSlug req));
                    ("folder", cdn.ListAssetsRequest.Folder req);
                    ("type", cdn.ListAssetsRequest.Type_ req);
                    ("status", cdn.ListAssetsRequest.Status req);
                    ("search", cdn.ListAssetsRequest.Search req);
                    ("tags", None);
                    ("sortBy", cdn.ListAssetsRequest.SortBy req);
                    ("sortOrder", cdn.ListAssetsRequest.SortOrder req);
                    ("limit", cdn.itoa (cdn.ListAssetsRequest.Limit req));
                    ("offset", cdn.itoa (cdn.ListAssetsRequest.Offset req)) ]
                  eq_refl eq_refl)).
  - exact (withQuery_fields "/cdn/folders"
             [ ("parentId", cdn.ListFoldersRequest.ParentID req);
               ("limit", cdn.itoa (cdn.ListFoldersRequest.Limit req));
               ("offset", cdn.itoa (cdn.ListFoldersRequest.Offset req));
               ("search", cdn.ListFoldersRequest.Search req) ]
             eq_refl eq_refl).
  - exact (f_equal (fun q => "/cdn/folders/tree?" ++ q)
             (encode_fields
                [ ("projectSlug", Some (cdn.GetFolderTreeRequest.ProjectSlug req));
                  ("maxDepth", cdn.itoa (cdn.GetFolderTreeRequest.MaxDepth req)) ]
                eq_refl eq_refl)).
  - exact (f_equal (fun q => "/cdn/video/jobs?" ++ q)
             (encode_fields
                [ ("projectSlug", Some (cdn.ListJobsRequest.ProjectSlug req));
                  ("assetId", cdn.ListJobsRequest.AssetID req);
                  ("status", cdn.ListJobsRequest.Status req);
                  ("limit", cdn.itoa (cdn.ListJobsRequest.Limit req));
                  ("offset", cdn.itoa (cdn.ListJobsRequest.Offset req)) ]
                eq_refl eq_refl)).
  - exact (f_equal (fun q => "/cdn/video/merge?" ++ q)
             (encode_fields
                [ ("projectSlug", Some (cdn.ListMergeJobsRequest.ProjectSlug req));
                  ("status", cdn.ListMergeJobsRequest.Status req);
                  ("limit", cdn.itoa (cdn.ListMergeJobsRequest.Limit req));
                  ("offset", cdn.itoa (cdn.ListMergeJobsRequest.Offset req)) ]
                eq_refl eq_refl)).
  - exact (f_equal (fun q => "/cdn/private?" ++ q)
             (encode_fields
                [ ("projectSlug", Some (cdn.ListPrivateFilesRequest.ProjectSlug req));
                  ("folder", cdn.ListPrivateFilesRequest.Folder req);
                  ("status", cdn.ListPrivateFilesRequest.Status req);
                  ("search", cdn.ListPrivateFilesRequest.Search req);
                  ("sortBy", cdn.ListPrivateFilesRequest.SortBy req);
                  ("sortOrder", cdn.ListPrivateFilesRequest.SortOrder req);
                  ("limit", cdn.itoa (cdn.ListPrivateFilesRequest.Limit req));
                  ("offset", cdn.itoa (cdn.ListPrivateFilesRequest.Offset req)) ]
                eq_refl eq_refl)).
  - exact (f_equal (fun q => "/cdn/bundles?" ++ q)
             (encode_fields
                [ ("projectSlug", Some (cdn.ListBundlesRequest.ProjectSlug req));
                  ("status", cdn.ListBundlesRequest.Status req);
                  ("search", cdn.ListBundlesRequest.Search req);
                  ("limit", cdn.itoa (cdn.ListBundlesRequest.Limit req));
                  ("offset", cdn.itoa (cdn.ListBundlesRequest.Offset req)) ]
                eq_refl eq_refl)).
  - exact (f_equal (fun q => "/cdn/imports?" ++ q)
             (encode_fields
                [ ("projectSlug", Some (cdn.ListImportsRequest.ProjectSlug req));
                  ("environment", cdn.ListImportsRequest.Environment req);
                  ("status", cdn.ListImportsRequest.Status req);
                  ("sortBy", cdn.ListImportsRequest.SortBy req);
                  ("sortOrder", cdn.ListImportsRequest.SortOrder req);
                  ("limit", cdn.itoa (cdn.ListImportsRequest.Limit req));
                  ("offset", cdn.itoa (cdn.ListImportsRequest.Offset req)) ]
                eq_refl eq_refl)).
  - exact (withQuery_fields ("/cdn/imports/" ++ cdn.ListImportFilesRequest.ImportID req ++ "/files")
             [ ("status", cdn.ListImportFilesRequest.Status req);
               ("sortBy", cdn.ListImportFilesRequest.SortBy req);
               ("sortOrder", cdn.ListImportFilesRequest.SortOrder req);
               ("limit", cdn.itoa (cdn.ListImportFilesRequest.Limit req));
               ("offset", cdn.itoa (cdn.ListImportFilesRequest.Offset req)) ]
             eq_refl eq_refl).
Qed.

(** X22.  The query string of each list request of package [mail] holds
    the filters that are set and no others (and the project slug of
    [DomainsClient.List], which is not optional), each once as
    [name=value] with name and value query-escaped, in ascending order of
    the names. *)
Theorem mail_list_queries :
  (forall req,
      mail.Client_ListPath (Some req)
      = withParameters "/mail"
          (setOnly
             [ ("endDate", option_map mail.Format (mail.ListEmailsRequest.EndDate req));
               ("environment", mail.ListEmailsRequest.Environment req);
               ("from", mail.ListEmailsRequest.From req);
               ("limit", mail.itoa (mail.ListEmailsRequest.Limit req));
               ("offset", mail.itoa (mail.ListEmailsRequest.Offset req));
               ("projectSlug", mail.ListEmailsRequest.ProjectSlug req);
               ("sortBy", mail.ListEmailsRequest.SortBy req);
               ("sortOrder", mail.ListEmailsRequest.SortOrder req);
               ("startDate", option_map mail.Format (mail.ListEmailsRequest.StartDate req));
               ("status", mail.ListEmailsRequest.Status req);
               ("subject", mail.ListEmailsRequest.Subject req);
               ("tag", mail.ListEmailsRequest.Tag req);
               ("to", mail.ListEmailsRequest.To req) ])) /\
  (forall req,
      mail.Client_ListSendersPath (Some req)
      = withParameters "/mail/senders"
          (setOnly
             [ ("environment", mail.ListSendersRequest.Environment req);
               ("projectSlug", mail.ListSendersRequest.ProjectSlug req);
               ("search", mail.ListSendersRequest.Search req) ])) /\
  (forall req,
      mail.DomainsClient_ListPath req
      = "/mail/domains?"
        ++ queryString
             (setOnly
                [ ("environment", mail.ListDomainsRequest.Environment req);
                  ("projectSlug", Some (mail.ListDomainsRequest.ProjectSlug req)) ])) /\
  (forall req,
      mail.CampaignsClient_ListPath (Some req)
      = withParameters "/mail/campaigns"
          (setOnly
             [ ("environment", mail.ListCampaignsRequest.Environment req);
               ("limit", mail.itoa (mail.ListCampaignsRequest.Limit req));
               ("offset", mail.itoa (mail.ListCampaignsRequest.Offset req));
               ("search", mail.ListCampaignsRequest.Search req);
               ("status", mail.ListCampaignsRequest.Status req) ])) /\
  (forall req,
      mail.SequencesClient_ListPath (Some req)
      = withParameters "/mail/sequences"
          (setOnly
             [ ("environment", mail.ListSequencesRequest.Environment req);
               ("limit", mail.itoa (mail.ListSequencesRequest.Limit req));
               ("offset", mail.itoa (mail.ListSequencesRequest.Offset req));
               ("search", mail.ListSequencesRequest.Search req);
               ("status", mail.ListSequencesRequest.Status req);
               ("triggerType", mail.ListSequencesRequest.TriggerType req) ])) /\
  (forall req,
      mail.SequencesClient_ListEntriesPath req
      = withParameters ("/mail/sequences/" ++ mail.ListSequenceEntriesRequest.ID req ++ "/entries")
          (setOnly
             [ ("limit", mail.itoa (mail.ListSequenceEntriesRequest.Limit req));
               ("offset", mail.itoa (mail.ListSequenceEntriesRequest.Offset req));
               ("status", mail.ListSequenceEntriesRequest.Status req) ])) /\
  (forall req,
      mail.EventsClient_ListPath (Some req)
      = withParameters "/mail/events"
          (setOnly
             [ ("environment", mail.ListEventsRequest.Environment req);
               ("limit", mail.itoa (mail.ListEventsRequest.Limit req));
               ("offset", mail.itoa (mail.ListEventsRequest.Offset req));
               ("projectSlug", mail.ListEventsRequest.ProjectSlug req);
               ("search", mail.ListEventsRequest.Search req) ])) /\
  (forall req,
      mail.EventsClient_ListOccurrencesPath (Some req)
      = withParameters "/mail/events/occurrences"
          (setOnly
             [ ("contactId", mail.ListEventOccurrencesRequest.ContactID req);
               ("endDate", option_map mail.Format (mail.ListEventOccurrencesRequest.EndDate req));
               ("eventId", mail.ListEventOccurrencesRequest.EventID req);
               ("limit", mail.itoa (mail.ListEventOccurrencesRequest.Limit req));
               ("offset", mail.itoa (mail.ListEventOccurrencesRequest.Offset req));
               ("startDate", option_map mail.Format (mail.ListEventOccurrencesRequest.StartDate req)) ])) /\
  (forall req,
      mail.TemplatesClient_ListPath (Some req)
      = withParameters "/mail/templates"
          (setOnly
             [ ("environment", mail.ListTemplatesRequest.Environment req);
               ("isActive", option_map gostd.FormatBool (mail.ListTemplatesRequest.IsActive req));
               ("limit", mail.itoa (mail.ListTemplatesRequest.Limit req));
               ("offset", mail.itoa (mail.ListTemplatesRequest.Offset req));
               ("search", mail.ListTemplatesRequest.Search req) ])) /\
  (forall req,
      mail.ContactsClient_ListPath (Some req)
      = withParameters "/mail/contacts"
          (setOnly
             [ ("environment", mail.ListContactsRequest.Environment req);
               ("limit", mail.itoa (mail.ListContactsRequest.Limit req));
               ("offset", mail.itoa (mail.ListContactsRequest.Offset req));
               ("search", mail.ListContactsRequest.Search req);
               ("status", mail.ListContactsRequest.Status req) ])) /\
  (forall req,
      mail.AudiencesClient_ListPath (Some req)
      = withParameters "/mail/audiences"
          (setOnly
             [ ("environment", mail.ListAudiencesRequest.Environment req);
               ("limit", mail.itoa (mail.ListAudiencesRequest.Limit req));
               ("offset", mail.itoa (mail.ListAudiencesRequest.Offset req));
               ("search", mail.ListAudiencesRequest.Search req) ])) /\
  (forall req,
      mail.AudiencesClient_ListContactsPath req
      = withParameters ("/mail/audiences/" ++ mail.ListAudienceContactsRequest.ID req ++ "/contacts")
          (setOnly
             [ ("environment", mail.ListAudienceContactsRequest.Environment req);
               ("limit", mail.itoa (mail.ListAudienceContactsRequest.Limit req));
               ("offset", mail.itoa (mail.ListAudienceContactsRequest.Offset req));
               ("search", mail.ListAudienceContactsRequest.Search req);
               ("status", mail.ListAudienceContactsRequest.Status req) ])).
Proof.
  repeat split; intros req.
  - exact (withQuery_fields "/mail"
             [ ("projectSlug", mail.ListEmailsRequest.ProjectSlug req);
               ("environment", mail.ListEmailsRequest.Environment req);
               ("limit", mail.itoa (mail.ListEmailsRequest.Limit req));
               ("offset", mail.itoa (mail.ListEmailsRequest.Offset req));
               ("status", mail.ListEmailsRequest.Status req);
               ("from", mail.ListEmailsRequest.From req);
               ("to", mail.ListEmailsRequest.To req);
               ("subject", mail.ListEmailsRequest.Subject req);
               ("tag", mail.ListEmailsRequest.Tag req);
               ("startDate", option_map mail.Format (mail.ListEmailsRequest.StartDate req));
               ("endDate", option_map mail.Format (mail.ListEmailsRequest.EndDate req));
               ("sortBy", mail.ListEmailsRequest.SortBy req);
               ("sortOrder", mail.ListEmailsRequest.SortOrder req) ]
             eq_refl eq_refl).
  - exact (withQuery_fields "/mail/senders"
             [ ("projectSlug", mail.ListSendersRequest.ProjectSlug req);
               ("environment", mail.ListSendersRequest.Environment req);
               ("search", mail.ListSendersRequest.Search req) ]
             eq_refl eq_refl).
  - exact (f_equal (fun q => "/mail/domains?" ++ q)
             (encode_fields
                [ ("projectSlug", Some (mail.ListDomainsRequest.ProjectSlug req));
                  ("environment", mail.ListDomainsRequest.Environment req) ]
                eq_refl eq_refl)).
  - exact (withQuery_fields "/mail/campaigns"
             [ ("environment", mail.ListCampaignsRequest.Environment req);
               ("limit", mail.itoa (mail.ListCampaignsRequest.Limit req));
               ("offset", mail.itoa (mail.ListCampaignsRequest.Offset req));
               ("search", mail.ListCampaignsRequest.Search req);
               ("status", mail.ListCampaignsRequest.Status req) ]
             eq_refl eq_refl).
  - exact (withQuery_fields "/mail/sequences"
             [ ("environment", mail.ListSequencesRequest.Environment req);
               ("limit", mail.itoa (mail.ListSequencesRequest.Limit req));
               ("offset", mail.itoa (mail.ListSequencesRequest.Offset req));
               ("search", mail.ListSequencesRequest.Search req);
               ("status", mail.ListSequencesRequest.Status req);
               ("triggerType", mail.ListSequencesRequest.TriggerType req) ]
             eq_refl eq_refl).
  - exact (withQuery_fields ("/mail/sequences/" ++ mail.ListSequenceEntriesRequest.ID req ++ "/entries")
             [ ("limit", mail.itoa (mail.ListSequenceEntriesRequest.Limit req));
               ("offset", mail.itoa (mail.ListSequenceEntriesRequest.Offset req));
               ("status", mail.ListSequenceEntriesRequest.Status req) ]
             eq_refl eq_refl).
  - exact (withQuery_fields "/mail/events"
             [ ("projectSlug", mail.ListEventsRequest.ProjectSlug req);
               ("environment", mail.ListEventsRequest.Environment req);
               ("limit", mail.itoa (mail.ListEventsRequest.Limit req));
               ("offset", mail.itoa (mail.ListEventsRequest.Offset req));
               ("search", mail.ListEventsRequest.Search req) ]
             eq_refl eq_refl).
  - exact (withQuery_fields "/mail/events/occurrences"
             [ ("eventId", mail.ListEventOccurrencesRequest.EventID req);
               ("contactId", mail.ListEventOccurrencesRequest.ContactID req);
               ("limit", mail.itoa (mail.ListEventOccurrencesRequest.Limit req));
               ("offset", mail.itoa (mail.ListEventOccurrencesRequest.Offset req));
               ("startDate", option_map mail.Format (mail.ListEventOccurrencesRequest.StartDate req));
               ("endDate", option_map mail.Format (mail.ListEventOccurrencesRequest.EndDate req)) ]
             eq_refl eq_refl).
  - exact (withQuery_fields "/mail/templates"
             [ ("environment", mail.ListTemplatesRequest.Environment req);
               ("limit", mail.itoa (mail.ListTemplatesRequest.Limit req));
               ("offset", mail.itoa (mail.ListTemplatesRequest.Offset req));
               ("isActive", option_map gostd.FormatBool (mail.ListTemplatesRequest.IsActive req));
               ("search", mail.ListTemplatesRequest.Search req) ]
             eq_refl eq_refl).
  - exact (withQuery_fields "/mail/contacts"
             [ ("environment", mail.ListContactsRequest.Environment req);
               ("limit", mail.itoa (mail.ListContactsRequest.Limit req));
               ("offset", mail.itoa (mail.ListContactsRequest.Offset req));
               ("search", mail.ListContactsRequest.Search req);
               ("status", mail.ListContactsRequest.Status req) ]
             eq_refl eq_refl).
  - exact (withQuery_fields "/mail/audiences"
             [ ("environment", mail.ListAudiencesRequest.Environment req);
               ("limit", mail.itoa (mail.ListAudiencesRequest.Limit req));
               ("offset", mail.itoa (mail.ListAudiencesRequest.Offset req));
               ("search", mail.ListAudiencesRequest.Search req) ]
             eq_refl eq_refl).
  - exact (withQuery_fields ("/mail/audiences/" ++ mail.ListAudienceContactsRequest.ID req ++ "/contacts")
             [ ("environment", mail.ListAudienceContactsRequest.Environment req);
               ("limit", mail.itoa (mail.ListAudienceContactsRequest.Limit req));
               ("offset", mail.itoa (mail.ListAudienceContactsRequest.Offset req));
               ("search", mail.ListAudienceContactsRequest.Search req);
               ("status", mail.ListAudienceContactsRequest.Status req) ]
             eq_refl eq_refl).
Qed.

Section Folders.
Context (w : World) (c : cdn.Client).
Context {errorResponseDecoder : Decoder ErrorResponse}
        {objectEncoder : Encoder Object}
        {successDecoder : Decoder cdn.SuccessResponse.t}.


End Folders.

End Queries.
